(** * Quality-gated decision pipeline of the spark-runner service

    A shallow embedding of the validation-rule engine
    ([app/quality/quality_checks.py]), the secondary-source fallback
    ([app/pipelines/fallback_pipeline.py]), the degraded-mode guard
    ([app/policy/no_bet_guard.py]) and the retrying, transactional
    persistence of signals ([app/pipelines/scoring_pipeline.py],
    [app/storage/postgres_writer.py]), followed by the properties that the
    specification states about them.

    Conventions.
    - Python dictionaries with string keys are [gmap string PyVal].
    - A Python call that may raise returns a [Result]; [try]/[except] is a
      [match] on it.
    - Objects mutated in place ([self.xxx = ...], [list.append]) are records
      passed in and returned.
    - Floating-point rates are exact rationals ([Q]).  Division of two
      machine integers is correctly rounded and the comparison constants
      [0.20] and [1 - 0.20] are the doubles nearest to 1/5 and 4/5, so for
      every batch that fits in memory the comparisons made by the code
      coincide with the exact ones used here.
    - Calls into the Python runtime whose result is text or a parsed date
      ([repr], [format], [datetime.fromisoformat], [round]) are fields of a
      [Runtime] record; the development is parametric in it. *)

From Stdlib Require Import ZArith QArith Qround String Ascii List Bool Lia.
From stdpp Require Import base option gmap strings list pretty.

Set Warnings "-register-all".
Set Default Proof Using "Type".

Local Open Scope string_scope.
Local Open Scope Z_scope.
Local Open Scope list_scope.

(** ** Python values, exceptions and built-ins *)

Module Py.

Inductive PyVal : Type :=
| PyNone
| PyBool (b : bool)
| PyInt (n : Z)
| PyFloat (q : Q)
| PyStr (s : string)
| PyDatetime (t : Z)          (* naive wall-clock time, in microseconds *)
| PyList (l : list PyVal)
| PyDict (d : gmap string PyVal).

Record PyExn := { exn_class : string; exn_msg : string }.

Inductive Result (A : Type) : Type :=
| Ok (a : A)
| Raise (e : PyExn).
Arguments Ok {A} a.
Arguments Raise {A} e.

#[global] Instance Result_ret : MRet Result := @Ok.
#[global] Instance Result_bind : MBind Result :=
  fun A B f m => match m with Ok a => f a | Raise e => Raise e end.

Definition Qltb (x y : Q) : bool := negb (Qle_bool y x).

(** [bool(v)] *)
Definition truthy (v : PyVal) : bool :=
  match v with
  | PyNone => false
  | PyBool b => b
  | PyInt n => negb (n =? 0)
  | PyFloat q => negb (Qeq_bool q 0)
  | PyStr s => match s with EmptyString => false | _ => true end
  | PyDatetime _ => true
  | PyList l => match l with [] => false | _ => true end
  | PyDict d => negb (Nat.eqb (size d) 0)
  end.

(** [type(v).__name__] *)
Definition type_name (v : PyVal) : string :=
  match v with
  | PyNone => "NoneType"
  | PyBool _ => "bool"
  | PyInt _ => "int"
  | PyFloat _ => "float"
  | PyStr _ => "str"
  | PyDatetime _ => "datetime.datetime"
  | PyList _ => "list"
  | PyDict _ => "dict"
  end.

(** [d.get(k, dflt)] *)
Definition dict_get (d : gmap string PyVal) (k : string) (dflt : PyVal) : PyVal :=
  default dflt (d !! k).

(** The real number behind an instance of [(int, float)]; [bool] is a
    subclass of [int]. *)
Definition as_number (v : PyVal) : option Q :=
  match v with
  | PyBool b => Some (if b then 1%Q else 0%Q)
  | PyInt n => Some (inject_Z n)
  | PyFloat q => Some q
  | _ => None
  end.

(** [isinstance(v, (int, float))] *)
Definition is_number (v : PyVal) : bool :=
  match as_number v with Some _ => true | None => false end.

Definition is_none (v : PyVal) : bool :=
  match v with PyNone => true | _ => false end.

Definition AttributeError (v : PyVal) (attr : string) : PyExn :=
  {| exn_class := "AttributeError";
     exn_msg := "'" +:+ type_name v +:+ "' object has no attribute '" +:+ attr +:+ "'" |}.

(** [a / b] on integers *)
Definition truediv (a b : Z) : Result Q :=
  if b =? 0
  then Raise {| exn_class := "ZeroDivisionError"; exn_msg := "division by zero" |}
  else Ok (inject_Z a / inject_Z b)%Q.

(** [range(a, b)] *)
Definition range (a b : Z) : list Z :=
  map (fun i => a + Z.of_nat i) (seq 0 (Z.to_nat (b - a))).

(** [s.replace('Z', '+00:00')] *)
Fixpoint replace_Z (s : string) : string :=
  match s with
  | EmptyString => EmptyString
  | String c rest =>
      if Ascii.eqb c "Z"%char then "+00:00" +:+ replace_Z rest
      else String c (replace_Z rest)
  end.

(** [s.lower()], on the ASCII letters *)
Definition lower_ascii (c : ascii) : ascii :=
  let n := nat_of_ascii c in
  if (Nat.leb 65 n && Nat.leb n 90)%bool then ascii_of_nat (n + 32) else c.

Fixpoint lower (s : string) : string :=
  match s with
  | EmptyString => EmptyString
  | String c rest => String (lower_ascii c) (lower rest)
  end.

(** The part of the interpreter and standard library that produces text or
    parses dates. *)
Record Runtime := {
  (* [repr(v)], for the values whose text is not fixed below *)
  repr : PyVal -> string;
  (* [format(x, ".N%")] for a number x *)
  format_percent : nat -> Q -> string;
  (* [format(x, ".1f")] *)
  format_fixed1 : Q -> string;
  (* [round(x, 2)] *)
  round2 : Q -> Q;
  (* [datetime.fromisoformat(s).replace(tzinfo=None)]; [None] is ValueError *)
  fromisoformat : string -> option Z;
  (* [dt.isoformat()] *)
  isoformat : Z -> string;
  (* [dt.strftime(fmt)] *)
  strftime : Z -> string -> string
}.

(** [str(v)] as used by f-strings *)
Definition str (rt : Runtime) (v : PyVal) : string :=
  match v with
  | PyStr s => s
  | PyNone => "None"
  | PyBool true => "True"
  | PyBool false => "False"
  | PyInt n => pretty n
  | _ => repr rt v
  end.

(** [format(v, ".N%")]: a percentage for a number; a [datetime] hands the
    specification to [strftime]; a string rejects the format code; every
    other value has no [__format__] that takes a specification. *)
Definition format_spec_percent (rt : Runtime) (digits : nat) (v : PyVal)
  : Result string :=
  match v with
  | PyBool _ | PyInt _ | PyFloat _ =>
      Ok (format_percent rt digits (default 0%Q (as_number v)))
  | PyDatetime t => Ok (strftime rt t ("." +:+ pretty digits +:+ "%"))
  | PyStr _ =>
      Raise {| exn_class := "ValueError";
               exn_msg := "Unknown format code '%' for object of type 'str'" |}
  | PyNone | PyList _ | PyDict _ =>
      Raise {| exn_class := "TypeError";
               exn_msg := "unsupported format string passed to "
                          +:+ type_name v +:+ ".__format__" |}
  end.

End Py.

(** ** The degraded-mode guard ([app/policy/no_bet_guard.py]) *)

Module no_bet_guard.
Import Py.

Inductive DegradedMode := NORMAL | DEGRADED_FALLBACK | DEGRADED_NO_BET.

(** [mode.value] *)
Definition value (m : DegradedMode) : string :=
  match m with
  | NORMAL => "normal"
  | DEGRADED_FALLBACK => "degraded-fallback"
  | DEGRADED_NO_BET => "degraded-no-bet"
  end.

Definition mode_eqb (a b : DegradedMode) : bool :=
  match a, b with
  | NORMAL, NORMAL | DEGRADED_FALLBACK, DEGRADED_FALLBACK
  | DEGRADED_NO_BET, DEGRADED_NO_BET => true
  | _, _ => false
  end.

Record GuardDecision := {
  mode : DegradedMode;
  allow_betting : bool;
  reason : string;
  timestamp : Z;
  metadata : gmap string PyVal
}.

Record NoBetGuard := {
  trace_id : string;
  is_degraded : bool;
  current_mode : DegradedMode;
  audit_trail : list (gmap string PyVal)
}.

(** [NoBetGuard.__init__]; [uuid] is the value [uuid.uuid4()] would give. *)
Definition init (uuid : string) (trace : option string) : NoBetGuard :=
  {| trace_id := match trace with
                 | Some (String _ _ as t) => t
                 | _ => uuid
                 end;
     is_degraded := false;
     current_mode := NORMAL;
     audit_trail := [] |}.

Section WithRuntime.
Context (rt : Runtime).

(** [NoBetGuard._log_decision]; [now] is the clock reading. *)
Definition _log_decision (now : Z) (self : NoBetGuard) (decision : GuardDecision)
    (quality_summary : gmap string PyVal) : NoBetGuard :=
  let audit_entry : gmap string PyVal :=
    {[ "timestamp" := PyStr (isoformat rt now);
       "mode" := PyStr (value (mode decision));
       "allow_betting" := PyBool (allow_betting decision);
       "reason" := PyStr (reason decision);
       "quality_summary" := PyDict
         {[ "pass_rate" := dict_get quality_summary "pass_rate" PyNone;
            "critical_failure" := dict_get quality_summary "critical_failure" PyNone;
            "total_matches" := dict_get quality_summary "total_matches" PyNone;
            "failed" := dict_get quality_summary "failed" PyNone ]};
       "trace_id" := PyStr (trace_id self) ]} in
  {| trace_id := trace_id self;
     is_degraded := is_degraded self;
     current_mode := current_mode self;
     audit_trail := audit_trail self ++ [audit_entry] |}.

(** [NoBetGuard.evaluate_run_status].  The f-strings format [pass_rate]
    with a percent specification, which raises on a value that is not a
    number; the first one is built before any decision is taken. *)
Definition evaluate_run_status (now : Z) (self : NoBetGuard)
    (quality_summary : gmap string PyVal)
    (fallback_result : option (list (gmap string PyVal)))
  : Result (GuardDecision * NoBetGuard) :=
  let critical_failure := dict_get quality_summary "critical_failure" (PyBool false) in
  let pass_rate := dict_get quality_summary "pass_rate" (PyFloat 1) in
  _ ← format_spec_percent rt 1 pass_rate;
  decision ←
    (if negb (truthy critical_failure) then
       Ok {| mode := NORMAL;
             allow_betting := true;
             reason := "Qualite des donnees acceptable";
             timestamp := now;
             metadata := {[ "quality_pass_rate" := pass_rate;
                            "critical_failure" := PyBool false ]} |}
     else match fallback_result with
     | Some matches =>
         pct ← format_spec_percent rt 0 pass_rate;
         Ok {| mode := DEGRADED_FALLBACK;
               allow_betting := true;
               reason := "Qualite critique (" +:+ pct +:+ " pass) mais fallback reussi - "
                         +:+ "utilisation donnees secondaires avec vigilance";
               timestamp := now;
               metadata := {[ "quality_pass_rate" := pass_rate;
                              "critical_failure" := PyBool true;
                              "fallback_used" := PyBool true;
                              "fallback_matches" := PyInt (Z.of_nat (length matches)) ]} |}
     | None =>
         pct ← format_spec_percent rt 0 pass_rate;
         Ok {| mode := DEGRADED_NO_BET;
               allow_betting := false;
               reason := "QUALITE INSUFFISANTE (" +:+ pct +:+ " pass) ET FALLBACK EN ECHEC - "
                         +:+ "Systeme en mode no-bet pour protection. "
                         +:+ "Donnees corrompues ou incompletes detectees. "
                         +:+ "Requiert investigation operateur.";
               timestamp := now;
               metadata := {[ "quality_pass_rate" := pass_rate;
                              "critical_failure" := PyBool true;
                              "fallback_used" := PyBool false;
                              "fallback_failed" := PyBool true;
                              "blocking_reason" := PyStr "cascading_failure" ]} |}
     end);
  let self1 :=
    {| trace_id := trace_id self;
       is_degraded := negb (mode_eqb (mode decision) NORMAL);
       current_mode := mode decision;
       audit_trail := audit_trail self |} in
  Ok (decision, _log_decision now self1 decision quality_summary).

(** [NoBetGuard.get_audit_trail] (a copy of the list) *)
Definition get_audit_trail (self : NoBetGuard) : list (gmap string PyVal) :=
  audit_trail self.

(** [NoBetGuard.force_degraded_mode] *)
Definition force_degraded_mode (now : Z) (self : NoBetGuard) (why : string)
  : GuardDecision * NoBetGuard :=
  let decision :=
    {| mode := DEGRADED_NO_BET;
       allow_betting := false;
       reason := "FORCAGE MANUEL: " +:+ why;
       timestamp := now;
       metadata := {[ "forced" := PyBool true ]} |} in
  let self1 :=
    {| trace_id := trace_id self;
       is_degraded := true;
       current_mode := mode decision;
       audit_trail := audit_trail self |} in
  (decision, _log_decision now self1 decision {[ "forced" := PyBool true ]}).

(** [NoBetGuard.reset_to_normal] *)
Definition reset_to_normal (now : Z) (self : NoBetGuard) (why : string)
  : GuardDecision * NoBetGuard :=
  let decision :=
    {| mode := NORMAL;
       allow_betting := true;
       reason := "RETOUR NORMAL: " +:+ why;
       timestamp := now;
       metadata := {[ "reset" := PyBool true ]} |} in
  let self1 :=
    {| trace_id := trace_id self;
       is_degraded := false;
       current_mode := mode decision;
       audit_trail := audit_trail self |} in
  (decision, _log_decision now self1 decision {[ "reset" := PyBool true ]}).

End WithRuntime.

(** The keys of every audit entry, and the snapshot that [_log_decision]
    takes of a dictionary with none of the four quality keys *)
Definition audit_keys : gset string :=
  {[ "timestamp"; "mode"; "allow_betting"; "reason"; "quality_summary"; "trace_id" ]}.

Definition empty_snapshot : gmap string PyVal :=
  {[ "pass_rate" := PyNone; "critical_failure" := PyNone;
     "total_matches" := PyNone; "failed" := PyNone ]}.

(** One call of a public operation that changes the guard *)
Inductive guard_step (rt : Runtime) : NoBetGuard -> NoBetGuard -> Prop :=
| step_evaluate now self qs fb decision self' :
    evaluate_run_status rt now self qs fb = Ok (decision, self') ->
    guard_step rt self self'
| step_force now self why :
    guard_step rt self (force_degraded_mode rt now self why).2
| step_reset now self why :
    guard_step rt self (reset_to_normal rt now self why).2.

End no_bet_guard.

(** ** Validation rules and the quality summary
       ([app/quality/quality_checks.py]) *)

Module quality_checks.
Import Py.

Inductive QualityStatus := PASS | FAIL | WARNING.

Definition status_eqb (a b : QualityStatus) : bool :=
  match a, b with
  | PASS, PASS | FAIL, FAIL | WARNING, WARNING => true
  | _, _ => false
  end.

Record RuleResult := {
  rule_name : string;
  passed : bool;
  details : gmap string PyVal;
  severity : string
}.

Record QualityResult := {
  match_id : PyVal;
  status : QualityStatus;
  errors : list string;
  warnings : list string;
  rule_results : list RuleResult;
  checked_at : Z
}.

(** A rule: its name and its [check] callable.  The callable reads the
    clock ([now]) and may raise. *)
Record QualityRule := {
  name : string;
  check : Z -> gmap string PyVal -> Result RuleResult
}.

(** [QualityChecker.CRITICAL_FAILURE_THRESHOLD = 0.20] *)
Definition CRITICAL_FAILURE_THRESHOLD : Q := 20 # 100.

Section WithRuntime.
Context (rt : Runtime).

(** [QualityRule._check_completeness] *)
Definition _check_completeness (required_fields : list string)
    (match_data : gmap string PyVal) : RuleResult :=
  let missing_fields :=
    List.filter
      (fun field => match match_data !! field with
                    | None => true
                    | Some v => is_none v
                    end)
      required_fields in
  let ok := match missing_fields with [] => true | _ => false end in
  {| rule_name := "completeness";
     passed := ok;
     details := {[ "missing_fields" := PyList (map PyStr missing_fields) ]};
     severity := if negb ok then "error" else "info" |}.

(** [score < 0] for an instance of [(int, float)] *)
Definition negative (score : PyVal) : bool :=
  match as_number score with
  | Some q => Qltb q 0
  | None => false
  end.

(** The body of the [try] block of [_check_validity]: it only calls
    [str.replace] and discards the result. *)
Definition validity_try_scheduled (scheduled : PyVal) : Result unit :=
  match scheduled with
  | PyStr s => let _ := replace_Z s in Ok tt
  | _ => Ok tt
  end.

(** [QualityRule._check_validity] *)
Definition _check_validity (match_data : gmap string PyVal) : RuleResult :=
  let score_errors :=
    flat_map
      (fun score_field =>
         match match_data !! score_field with
         | Some score =>
             if (negb (is_none score) && (negb (is_number score) || negative score))%bool
             then [score_field +:+ ": negative or invalid value"]
             else []
         | None => []
         end)
      ["home_score"; "away_score"] in
  let date_errors :=
    match match_data !! "scheduled_at" with
    | Some scheduled =>
        if truthy scheduled then
          match validity_try_scheduled scheduled with
          | Ok _ => []
          | Raise _ => ["scheduled_at: invalid datetime format"]
          end
        else []
    | None => []
    end in
  let invalid_fields := score_errors ++ date_errors in
  let ok := match invalid_fields with [] => true | _ => false end in
  {| rule_name := "validity";
     passed := ok;
     details := {[ "invalid_fields" := PyList (map PyStr invalid_fields) ]};
     severity := if negb ok then "error" else "info" |}.

(** [v.lower()] *)
Definition call_lower (v : PyVal) : Result string :=
  match v with
  | PyStr s => Ok (lower s)
  | _ => Raise (AttributeError v "lower")
  end.

(** [QualityRule._check_consistency]; [.lower()] raises AttributeError when
    a team id is not a string. *)
Definition _check_consistency (match_data : gmap string PyVal) : Result RuleResult :=
  same_team ←
    match match_data !! "home_team", match_data !! "away_team" with
    | Some (PyDict home), Some (PyDict away) =>
        home_id ← call_lower (dict_get home "id" (PyStr EmptyString));
        away_id ← call_lower (dict_get away "id" (PyStr EmptyString));
        if (truthy (PyStr home_id) && truthy (PyStr away_id)
            && String.eqb home_id away_id)%bool
        then Ok ["same_team: home and away teams are identical"]
        else Ok []
    | _, _ => Ok []
    end;
  let missing_team :=
    match match_data !! "home_team", match_data !! "away_team" with
    | Some _, Some _ => []
    | _, _ => ["missing_team: need both home and away teams"]
    end in
  let errs := same_team ++ missing_team in
  let ok := match errs with [] => true | _ => false end in
  Ok {| rule_name := "consistency";
        passed := ok;
        details := {[ "errors" := PyList (map PyStr errs) ]};
        severity := if negb ok then "error" else "info" |}.

(** Microseconds in [timedelta(hours=h)] *)
Definition hours (h : Z) : Z := h * 3600 * 1000000.

(** The body of the [try] block of [_check_timeliness]: the age of the
    record, or the exception raised while computing it. *)
Definition timeliness_try_age (now : Z) (scheduled : PyVal) : Result Z :=
  when ←
    match scheduled with
    | PyStr s =>
        match fromisoformat rt (replace_Z s) with
        | Some t => Ok t
        | None => Raise {| exn_class := "ValueError";
                           exn_msg := "Invalid isoformat string: '" +:+ replace_Z s +:+ "'" |}
        end
    | PyDatetime t => Ok t
    | other => Raise (AttributeError other "replace")
    end;
  Ok (now - when).

(** [QualityRule._check_timeliness] *)
Definition _check_timeliness (max_age_hours : Z) (now : Z)
    (match_data : gmap string PyVal) : RuleResult :=
  let errs :=
    match match_data !! "scheduled_at" with
    | Some scheduled =>
        if truthy scheduled then
          match timeliness_try_age now scheduled with
          | Ok age =>
              if hours max_age_hours <? age
              then ["stale_data: match is "
                    +:+ format_fixed1 rt (inject_Z age / inject_Z (hours 1))%Q
                    +:+ " hours old (max: " +:+ pretty max_age_hours +:+ ")"]
              else []
          | Raise e => ["timeliness_check_error: " +:+ exn_msg e]
          end
        else []
    | None => []
    end in
  let ok := match errs with [] => true | _ => false end in
  {| rule_name := "timeliness";
     passed := ok;
     details := {[ "errors" := PyList (map PyStr errs) ]};
     severity := if negb ok then "warning" else "info" |}.

(** The four rule factories *)
Definition completeness_check (required_fields : list string) : QualityRule :=
  {| name := "completeness";
     check := fun _ match_data => Ok (_check_completeness required_fields match_data) |}.

Definition validity_check : QualityRule :=
  {| name := "validity";
     check := fun _ match_data => Ok (_check_validity match_data) |}.

Definition consistency_check : QualityRule :=
  {| name := "consistency";
     check := fun _ match_data => _check_consistency match_data |}.

Definition timeliness_check (max_age_hours : Z) : QualityRule :=
  {| name := "timeliness";
     check := fun now match_data => Ok (_check_timeliness max_age_hours now match_data) |}.

(** [QualityChecker._setup_default_rules] *)
Definition _setup_default_rules : list QualityRule :=
  [ completeness_check
      ["external_id"; "home_team"; "away_team"; "scheduled_at"; "season"];
    validity_check;
    consistency_check;
    timeliness_check 24 ].

(** [QualityChecker]: the trace id and the rule list built by [__init__] *)
Record QualityChecker := {
  trace_id : string;
  rules : list QualityRule
}.

Definition init (trace : option string) : QualityChecker :=
  {| trace_id := match trace with
                 | Some (String _ _ as t) => t
                 | _ => "quality-check"
                 end;
     rules := _setup_default_rules |}.

(** The three lists the loop of [validate_match] appends to. *)
Record Accumulated := {
  acc_errors : list string;
  acc_warnings : list string;
  acc_rule_results : list RuleResult
}.

(** [errors = []; warnings = []; rule_results = []] *)
Definition no_findings : Accumulated :=
  {| acc_errors := []; acc_warnings := []; acc_rule_results := [] |}.

(** One iteration of [for rule in self.rules: try: ... except Exception] *)
Definition validate_rule (now : Z) (match_data : gmap string PyVal)
    (acc : Accumulated) (rule : QualityRule) : Accumulated :=
  match check rule now match_data with
  | Ok result =>
      let line := rule_name result +:+ ": " +:+ repr rt (PyDict (details result)) in
      {| acc_rule_results := acc_rule_results acc ++ [result];
         acc_errors :=
           if negb (passed result) && String.eqb (severity result) "error"
           then acc_errors acc ++ [line] else acc_errors acc;
         acc_warnings :=
           if negb (passed result) && negb (String.eqb (severity result) "error")
           then acc_warnings acc ++ [line] else acc_warnings acc |}
  | Raise e =>
      {| acc_rule_results := acc_rule_results acc;
         acc_errors := acc_errors acc ++ [name rule +:+ "_error: " +:+ exn_msg e];
         acc_warnings := acc_warnings acc |}
  end.

Definition run_rules (now : Z) (match_data : gmap string PyVal)
    (rs : list QualityRule) (acc : Accumulated) : Accumulated :=
  fold_left (validate_rule now match_data) rs acc.

(** [QualityChecker.validate_match] *)
Definition validate_match (self : QualityChecker) (now : Z)
    (match_data : gmap string PyVal) : QualityResult :=
  let match_id := dict_get match_data "external_id" (PyStr "unknown") in
  let acc := run_rules now match_data (rules self) no_findings in
  let status :=
    match acc_errors acc, acc_warnings acc with
    | _ :: _, _ => FAIL
    | [], _ :: _ => WARNING
    | [], [] => PASS
    end in
  {| match_id := match_id;
     status := status;
     errors := acc_errors acc;
     warnings := acc_warnings acc;
     rule_results := acc_rule_results acc;
     checked_at := now |}.

(** [QualityChecker.validate_batch] *)
Definition validate_batch (self : QualityChecker) (now : Z)
    (matches : list (gmap string PyVal)) : list QualityResult :=
  fold_left (fun results m => results ++ [validate_match self now m]) matches [].

(** [sum(1 for r in results if r.status == st)] *)
Definition count_status (st : QualityStatus) (results : list QualityResult) : Z :=
  Z.of_nat (length (List.filter (fun r => status_eqb (status r) st) results)).

(** [QualityChecker.get_quality_summary] *)
Definition get_quality_summary (self : QualityChecker)
    (results : list QualityResult) : Result (gmap string PyVal) :=
  let total := Z.of_nat (length results) in
  if total =? 0 then
    Ok {[ "total_matches" := PyInt 0;
          "passed" := PyInt 0;
          "failed" := PyInt 0;
          "pass_rate" := PyFloat 0;
          "critical_failure" := PyBool false ]}
  else
    let n_passed := count_status PASS results in
    let n_failed := total - n_passed in
    pass_rate ← truediv n_passed total;
    let critical_failure := Qltb pass_rate (1 - CRITICAL_FAILURE_THRESHOLD) in
    Ok {[ "total_matches" := PyInt total;
          "passed" := PyInt n_passed;
          "failed" := PyInt n_failed;
          "pass_rate" := PyFloat (round2 rt pass_rate);
          "critical_failure" := PyBool critical_failure;
          "threshold" := PyFloat CRITICAL_FAILURE_THRESHOLD ]}.

End WithRuntime.

(** The status of a record as the specification derives it from the
    outcomes of the rules, an outcome being what evaluating one rule gave: a
    returned [RuleResult] or a raised exception (the failing [<rule>_error]
    outcome of severity [error]). *)
Definition error_failure (outcome : Result RuleResult) : bool :=
  match outcome with
  | Ok r => negb (passed r) && String.eqb (severity r) "error"
  | Raise _ => true
  end.

Definition warning_failure (outcome : Result RuleResult) : bool :=
  match outcome with
  | Ok r => negb (passed r) && String.eqb (severity r) "warning"
  | Raise _ => false
  end.

Definition status_by_spec (outcomes : list (Result RuleResult)) : QualityStatus :=
  if existsb error_failure outcomes then FAIL
  else if existsb warning_failure outcomes then WARNING
  else PASS.

(** The severities a failed result may carry *)
Definition severity_in_range (outcome : Result RuleResult) : Prop :=
  forall r, outcome = Ok r -> passed r = false ->
            severity r = "error" \/ severity r = "warning".

End quality_checks.

(** ** The secondary-source fallback ([app/pipelines/fallback_pipeline.py]) *)

Module fallback_pipeline.
Import Py.

Inductive FallbackStatus := PENDING | TRIGGERED | SUCCESS | FAILED.

(** What [requests.get(...)], [raise_for_status()], [response.json()] and
    the adaptation of the body to the standard match format lead to: one of
    the exception classes the method distinguishes, or the adapted match
    list. *)
Inductive HttpOutcome :=
| RaisesTimeout (msg : string)
| RaisesHTTPError (msg : string) (status_code : option Z)
| RaisesRequestException (msg : string)
| RaisesException (msg : string)
| Body (matches : list (gmap string PyVal)).

(** The network: what the [n]-th request is answered with, and the URLs
    requested so far. *)
Record Network := {
  answers : nat -> HttpOutcome;
  requested : list string
}.

Definition requests_get (url : string) (net : Network) : HttpOutcome * Network :=
  (answers net (length (requested net)),
   {| answers := answers net; requested := requested net ++ [url] |}).

Inductive FallbackEvent :=
| FALLBACK_TRIGGERED (timestamp : string) (reason : string)
    (total failed : Z) (fail_rate : Q) (trace : string)
| FALLBACK_FAILED (timestamp : string) (reason : string)
    (details : option string) (cascading : bool) (trace : string)
| FALLBACK_SUCCESS (timestamp : string) (matches_recovered : nat) (trace : string).

Record FallbackPipeline := {
  trace_id : string;
  fallback_url : string;
  status : FallbackStatus;
  error_cause : option string;
  error_details : option string;
  was_triggered : bool;
  cascading_failure : bool;
  fallback_events : list FallbackEvent;
  triggered_at : option Z
}.

(** [FallbackPipeline.CRITICAL_FAILURE_THRESHOLD = 0.20] *)
Definition CRITICAL_FAILURE_THRESHOLD : Q := 20 # 100.

Definition init (uuid : string) (trace url : option string) : FallbackPipeline :=
  {| trace_id := match trace with Some (String _ _ as t) => t | _ => uuid end;
     fallback_url :=
       match url with
       | Some (String _ _ as u) => u
       | _ => "https://api.thesportsdb.com/v1/json/3/eventsnextleague.php?id=4387"
       end;
     status := PENDING;
     error_cause := None;
     error_details := None;
     was_triggered := false;
     cascading_failure := false;
     fallback_events := [];
     triggered_at := None |}.

Definition set_outcome (self : FallbackPipeline) (st : FallbackStatus)
    (cause details : option string) : FallbackPipeline :=
  {| trace_id := trace_id self;
     fallback_url := fallback_url self;
     status := st;
     error_cause := cause;
     error_details := details;
     was_triggered := was_triggered self;
     cascading_failure := cascading_failure self;
     fallback_events := fallback_events self;
     triggered_at := triggered_at self |}.

Definition set_triggered (self : FallbackPipeline) (flag : bool)
    (at_time : option Z) : FallbackPipeline :=
  {| trace_id := trace_id self;
     fallback_url := fallback_url self;
     status := status self;
     error_cause := error_cause self;
     error_details := error_details self;
     was_triggered := flag;
     cascading_failure := cascading_failure self;
     fallback_events := fallback_events self;
     triggered_at := at_time |}.

Definition set_cascading (self : FallbackPipeline) : FallbackPipeline :=
  {| trace_id := trace_id self;
     fallback_url := fallback_url self;
     status := status self;
     error_cause := error_cause self;
     error_details := error_details self;
     was_triggered := was_triggered self;
     cascading_failure := true;
     fallback_events := fallback_events self;
     triggered_at := triggered_at self |}.

Definition append_event (self : FallbackPipeline) (ev : FallbackEvent)
  : FallbackPipeline :=
  {| trace_id := trace_id self;
     fallback_url := fallback_url self;
     status := status self;
     error_cause := error_cause self;
     error_details := error_details self;
     was_triggered := was_triggered self;
     cascading_failure := cascading_failure self;
     fallback_events := fallback_events self ++ [ev];
     triggered_at := triggered_at self |}.

(** [FallbackPipeline.fetch_from_fallback] *)
Definition fetch_from_fallback (self : FallbackPipeline) (net : Network)
  : option (list (gmap string PyVal)) * FallbackPipeline * Network :=
  let self := set_outcome self TRIGGERED (error_cause self) (error_details self) in
  let '(outcome, net) := requests_get (fallback_url self) net in
  match outcome with
  | Body ((_ :: _) as matches) =>
      (Some matches,
       set_outcome self SUCCESS (error_cause self) (error_details self), net)
  | Body [] =>
      (None,
       set_outcome self FAILED (Some "FALLBACK_EMPTY_RESPONSE")
         (Some "Fallback API returned empty data"), net)
  | RaisesTimeout msg =>
      (None,
       set_outcome self FAILED (Some "FALLBACK_TIMEOUT")
         (Some ("Fallback API timeout: " +:+ msg)), net)
  | RaisesHTTPError _ code =>
      (None,
       set_outcome self FAILED (Some "FALLBACK_HTTP_ERROR")
         (Some ("HTTP " +:+ match code with Some c => pretty c | None => "unknown" end)),
       net)
  | RaisesRequestException msg =>
      (None, set_outcome self FAILED (Some "FALLBACK_UNAVAILABLE") (Some msg), net)
  | RaisesException msg =>
      (None, set_outcome self FAILED (Some "FALLBACK_ERROR") (Some msg), net)
  end.

Section WithRuntime.
Context (rt : Runtime).

(** [FallbackPipeline.trigger_fallback_if_needed] *)
Definition trigger_fallback_if_needed (now : Z) (self : FallbackPipeline)
    (net : Network) (quality_results : list quality_checks.QualityResult)
  : Result (option (list (gmap string PyVal)) * FallbackPipeline * Network) :=
  match quality_results with
  | [] => Ok (None, self, net)
  | _ :: _ =>
      let fail_count :=
        quality_checks.count_status quality_checks.FAIL quality_results in
      let total_count := Z.of_nat (length quality_results) in
      fail_rate ← truediv fail_count total_count;
      if Qltb fail_rate CRITICAL_FAILURE_THRESHOLD then
        Ok (None, set_triggered self false (triggered_at self), net)
      else
        let self := set_triggered self true (Some now) in
        let event :=
          FALLBACK_TRIGGERED (isoformat rt now)
            ("Quality failure rate " +:+ format_percent rt 1 fail_rate
             +:+ " exceeds threshold "
             +:+ format_percent rt 0 CRITICAL_FAILURE_THRESHOLD)
            total_count fail_count (round2 rt fail_rate) (trace_id self) in
        let self := append_event self event in
        let '(fallback_data, self, net) := fetch_from_fallback self net in
        match fallback_data with
        | None =>
            let self := set_cascading self in
            let fail_event :=
              FALLBACK_FAILED (isoformat rt now)
                (match error_cause self with
                 | Some (String _ _ as cause) => cause
                 | _ => "Unknown"
                 end)
                (error_details self) true (trace_id self) in
            Ok (None, append_event self fail_event, net)
        | Some data =>
            let success_event :=
              FALLBACK_SUCCESS (isoformat rt now) (length data) (trace_id self) in
            Ok (Some data, append_event self success_event, net)
        end
  end.

End WithRuntime.

(** [FallbackPipeline.get_fallback_report] *)
Record FallbackReport := {
  report_was_triggered : bool;
  report_status : FallbackStatus;
  report_triggered_at : option Z;
  report_cascading_failure : bool;
  report_error_cause : option string;
  report_error_details : option string;
  report_events : list FallbackEvent;
  report_trace_id : string
}.

Definition get_fallback_report (self : FallbackPipeline) : FallbackReport :=
  {| report_was_triggered := was_triggered self;
     report_status := status self;
     report_triggered_at := triggered_at self;
     report_cascading_failure := cascading_failure self;
     report_error_cause := error_cause self;
     report_error_details := error_details self;
     report_events := fallback_events self;
     report_trace_id := trace_id self |}.

End fallback_pipeline.

(** ** Transactional storage of signals ([app/storage/postgres_writer.py]) *)

Module postgres_writer.
Import Py.

(** A row of the [signals] table *)
Record SignalEntity := {
  id : string;
  run_id : string;
  match_id : PyVal;
  home_team : PyVal;
  away_team : PyVal;
  scheduled_at : Z;
  winner_prediction : PyVal;
  winner_confidence : string;
  score_total : string;
  score_home : string;
  score_away : string;
  ou_signal : PyVal;
  ou_line : string;
  ou_confidence : string;
  ou_edge : string;
  quality_score : string;
  signal_data : gmap string PyVal
}.

(** What the database does to one call of [save_signals]: nothing, or an
    error while connecting, while merging the [k]-th row, or at commit. *)
Inductive Fault :=
| NoFault
| ConnectFault (msg : string)
| MergeFault (k : nat) (msg : string)
| CommitFault (msg : string).

Definition OperationalError (msg : string) : PyExn :=
  {| exn_class := "OperationalError"; exn_msg := msg |}.

(** A session with an open transaction: the rows every reader sees, and
    the rows merged so far, which only [commit] makes visible. *)
Record Session := {
  visible : gmap string SignalEntity;
  pending : list SignalEntity
}.

Definition begin (rows : gmap string SignalEntity) : Session :=
  {| visible := rows; pending := [] |}.

(** [session.merge(row)]: insert, or overwrite the row with the same key *)
Definition merge (fault : Fault) (row : SignalEntity) (s : Session) : Result Session :=
  match fault with
  | MergeFault k msg =>
      if Nat.eqb k (length (pending s)) then Raise (OperationalError msg)
      else Ok {| visible := visible s; pending := pending s ++ [row] |}
  | _ => Ok {| visible := visible s; pending := pending s ++ [row] |}
  end.

(** The rows after writing [entities], in order, over [rows] *)
Definition upsert_all (entities : list SignalEntity)
    (rows : gmap string SignalEntity) : gmap string SignalEntity :=
  fold_left (fun rows row => <[id row := row]> rows) entities rows.

Definition commit (fault : Fault) (s : Session) : Result (gmap string SignalEntity) :=
  match fault with
  | CommitFault msg => Raise (OperationalError msg)
  | _ => Ok (upsert_all (pending s) (visible s))
  end.

Definition rollback (s : Session) : gmap string SignalEntity := visible s.

Section WithRuntime.
Context (rt : Runtime).

(** [d.get(outer, {}).get(inner, dflt)] *)
Definition get_in (d : gmap string PyVal) (outer inner : string) (dflt : PyVal)
  : Result PyVal :=
  match dict_get d outer (PyDict ∅) with
  | PyDict sub => Ok (dict_get sub inner dflt)
  | other => Raise (AttributeError other "get")
  end.

(** [datetime.fromisoformat(v.replace('Z', '+00:00'))] *)
Definition parse_scheduled_at (v : PyVal) : Result Z :=
  match v with
  | PyStr s =>
      match fromisoformat rt (replace_Z s) with
      | Some t => Ok t
      | None => Raise {| exn_class := "ValueError";
                         exn_msg := "Invalid isoformat string: '" +:+ replace_Z s +:+ "'" |}
      end
  | PyDatetime _ =>
      Raise {| exn_class := "TypeError";
               exn_msg := "replace() takes no positional arguments" |}
  | other => Raise (AttributeError other "replace")
  end.

(** The [SignalEntity(...)] constructor call of [save_signals] *)
Definition make_entity (now : Z) (run : string) (signal : gmap string PyVal)
  : Result SignalEntity :=
  when ← parse_scheduled_at (dict_get signal "scheduled_at" (PyStr (isoformat rt now)));
  prediction ← get_in signal "winner" "prediction" (PyStr EmptyString);
  confidence ← get_in signal "winner" "confidence" (PyInt 0);
  total ← get_in signal "score_projection" "total" (PyInt 0);
  home ← get_in signal "score_projection" "home" (PyInt 0);
  away ← get_in signal "score_projection" "away" (PyInt 0);
  ou ← get_in signal "over_under" "signal" (PyStr "no_signal");
  line ← get_in signal "over_under" "line" (PyFloat (2205 # 10));
  ou_conf ← get_in signal "over_under" "confidence" (PyInt 0);
  edge ← get_in signal "over_under" "edge" (PyInt 0);
  Ok {| id := run +:+ "_" +:+ str rt (dict_get signal "match_id" PyNone);
        run_id := run;
        match_id := dict_get signal "match_id" PyNone;
        home_team := dict_get signal "home_team" (PyDict ∅);
        away_team := dict_get signal "away_team" (PyDict ∅);
        scheduled_at := when;
        winner_prediction := prediction;
        winner_confidence := str rt confidence;
        score_total := str rt total;
        score_home := str rt home;
        score_away := str rt away;
        ou_signal := ou;
        ou_line := str rt line;
        ou_confidence := str rt ou_conf;
        ou_edge := str rt edge;
        quality_score := str rt (dict_get signal "quality_score" (PyInt 0));
        signal_data := signal |}.

(** [for signal in signal_entities: session.merge(signal)] *)
Fixpoint merge_all (fault : Fault) (entities : list SignalEntity) (s : Session)
  : Result Session :=
  match entities with
  | [] => Ok s
  | row :: rest => s' ← merge fault row s; merge_all fault rest s'
  end.

(** [PostgresWriter.save_signals]: everything between [session.begin()] and
    the end of the [with] block happens in one transaction, committed at
    the end of the block and rolled back by any exception.  The result is
    the returned count or the exception that propagates, and the rows that
    are visible afterwards. *)
Definition save_signals (fault : Fault) (now : Z)
    (rows : gmap string SignalEntity) (run : string)
    (signals : list (gmap string PyVal))
  : Result nat * gmap string SignalEntity :=
  match fault with
  | ConnectFault msg => (Raise (OperationalError msg), rows)
  | _ =>
      let session := begin rows in
      let transaction :=
        signal_entities ← mapM (make_entity now run) signals;
        session' ← merge_all fault signal_entities session;
        rows' ← commit fault session';
        Ok (length signal_entities, rows') in
      match transaction with
      | Ok (saved_count, rows') => (Ok saved_count, rows')
      | Raise e => (Raise e, rollback session)
      end
  end.

(** Whether one call of [save_signals] meeting [fault] returns *)
Definition attempt_succeeds (fault : Fault) (now : Z) (run : string)
    (signals : list (gmap string PyVal)) : bool :=
  match (save_signals fault now ∅ run signals).1 with
  | Ok _ => true
  | Raise _ => false
  end.

End WithRuntime.
End postgres_writer.

(** ** Persistence with retry ([app/pipelines/scoring_pipeline.py]) *)

Module scoring_pipeline.
Import Py.

Record ScoringPipeline := {
  min_quality_score : Q;
  default_ou_line : Q;
  max_retries : Z
}.

(** [ScoringPipeline.__init__] with its default arguments *)
Definition init : ScoringPipeline :=
  {| min_quality_score := 80; default_ou_line := 2205 # 10; max_retries := 3 |}.

(** The world [_persist_signals_with_retry] acts on: the visible rows of
    the [signals] table, the number of [save_signals] calls made so far,
    and the delays slept (in seconds). *)
Record World := {
  rows : gmap string postgres_writer.SignalEntity;
  save_calls : nat;
  slept : list Q
}.

Section WithRuntime.
Context (rt : Runtime).
(** The fault the database opposes to the [n]-th call of [save_signals]
    (counted from 0). *)
Context (faults : nat -> postgres_writer.Fault).

(** One [PostgresWriter().save_signals(run_id, signals)] *)
Definition attempt_save (now : Z) (run : string)
    (signals : list (gmap string PyVal)) (w : World) : Result nat * World :=
  let '(r, rows') :=
    postgres_writer.save_signals rt (faults (save_calls w)) now (rows w) run signals in
  (r, {| rows := rows'; save_calls := S (save_calls w); slept := slept w |}).

Definition sleep (seconds : Q) (w : World) : World :=
  {| rows := rows w; save_calls := save_calls w; slept := slept w ++ [seconds] |}.

(** The [for attempt in range(1, self.max_retries + 1)] loop, over the
    attempt numbers that remain *)
Fixpoint retry_loop (self : ScoringPipeline) (now : Z) (run : string)
    (signals : list (gmap string PyVal)) (remaining : list Z) (w : World)
  : bool * World :=
  match remaining with
  | [] => (false, w)
  | attempt :: rest =>
      match attempt_save now run signals w with
      | (Ok _, w') => (true, w')
      | (Raise _, w') =>
          let w'' :=
            if attempt <? max_retries self
            then sleep ((5 # 10) * inject_Z attempt)%Q w'
            else w' in
          retry_loop self now run signals rest w''
      end
  end.

(** [ScoringPipeline._persist_signals_with_retry] *)
Definition _persist_signals_with_retry (self : ScoringPipeline) (now : Z)
    (run : string) (signals : list (gmap string PyVal)) (w : World)
  : bool * World :=
  retry_loop self now run signals (range 1 (max_retries self + 1)) w.

End WithRuntime.
End scoring_pipeline.

(** ** A small runtime for the worked examples

    Dates are accepted in the form [YYYY-MM-DDTHH:MM:SS], optionally followed
    by [+00:00]; the texts are simple approximations of what Python prints. *)

Module sample.
Import Py.

Definition digit (c : ascii) : option Z :=
  let n := nat_of_ascii c in
  if (Nat.leb 48 n && Nat.leb n 57)%bool then Some (Z.of_nat (n - 48)) else None.

Fixpoint digits (n : nat) (s : string) (acc : Z) : option (Z * string) :=
  match n, s with
  | O, _ => Some (acc, s)
  | S n', String c rest => d ← digit c; digits n' rest (acc * 10 + d)
  | S _, EmptyString => None
  end.

Definition expect (c : ascii) (s : string) : option string :=
  match s with
  | String c' rest => if Ascii.eqb c c' then Some rest else None
  | EmptyString => None
  end.

(** Days between 1970-01-01 and the given civil date *)
Definition days_from_civil (y m d : Z) : Z :=
  let y' := if m <=? 2 then y - 1 else y in
  let era := y' `div` 400 in
  let yoe := y' - era * 400 in
  let doy := (153 * (if 2 <? m then m - 3 else m + 9) + 2) `div` 5 + d - 1 in
  let doe := yoe * 365 + yoe `div` 4 - yoe `div` 100 + doy in
  era * 146097 + doe - 719468.

Definition parse_iso (s : string) : option Z :=
  '(y, s) ← digits 4 s 0; s ← expect "-" s;
  '(m, s) ← digits 2 s 0; s ← expect "-" s;
  '(d, s) ← digits 2 s 0; s ← expect "T" s;
  '(hh, s) ← digits 2 s 0; s ← expect ":" s;
  '(mm, s) ← digits 2 s 0; s ← expect ":" s;
  '(ss, s) ← digits 2 s 0;
  if ((1 <=? m) && (m <=? 12) && (1 <=? d) && (d <=? 31)
      && (hh <? 24) && (mm <? 60) && (ss <? 60)
      && (match s with EmptyString => true | _ => String.eqb s "+00:00" end))%bool
  then Some ((((days_from_civil y m d * 24 + hh) * 60 + mm) * 60 + ss) * 1000000)
  else None.

Definition percent (digits : nat) (q : Q) : string :=
  pretty (Qfloor (q * 100 + (1 # 2))) +:+ "%".

Definition runtime : Runtime :=
  {| repr := fun v => "<" +:+ type_name v +:+ ">";
     format_percent := percent;
     format_fixed1 := fun q => pretty (Qfloor q);
     round2 := fun q => (inject_Z (Qfloor (q * 100 + (1 # 2))) / 100)%Q;
     fromisoformat := parse_iso;
     isoformat := fun t => pretty t;
     strftime := fun _ fmt => fmt |}.

(** The records of the repository's tests *)
Definition team (i n c : string) : PyVal :=
  PyDict {[ "id" := PyStr i; "name" := PyStr n; "city" := PyStr c ]}.

Definition lakers_warriors (when : string) : gmap string PyVal :=
  {[ "external_id" := PyStr "nba-2024-001";
     "home_team" := team "lal" "Lakers" "Los Angeles";
     "away_team" := team "gsw" "Warriors" "Golden State";
     "scheduled_at" := PyStr when;
     "season" := PyStr "2023-24" ]}.


(** A validation result of the given status, and batches of them *)
Definition result_with (st : quality_checks.QualityStatus) : quality_checks.QualityResult :=
  {| quality_checks.match_id := PyStr "nba-001";
     quality_checks.status := st;
     quality_checks.errors := [];
     quality_checks.warnings := [];
     quality_checks.rule_results := [];
     quality_checks.checked_at := 0 |}.

(** Five records, exactly one of which failed *)
Definition one_failure_in_five : list quality_checks.QualityResult :=
  result_with quality_checks.FAIL :: repeat (result_with quality_checks.PASS) 4.

(** One record, stale but otherwise valid *)
Definition one_warning : list quality_checks.QualityResult :=
  [result_with quality_checks.WARNING].

(** A signal as [_generate_signal_for_match] builds it *)
Definition signal_005 : gmap string PyVal :=
  {[ "match_id" := PyStr "match_005";
     "run_id" := PyStr "run_005";
     "home_team" := PyDict {[ "id" := PyStr "lal"; "name" := PyStr "Lakers" ]};
     "away_team" := PyDict {[ "id" := PyStr "gsw"; "name" := PyStr "Warriors" ]};
     "scheduled_at" := PyStr "2026-02-11T20:00:00Z";
     "winner" := PyDict {[ "prediction" := PyStr "home";
                           "confidence" := PyFloat (65 # 100) ]};
     "score_projection" := PyDict {[ "total" := PyFloat (2235 # 10);
                                     "home" := PyFloat (1135 # 10);
                                     "away" := PyFloat 110 ]};
     "over_under" := PyDict {[ "signal" := PyStr "over";
                               "line" := PyFloat (2205 # 10);
                               "confidence" := PyFloat (6 # 10);
                               "edge" := PyFloat 3 ]};
     "quality_score" := PyFloat 85 ]}.

(** A database that times out on its first two calls, and one that is down *)
Definition two_timeouts (n : nat) : postgres_writer.Fault :=
  if Nat.ltb n 2 then postgres_writer.CommitFault "Timeout" else postgres_writer.NoFault.

Definition always_down (n : nat) : postgres_writer.Fault :=
  postgres_writer.ConnectFault "DB Error".

Definition empty_world : scoring_pipeline.World :=
  {| scoring_pipeline.rows := ∅;
     scoring_pipeline.save_calls := 0;
     scoring_pipeline.slept := [] |}.

(** 2024-01-15T12:00:00, the clock reading of the examples *)
Definition noon : Z := 1705320000000000.

Definition checker : quality_checks.QualityChecker :=
  quality_checks.init runtime (Some "test-trace-123").

Definition incomplete (ext : string) : gmap string PyVal :=
  {[ "external_id" := PyStr ext ]}.

(** Five records, two of which have only their identifier *)
Definition five_records : list (gmap string PyVal) :=
  [ lakers_warriors "2024-01-16T12:00:00Z"; incomplete "nba-002";
    lakers_warriors "2024-01-16T12:00:00Z"; incomplete "nba-004";
    lakers_warriors "2024-01-16T12:00:00Z" ].

End sample.

(** ** Notions used to state the further properties *)

Module notions.
Import Py.

(** The last row of a list of rows that has the given key *)
Fixpoint latest (key : string) (entities : list postgres_writer.SignalEntity)
  : option postgres_writer.SignalEntity :=
  match entities with
  | [] => None
  | row :: rest =>
      match latest key rest with
      | Some later => Some later
      | None => if String.eqb (postgres_writer.id row) key then Some row else None
      end
  end.

(** The two state fields of the guard say the same thing. *)
Definition guard_consistent (g : no_bet_guard.NoBetGuard) : Prop :=
  no_bet_guard.is_degraded g
  = negb (no_bet_guard.mode_eqb (no_bet_guard.current_mode g) no_bet_guard.NORMAL).

(** [0.5 * attempt], the delay slept after a failed attempt *)
Definition backoff (attempt : Z) : Q := ((5 # 10) * inject_Z attempt)%Q.

End notions.

Module notions_quality.
Import Py quality_checks.

(** What evaluating a rule on a record gave *)
Definition returned (outcome : Result RuleResult) : bool :=
  match outcome with Ok _ => true | Raise _ => false end.

Definition failing (outcome : Result RuleResult) : bool :=
  match outcome with Ok r => negb (passed r) | Raise _ => true end.

(** The fields that [QualityChecker] requires *)
Definition required_fields : list string :=
  ["external_id"; "home_team"; "away_team"; "scheduled_at"; "season"].

(** A field is missing when the key is absent or its value is [None]. *)
Definition missing (match_data : gmap string PyVal) (field : string) : bool :=
  match match_data !! field with
  | None => true
  | Some v => is_none v
  end.

End notions_quality.

Module notions_fallback.
Import Py fallback_pipeline.

(** The causes [fetch_from_fallback] can record *)
Definition fallback_causes : list string :=
  ["FALLBACK_EMPTY_RESPONSE"; "FALLBACK_TIMEOUT"; "FALLBACK_HTTP_ERROR";
   "FALLBACK_UNAVAILABLE"; "FALLBACK_ERROR"].

Definition is_triggered_event (ev : FallbackEvent) : bool :=
  match ev with FALLBACK_TRIGGERED _ _ _ _ _ _ => true | _ => false end.

(** A pipeline whose last fetch timed out, and a network that answers *)
Definition after_timeout : FallbackPipeline :=
  {| trace_id := "test-trace-123";
     fallback_url := "https://api.backup-nba.com/games";
     status := FAILED;
     error_cause := Some "FALLBACK_TIMEOUT";
     error_details := Some "Fallback API timeout: read timed out";
     was_triggered := true;
     cascading_failure := true;
     fallback_events := [];
     triggered_at := Some 0 |}.

Definition answering : Network :=
  {| answers := fun _ => Body [sample.lakers_warriors "2024-01-15T20:00:00Z"];
     requested := [] |}.

End notions_fallback.

(** ** Quality scores ([app/quality/scoring.py]) *)

Module quality_scoring.
Import Py.

Record MatchQualityScore := {
  match_id : PyVal;
  score : Q;
  status : string;
  details : gmap string PyVal
}.

(** [QualityScorer.ERROR_WEIGHT], [QualityScorer.WARNING_WEIGHT] *)
Definition ERROR_WEIGHT : Z := 50.
Definition WARNING_WEIGHT : Z := 10.

(** [max(0.0, min(100.0, 100.0 - errors * 50 - warnings * 10))]: the
    operands are whole numbers, on which the floating-point operations are
    exact. *)
Definition bounded_score (errors warnings : nat) : Z :=
  Z.max 0 (Z.min 100 (100 - Z.of_nat errors * ERROR_WEIGHT
                      - Z.of_nat warnings * WARNING_WEIGHT)).

Section WithRuntime.
Context (rt : Runtime).

(** [QualityScorer.calculate_match_score] *)
Definition calculate_match_score (quality_result : quality_checks.QualityResult)
  : MatchQualityScore :=
  let errors := quality_checks.errors quality_result in
  let warnings := quality_checks.warnings quality_result in
  let score := bounded_score (length errors) (length warnings) in
  let status :=
    if 90 <=? score then "PASS"
    else if 70 <=? score then "WARNING"
    else "FAIL" in
  {| match_id := quality_checks.match_id quality_result;
     score := round2 rt (inject_Z score);
     status := status;
     details :=
       {[ "error_count" := PyInt (Z.of_nat (length errors));
          "warning_count" := PyInt (Z.of_nat (length warnings));
          "errors" := PyList (map PyStr (take 5 errors));
          "warnings" := PyList (map PyStr (take 5 warnings)) ]} |}.

(** [QualityScorer.calculate_batch_scores] *)
Definition calculate_batch_scores (results : list quality_checks.QualityResult)
  : list MatchQualityScore :=
  map calculate_match_score results.

End WithRuntime.

(** [QualityScorer.get_quality_grade] *)
Definition get_quality_grade (score : Q) : string :=
  if Qle_bool 95 score then "A"
  else if Qle_bool 85 score then "B"
  else if Qle_bool 75 score then "C"
  else if Qle_bool 60 score then "D"
  else "F".

(** The grades from worst to best *)
Definition grade_rank (grade : string) : nat :=
  if String.eqb grade "A" then 4
  else if String.eqb grade "B" then 3
  else if String.eqb grade "C" then 2
  else if String.eqb grade "D" then 1
  else 0.

End quality_scoring.

(** ** Exclusion of matches from scoring ([app/scoring/exclusions.py]) *)

Module exclusions.
Import Py.

Inductive ExclusionReason :=
| MISSING_DATA | INSUFFICIENT_HISTORY | INSUFFICIENT_QUALITY | INVALID_STATUS.

(** [reason.value] *)
Definition value (r : ExclusionReason) : string :=
  match r with
  | MISSING_DATA => "missing_data"
  | INSUFFICIENT_HISTORY => "insufficient_history"
  | INSUFFICIENT_QUALITY => "insufficient_quality"
  | INVALID_STATUS => "invalid_status"
  end.

Record MatchExclusion := {
  match_id : PyVal;
  reason : ExclusionReason;
  details : gmap string PyVal;
  excluded_at : Z
}.

Record ExclusionChecker := {
  min_history_games : Z;
  min_quality_score : Q
}.

(** [ExclusionChecker.__init__]; both arguments have defaults. *)
Definition init (min_history : option Z) (min_quality : option Q) : ExclusionChecker :=
  {| min_history_games := default 5 min_history;
     min_quality_score := default 80%Q min_quality |}.

(** [v in [s1, s2, ...]] for a list of strings: only a string equals one. *)
Definition in_strings (v : PyVal) (choices : list string) : bool :=
  match v with
  | PyStr s => existsb (String.eqb s) choices
  | _ => false
  end.

(** [v < bound] for a number [bound]; TypeError when [v] is not a number. *)
Definition less_than (v : PyVal) (bound : Q) (bound_type : string) : Result bool :=
  match as_number v with
  | Some q => Ok (Qltb q bound)
  | None =>
      Raise {| exn_class := "TypeError";
               exn_msg := "'<' not supported between instances of '"
                          +:+ type_name v +:+ "' and '" +:+ bound_type +:+ "'" |}
  end.

(** [stats.get("games_played", 0)] for a value that passed [not stats] *)
Definition games_played (stats : PyVal) : Result PyVal :=
  match stats with
  | PyDict d => Ok (dict_get d "games_played" (PyInt 0))
  | other => Raise (AttributeError other "get")
  end.

(** [ExclusionChecker.check] *)
Definition check (self : ExclusionChecker) (now : Z)
    (match_data : gmap string PyVal) : Result (option MatchExclusion) :=
  let match_id := dict_get match_data "external_id" (PyStr "unknown") in
  let status := dict_get match_data "status" (PyStr "scheduled") in
  if negb (in_strings status ["scheduled"; "upcoming"]) then
    Ok (Some {| match_id := match_id;
                reason := INVALID_STATUS;
                details := {[ "status" := status; "required" := PyStr "scheduled" ]};
                excluded_at := now |})
  else
    let home_stats := dict_get match_data "home_stats" PyNone in
    let away_stats := dict_get match_data "away_stats" PyNone in
    if negb (truthy home_stats) || negb (truthy away_stats) then
      let missing :=
        (if negb (truthy home_stats) then ["home_stats"] else [])
        ++ (if negb (truthy away_stats) then ["away_stats"] else []) in
      Ok (Some {| match_id := match_id;
                  reason := MISSING_DATA;
                  details := {[ "missing_fields" := PyList (map PyStr missing) ]};
                  excluded_at := now |})
    else
      let quality_score := dict_get match_data "quality_score" (PyInt 0) in
      low_quality ← less_than quality_score (min_quality_score self) "float";
      if low_quality : bool then
        Ok (Some {| match_id := match_id;
                    reason := INSUFFICIENT_QUALITY;
                    details := {[ "quality_score" := quality_score;
                                  "required" := PyFloat (min_quality_score self) ]};
                    excluded_at := now |})
      else
        home_games ← games_played home_stats;
        away_games ← games_played away_stats;
        home_short ← less_than home_games (inject_Z (min_history_games self)) "int";
        short ←
          (if home_short : bool then Ok true
           else less_than away_games (inject_Z (min_history_games self)) "int");
        if short : bool then
          Ok (Some {| match_id := match_id;
                      reason := INSUFFICIENT_HISTORY;
                      details := {[ "home_games" := home_games;
                                    "away_games" := away_games;
                                    "required" := PyInt (min_history_games self) ]};
                      excluded_at := now |})
        else Ok None.

(** One iteration of the loop of [check_batch] *)
Definition check_one (self : ExclusionChecker) (now : Z)
    (acc : list (gmap string PyVal) * list MatchExclusion)
    (match_data : gmap string PyVal)
  : Result (list (gmap string PyVal) * list MatchExclusion) :=
  exclusion ← check self now match_data;
  match exclusion with
  | Some ex => Ok (acc.1, acc.2 ++ [ex])
  | None => Ok (acc.1 ++ [match_data], acc.2)
  end.

(** [ExclusionChecker.check_batch]; an exception raised by [check] is not
    caught here. *)
Fixpoint check_loop (self : ExclusionChecker) (now : Z)
    (matches : list (gmap string PyVal))
    (acc : list (gmap string PyVal) * list MatchExclusion)
  : Result (list (gmap string PyVal) * list MatchExclusion) :=
  match matches with
  | [] => Ok acc
  | match_data :: rest =>
      acc' ← check_one self now acc match_data;
      check_loop self now rest acc'
  end.

Definition check_batch (self : ExclusionChecker) (now : Z)
    (matches : list (gmap string PyVal))
  : Result (list (gmap string PyVal) * list MatchExclusion) :=
  check_loop self now matches ([], []).

End exclusions.

(** ** The scoring run ([ScoringPipeline.score_matches]) *)

Module scoring_run.
Import Py.

(** [result["stats"]] *)
Record Stats := {
  total : Z;
  eligible : Z;
  excluded : Z;
  signals_generated : Z
}.

(** The dictionary that [score_matches] returns; the key [error_cause] is
    only set when the run failed. *)
Record ScoringResult := {
  status : string;
  run_id : string;
  trace_id : string;
  scored_at : string;
  signals : list (gmap string PyVal);
  exclusions : list (gmap string PyVal);
  stats : Stats;
  error_cause : option string
}.

(** [self.exclusion_checker], built by [ScoringPipeline.__init__] *)
Definition exclusion_checker (self : scoring_pipeline.ScoringPipeline)
  : exclusions.ExclusionChecker :=
  exclusions.init None (Some (scoring_pipeline.min_quality_score self)).

Section WithRuntime.
Context (rt : Runtime).
(** The fault the database opposes to the [n]-th call of [save_signals] *)
Context (faults : nat -> postgres_writer.Fault).
(** The three heuristics applied in turn to the statistics of the two
    teams ([WinnerModel.predict], [ScoreProjector.project],
    [OverUnderGenerator.generate]): the [winner], [score_projection] and
    [over_under] entries of the signal, or the exception one of them
    raised. *)
Context (heuristics :
  PyVal -> PyVal ->
  Result (gmap string PyVal * gmap string PyVal * gmap string PyVal)).

(** [ScoringPipeline._generate_signal_for_match]: any exception gives
    [None]. *)
Definition _generate_signal_for_match (now : Z) (match_data : gmap string PyVal)
  : option (gmap string PyVal) :=
  let match_id := dict_get match_data "external_id" PyNone in
  let home_stats := dict_get match_data "home_stats" (PyDict ∅) in
  let away_stats := dict_get match_data "away_stats" (PyDict ∅) in
  match heuristics home_stats away_stats with
  | Ok (winner, score_projection, over_under) =>
      Some {[ "match_id" := match_id;
              "run_id" := dict_get match_data "run_id" PyNone;
              "home_team" := dict_get match_data "home_team" (PyDict ∅);
              "away_team" := dict_get match_data "away_team" (PyDict ∅);
              "scheduled_at" := dict_get match_data "scheduled_at" PyNone;
              "winner" := PyDict winner;
              "score_projection" := PyDict score_projection;
              "over_under" := PyDict over_under;
              "quality_score" := dict_get match_data "quality_score" PyNone;
              "generated_at" := PyStr (isoformat rt now) ]}
  | Raise _ => None
  end.

(** One entry of [result["exclusions"]] *)
Definition exclusion_entry (ex : exclusions.MatchExclusion) : gmap string PyVal :=
  {[ "match_id" := exclusions.match_id ex;
     "reason" := PyStr (exclusions.value (exclusions.reason ex));
     "details" := PyDict (exclusions.details ex);
     "excluded_at" := PyStr (isoformat rt (exclusions.excluded_at ex)) ]}.

(** The [except Exception as e] block of [score_matches] *)
Definition failed (result : ScoringResult) (e : PyExn) : ScoringResult :=
  {| status := "failed";
     run_id := run_id result;
     trace_id := trace_id result;
     scored_at := scored_at result;
     signals := [];
     exclusions := exclusions result;
     stats := stats result;
     error_cause := Some (exn_msg e) |}.

(** [ScoringPipeline.score_matches]; [now] stands for the readings of the
    clock during the call. *)
Definition score_matches (self : scoring_pipeline.ScoringPipeline) (now : Z)
    (run trace : string) (matches : list (gmap string PyVal))
    (w : scoring_pipeline.World) : ScoringResult * scoring_pipeline.World :=
  let result :=
    {| status := "success";
       run_id := run;
       trace_id := trace;
       scored_at := isoformat rt now;
       signals := [];
       exclusions := [];
       stats := {| total := Z.of_nat (length matches);
                   eligible := 0;
                   excluded := 0;
                   signals_generated := 0 |};
       error_cause := None |} in
  match exclusions.check_batch (exclusion_checker self) now matches with
  | Raise e => (failed result e, w)
  | Ok (eligible_matches, excluded_matches) =>
      let generated := omap (_generate_signal_for_match now) eligible_matches in
      let result :=
        {| status := status result;
           run_id := run_id result;
           trace_id := trace_id result;
           scored_at := scored_at result;
           signals := generated;
           exclusions := map exclusion_entry excluded_matches;
           stats := {| total := total (stats result);
                       eligible := Z.of_nat (length eligible_matches);
                       excluded := Z.of_nat (length excluded_matches);
                       signals_generated := Z.of_nat (length generated) |};
           error_cause := error_cause result |} in
      match generated with
      | [] => (result, w)
      | _ :: _ =>
          let '(success, w') :=
            scoring_pipeline._persist_signals_with_retry rt faults self now run
              generated w in
          if success : bool then (result, w')
          else
            (failed result
               {| exn_class := "Exception";
                  exn_msg := "Failed to persist signals after all retries" |},
             w')
      end
  end.

End WithRuntime.
End scoring_run.

(** ** Notions used to state the properties of the scoring run *)

Module notions_scoring.
Import Py exclusions.

(** What [check] says of a match *)
Definition accepts (self : ExclusionChecker) (now : Z)
    (match_data : gmap string PyVal) : bool :=
  match check self now match_data with Ok None => true | _ => false end.

Definition rejection (self : ExclusionChecker) (now : Z)
    (match_data : gmap string PyVal) : option MatchExclusion :=
  match check self now match_data with Ok (Some ex) => Some ex | _ => None end.

Definition answers (self : ExclusionChecker) (now : Z)
    (match_data : gmap string PyVal) : bool :=
  match check self now match_data with Ok _ => true | Raise _ => false end.




End notions_scoring.

(** ** Matches and heuristics for the examples of the scoring run *)

Module sample_scoring.
Import Py.

Definition stats (wins games : Z) : PyVal :=
  PyDict {[ "wins_last_5" := PyInt wins;
            "avg_points" := PyFloat (1155 # 10);
            "avg_allowed" := PyFloat (1082 # 10);
            "games_played" := PyInt games ]}.

(** The match of the repository's tests, with the given quality score and,
    when there is one, date *)
Definition scheduled_match (ext : string) (quality : PyVal) (when : option string)
  : gmap string PyVal :=
  let fields : gmap string PyVal :=
    {[ "external_id" := PyStr ext;
       "home_team" := sample.team "lal" "Lakers" "Los Angeles";
       "away_team" := sample.team "gsw" "Warriors" "Golden State";
       "home_stats" := stats 4 10;
       "away_stats" := stats 3 10;
       "quality_score" := quality;
       "status" := PyStr "scheduled" ]} in
  match when with
  | Some text => <[ "scheduled_at" := PyStr text ]> fields
  | None => fields
  end.

Definition match_001 : gmap string PyVal :=
  scheduled_match "match_001" (PyFloat 85) (Some "2026-02-11T20:00:00Z").

(** The same match without its date *)
Definition match_without_date : gmap string PyVal :=
  scheduled_match "match_006" (PyFloat 85) None.

(** A match whose quality score is [None] *)
Definition match_without_quality : gmap string PyVal :=
  scheduled_match "match_007" PyNone (Some "2026-02-11T20:00:00Z").

(** A finished match *)
Definition finished_match : gmap string PyVal :=
  <[ "status" := PyStr "finished" ]> match_001.

(** Heuristics that give the same answer for every match *)
Definition flat_heuristics (home_stats away_stats : PyVal)
  : Result (gmap string PyVal * gmap string PyVal * gmap string PyVal) :=
  Ok ({[ "prediction" := PyStr "home"; "confidence" := PyFloat (65 # 100) ]},
      {[ "total" := PyFloat (2235 # 10); "home" := PyFloat (1135 # 10);
         "away" := PyFloat 110 ]},
      {[ "signal" := PyStr "over"; "line" := PyFloat (2205 # 10);
         "confidence" := PyFloat (6 # 10); "edge" := PyFloat 3 ]}).

(** A database that never fails *)
Definition healthy (n : nat) : postgres_writer.Fault := postgres_writer.NoFault.

End sample_scoring.

(** ** Ingestion from the primary source ([app/pipelines/ingest_pipeline.py]) *)

Module ingest_pipeline.
Import Py.

(** [contracts.output_models.IngestionStatus] *)
Inductive IngestionStatus :=
| PENDING | COLLECTING | VALIDATING | STORING | SUCCESS
| SOURCE_ERROR | VALIDATION_ERROR | STORAGE_ERROR.

(** What [requests.get], [raise_for_status] and [response.json] lead to:
    one of the exception classes the method distinguishes, with for an
    [HTTPError] the status code of its response when it has one; any other
    exception; or the decoded body. *)
Inductive Response :=
| RaisesTimeout (msg : string)
| RaisesHTTPError (msg : string) (status_code : option Z)
| RaisesRequestException (msg : string)
| RaisesException (e : PyExn)
| Returns (data : PyVal).

(** The source: what the [n]-th request is answered with, and the URLs
    requested so far. *)
Record Source := {
  answers : nat -> Response;
  requested : list string
}.

Definition requests_get (url : string) (net : Source) : Response * Source :=
  (answers net (length (requested net)),
   {| answers := answers net; requested := requested net ++ [url] |}).

Record IngestPipeline := {
  trace_id : string;
  source_url : string;
  status : IngestionStatus;
  error_cause : option string;
  error_details : option string;
  collected_matches : list (gmap string PyVal);
  run_id : string
}.

(** [contracts.output_models.IngestionResult] *)
Record IngestionResult := {
  result_status : string;
  result_trace_id : string;
  result_run_id : string;
  matches_count : Z;
  matches : list (gmap string PyVal);
  collected_at : Z;
  result_error_cause : option string;
  result_error_details : option string
}.

(** [IngestPipeline.__init__]; [uuid1] and [uuid2] are the two identifiers
    drawn by [uuid.uuid4()]. *)
Definition init (uuid1 uuid2 : string) (trace url : option string) : IngestPipeline :=
  {| trace_id := match trace with Some (String _ _ as t) => t | _ => uuid1 end;
     source_url := match url with
                   | Some (String _ _ as u) => u
                   | _ => "https://api.nba.com/v1/games/today"
                   end;
     status := PENDING;
     error_cause := None;
     error_details := None;
     collected_matches := [];
     run_id := uuid2 |}.

Definition set_error (self : IngestPipeline) (cause : string)
    (details : option string) : IngestPipeline :=
  {| trace_id := trace_id self;
     source_url := source_url self;
     status := SOURCE_ERROR;
     error_cause := Some cause;
     error_details := details;
     collected_matches := collected_matches self;
     run_id := run_id self |}.

Definition set_status (self : IngestPipeline) (st : IngestionStatus) : IngestPipeline :=
  {| trace_id := trace_id self;
     source_url := source_url self;
     status := st;
     error_cause := error_cause self;
     error_details := error_details self;
     collected_matches := collected_matches self;
     run_id := run_id self |}.

Definition set_collected (self : IngestPipeline)
    (collected : list (gmap string PyVal)) : IngestPipeline :=
  {| trace_id := trace_id self;
     source_url := source_url self;
     status := SUCCESS;
     error_cause := error_cause self;
     error_details := error_details self;
     collected_matches := collected;
     run_id := run_id self |}.

(** [len(v)] *)
Definition len (v : PyVal) : Result Z :=
  match v with
  | PyList l => Ok (Z.of_nat (length l))
  | PyStr s => Ok (Z.of_nat (String.length s))
  | PyDict d => Ok (Z.of_nat (size d))
  | other =>
      Raise {| exn_class := "TypeError";
               exn_msg := "object of type '" +:+ type_name other +:+ "' has no len()" |}
  end.

(** [IngestPipeline.fetch_matches_from_source]: the matches, [None] after
    an exception that the method handles, or the exception that leaves
    it. *)
Definition fetch_matches_from_source (self : IngestPipeline) (net : Source)
  : Result (option PyVal) * IngestPipeline * Source :=
  let self := set_status self COLLECTING in
  let '(response, net) := requests_get (source_url self) net in
  match response with
  | Returns data =>
      let fetched :=
        games ← match data with
                | PyDict d => Ok (dict_get d "games" (PyList []))
                | other => Raise (AttributeError other "get")
                end;
        _ ← len games;
        Ok (Some games) in
      (fetched, self, net)
  | RaisesTimeout msg =>
      (Ok None,
       set_error self "SOURCE_TIMEOUT" (Some ("API timeout apres 30s: " +:+ msg)),
       net)
  | RaisesHTTPError msg (Some code) =>
      (Ok None,
       set_error self "SOURCE_HTTP_ERROR" (Some ("HTTP " +:+ pretty code)),
       net)
  | RaisesHTTPError msg None =>
      (* [e.response] is [None]: the handler itself raises, after it has
         set the status and the cause *)
      (Raise {| exn_class := "AttributeError";
                exn_msg := "'NoneType' object has no attribute 'status_code'" |},
       set_error self "SOURCE_HTTP_ERROR" (error_details self),
       net)
  | RaisesRequestException msg =>
      (Ok None,
       set_error self "SOURCE_UNAVAILABLE" (Some ("Request failed: " +:+ msg)),
       net)
  | RaisesException e => (Raise e, self, net)
  end.

Section WithContract.
(** [MatchInput] built from the unpacked [match_data], then [model_dump]:
    the validated match, or the exception raised by the validation. *)
Context (MatchInput : gmap string PyVal -> Result (gmap string PyVal)).

(** One iteration of the loop of [validate_matches_batch]: whatever
    [validate_match_contract] meets is raised again as a ValueError, which
    the loop skips; an element that is not a mapping cannot be unpacked. *)
Definition validated (match_data : PyVal) : option (gmap string PyVal) :=
  match match_data with
  | PyDict d =>
      match MatchInput d with
      | Ok dumped => Some dumped
      | Raise _ => None
      end
  | _ => None
  end.

(** [IngestPipeline.validate_matches_batch] followed by [model_dump]; the
    elements of a string or the keys of a dictionary are strings, none of
    which is a mapping. *)
Definition validate_matches_batch (self : IngestPipeline) (raw : PyVal)
  : list (gmap string PyVal) * IngestPipeline :=
  let self := set_status self VALIDATING in
  match raw with
  | PyList l => (omap validated l, self)
  | _ => ([], self)
  end.

Definition error_result (self : IngestPipeline) (now : Z) : IngestionResult :=
  {| result_status := "error";
     result_trace_id := trace_id self;
     result_run_id := run_id self;
     matches_count := 0;
     matches := [];
     collected_at := now;
     result_error_cause := error_cause self;
     result_error_details := error_details self |}.

(** [IngestPipeline.run] *)
Definition run (self : IngestPipeline) (now : Z) (net : Source)
  : IngestionResult * IngestPipeline * Source :=
  let '(fetched, self, net) := fetch_matches_from_source self net in
  match fetched with
  | Ok None => (error_result self now, self, net)
  | Ok (Some raw_matches) =>
      let '(valid_matches, self) := validate_matches_batch self raw_matches in
      let self := set_collected self valid_matches in
      ({| result_status := "success";
          result_trace_id := trace_id self;
          result_run_id := run_id self;
          matches_count := Z.of_nat (length valid_matches);
          matches := valid_matches;
          collected_at := now;
          result_error_cause := None;
          result_error_details := None |}, self, net)
  | Raise e =>
      let self := set_error self "PIPELINE_ERROR" (Some (exn_msg e)) in
      (error_result self now, self, net)
  end.

End WithContract.

(** The causes [run] can report *)
Definition error_causes : list string :=
  ["SOURCE_TIMEOUT"; "SOURCE_HTTP_ERROR"; "SOURCE_UNAVAILABLE"; "PIPELINE_ERROR"].

(** A contract for the examples: the five fields of a match must be
    present, and the result is the match itself. *)
Definition sample_contract (match_data : gmap string PyVal)
  : Result (gmap string PyVal) :=
  if forallb (fun field => bool_decide (is_Some (match_data !! field)))
       ["external_id"; "home_team"; "away_team"; "scheduled_at"; "season"]
  then Ok match_data
  else Raise {| exn_class := "ValidationError"; exn_msg := "Field required" |}.

(** A source that answers with the given games *)
Definition serving (games : list PyVal) : Source :=
  {| answers := fun _ => Returns (PyDict {[ "games" := PyList games ]});
     requested := [] |}.

End ingest_pipeline.

(** * Properties *)

(** ** Python built-ins *)

Section builtins_facts.
Import Py.

Lemma Qltb_lt (x y : Q) : Qltb x y = true <-> (x < y)%Q.
Proof.
  unfold Qltb. rewrite negb_true_iff.
  destruct (Qle_bool y x) eqn:E.
  - apply Qle_bool_iff in E. split; [discriminate|].
    intros H. exfalso. apply (Qlt_not_le _ _ H E).
  - split; [intros _|reflexivity].
    apply Qnot_le_lt. intros H. apply Qle_bool_iff in H. congruence.
Qed.

Lemma Qltb_ge (x y : Q) : Qltb x y = false <-> (y <= x)%Q.
Proof.
  unfold Qltb. rewrite negb_false_iff. apply Qle_bool_iff.
Qed.

(** Comparing a quotient of integers with a constant *)
Lemma Qltb_div (a b c : Z) (d : positive) :
  0 < b -> Qltb (inject_Z a / inject_Z b) (c # d) = (a * Z.pos d <? c * b).
Proof.
  intros Hb. destruct b as [|p|p]; try lia.
  unfold Qltb, Qle_bool, Qdiv, Qmult, Qinv, inject_Z. cbn.
  rewrite Z.ltb_antisym. f_equal. f_equal; lia.
Qed.

Lemma Qltb_div_sub (a b c : Z) (d : positive) :
  0 < b ->
  Qltb (inject_Z a / inject_Z b) (1 - (c # d)) = (a * Z.pos d <? (Z.pos d - c) * b).
Proof.
  intros Hb. destruct b as [|p|p]; try lia.
  unfold Qltb, Qle_bool, Qdiv, Qmult, Qinv, inject_Z, Qminus, Qplus, Qopp. cbn.
  rewrite Z.ltb_antisym. f_equal. f_equal; lia.
Qed.

Lemma format_spec_percent_number rt digits v :
  is_number v = true ->
  exists text, format_spec_percent rt digits v = Ok text.
Proof. destruct v; cbn; try discriminate; eauto. Qed.

Lemma truediv_nonzero (a b : Z) :
  b <> 0 -> truediv a b = Ok (inject_Z a / inject_Z b)%Q.
Proof.
  intros Hb. unfold truediv. destruct (Z.eqb_spec b 0); [contradiction | reflexivity].
Qed.

Lemma range_empty (a b : Z) : b <= a -> range a b = [].
Proof.
  intros H. unfold range. replace (Z.to_nat (b - a)) with O by lia. reflexivity.
Qed.

End builtins_facts.

(** ** The guard *)

Section guard_facts.
Import Py no_bet_guard.

Ltac audit_entry :=
  eexists; split; [reflexivity|]; repeat split; by simplify_map_eq.

(** Every guard operation leaves the entries already in the audit trail
    where they are and adds one at the end. *)
Lemma _log_decision_appends rt now self decision qs :
  exists entry,
    audit_trail (_log_decision rt now self decision qs) = audit_trail self ++ [entry]
    /\ entry !! "mode" = Some (PyStr (value (mode decision)))
    /\ entry !! "allow_betting" = Some (PyBool (allow_betting decision))
    /\ entry !! "reason" = Some (PyStr (reason decision)).
Proof. audit_entry. Qed.

Lemma evaluate_run_status_returns rt now self qs fb :
  is_number (dict_get qs "pass_rate" (PyFloat 1)) = true ->
  exists decision self',
    evaluate_run_status rt now self qs fb = Ok (decision, self').
Proof.
  intros Hnum. unfold evaluate_run_status.
  destruct (format_spec_percent_number rt 1 _ Hnum) as [t1 ->].
  destruct (format_spec_percent_number rt 0 _ Hnum) as [t0 E0].
  cbn. destruct (negb _); [cbn; eauto|].
  destruct fb; rewrite E0; cbn; eauto.
Qed.

(** When the pass rate cannot be formatted, the evaluation raises before
    anything is decided or recorded. *)
Lemma evaluate_run_status_raises rt now self qs fb e :
  format_spec_percent rt 1 (dict_get qs "pass_rate" (PyFloat 1)) = Raise e ->
  evaluate_run_status rt now self qs fb = Raise e.
Proof. intros Hfmt. unfold evaluate_run_status. by rewrite Hfmt. Qed.

Lemma evaluate_run_status_appends rt now self qs fb decision self' :
  evaluate_run_status rt now self qs fb = Ok (decision, self') ->
  exists entry,
    audit_trail self' = audit_trail self ++ [entry]
    /\ entry !! "mode" = Some (PyStr (value (mode decision)))
    /\ entry !! "allow_betting" = Some (PyBool (allow_betting decision))
    /\ entry !! "reason" = Some (PyStr (reason decision)).
Proof.
  unfold evaluate_run_status.
  destruct (format_spec_percent rt 1 _); cbn; [|discriminate].
  destruct (negb _); [|destruct fb; destruct (format_spec_percent rt 0 _)];
    cbn; try discriminate;
    intros [= <- <-]; audit_entry.
Qed.

Lemma force_degraded_mode_appends rt now self why :
  exists entry,
    audit_trail (force_degraded_mode rt now self why).2 = audit_trail self ++ [entry].
Proof. eexists. reflexivity. Qed.

Lemma reset_to_normal_appends rt now self why :
  exists entry,
    audit_trail (reset_to_normal rt now self why).2 = audit_trail self ++ [entry].
Proof. eexists. reflexivity. Qed.

(** The hard stop: a critical summary and no fallback data *)
Lemma evaluate_run_status_blocks rt now self (qs : gmap string PyVal) :
  is_number (dict_get qs "pass_rate" (PyFloat 1)) = true ->
  qs !! "critical_failure" = Some (PyBool true) ->
  exists decision self',
    evaluate_run_status rt now self qs None = Ok (decision, self')
    /\ mode decision = DEGRADED_NO_BET
    /\ allow_betting decision = false.
Proof.
  intros Hnum Hcrit. unfold evaluate_run_status.
  destruct (format_spec_percent_number rt 1 _ Hnum) as [t1 ->].
  destruct (format_spec_percent_number rt 0 _ Hnum) as [t0 E0].
  unfold dict_get at 1. rewrite Hcrit. cbn. rewrite E0. cbn.
  do 2 eexists. repeat split.
Qed.

(** C1.  For every quality summary (a dictionary whose [pass_rate], when
    present, is a number) and every fallback outcome, [evaluate_run_status]
    returns a decision; its mode is [normal] with [allow_betting = True] when
    [critical_failure] is [False]; [degraded-fallback] with
    [allow_betting = True] when [critical_failure] is [True] and the fallback
    outcome is not [None]; [degraded-no-bet] with [allow_betting = False]
    when [critical_failure] is [True] and the fallback outcome is [None]. *)
Theorem evaluate_run_status_decision_table :
  forall rt now self (quality_summary : gmap string PyVal) fallback_result,
    is_number (dict_get quality_summary "pass_rate" (PyFloat 1)) = true ->
    exists decision self',
      evaluate_run_status rt now self quality_summary fallback_result
        = Ok (decision, self')
      /\ (quality_summary !! "critical_failure" = Some (PyBool false) ->
          mode decision = NORMAL /\ allow_betting decision = true)
      /\ (quality_summary !! "critical_failure" = Some (PyBool true) ->
          is_Some fallback_result ->
          mode decision = DEGRADED_FALLBACK /\ allow_betting decision = true)
      /\ (quality_summary !! "critical_failure" = Some (PyBool true) ->
          fallback_result = None ->
          mode decision = DEGRADED_NO_BET /\ allow_betting decision = false).
Proof.
  intros rt now self qs fb Hnum.
  unfold evaluate_run_status, dict_get in *.
  destruct (format_spec_percent_number rt 1 _ Hnum) as [t1 ->].
  destruct (format_spec_percent_number rt 0 _ Hnum) as [t0 E0].
  cbn.
  destruct (qs !! "critical_failure") as [[| [|] | | | | | |]|] eqn:Ecf; cbn;
    try (destruct (negb _); cbn);
    try (destruct fb as [matches|]; rewrite E0; cbn);
    (do 2 eexists; split; [reflexivity|]; cbn;
     repeat split; intros; try congruence;
     try match goal with H : is_Some None |- _ => by destruct H end).
Qed.

Lemma evaluate_run_status_decision_table_witness :
  exists decision self',
    evaluate_run_status sample.runtime sample.noon
      (init "uuid" (Some "test-trace-123"))
      {[ "critical_failure" := PyBool true; "pass_rate" := PyFloat (5 # 10);
         "total_matches" := PyInt 10; "failed" := PyInt 5 ]}
      None = Ok (decision, self')
    /\ mode decision = DEGRADED_NO_BET /\ allow_betting decision = false.
Proof.
  destruct (evaluate_run_status_decision_table sample.runtime sample.noon
              (init "uuid" (Some "test-trace-123"))
              {[ "critical_failure" := PyBool true; "pass_rate" := PyFloat (5 # 10);
                 "total_matches" := PyInt 10; "failed" := PyInt 5 ]}
              None)
    as (decision & self' & Heval & _ & _ & Hnobet).
  - reflexivity.
  - exists decision, self'. split; [exact Heval|].
    apply Hnobet; reflexivity.
Defined.

(** C10.  For every quality-summary dictionary without a
    [critical_failure] key (its [pass_rate], when present, being a number)
    and every fallback outcome, [evaluate_run_status] returns mode [normal]
    with [allow_betting = True]; the decision metadata carry
    [quality_summary.get("pass_rate", 1.0)], that is [1.0] when the summary
    has no [pass_rate]. *)
Theorem evaluate_run_status_missing_flag :
  forall rt now self (quality_summary : gmap string PyVal) fallback_result,
    quality_summary !! "critical_failure" = None ->
    is_number (dict_get quality_summary "pass_rate" (PyFloat 1)) = true ->
    exists decision self',
      evaluate_run_status rt now self quality_summary fallback_result
        = Ok (decision, self')
      /\ mode decision = NORMAL
      /\ allow_betting decision = true
      /\ metadata decision !! "quality_pass_rate"
           = Some (dict_get quality_summary "pass_rate" (PyFloat 1))
      /\ metadata decision !! "critical_failure" = Some (PyBool false)
      /\ (quality_summary !! "pass_rate" = None ->
          metadata decision !! "quality_pass_rate" = Some (PyFloat 1)).
Proof.
  intros rt now self qs fb Hcf Hnum.
  unfold evaluate_run_status.
  destruct (format_spec_percent_number rt 1 _ Hnum) as [t1 ->].
  unfold dict_get at 1. rewrite Hcf. cbn.
  do 2 eexists. split; [reflexivity|]. cbn.
  repeat split; try by simplify_map_eq.
  intros Hpr. unfold dict_get. rewrite Hpr. by simplify_map_eq.
Qed.

Lemma evaluate_run_status_missing_flag_witness :
  exists decision self',
    evaluate_run_status sample.runtime sample.noon (init "uuid" None) ∅
      (Some []) = Ok (decision, self')
    /\ mode decision = NORMAL
    /\ allow_betting decision = true
    /\ metadata decision !! "quality_pass_rate" = Some (PyFloat 1).
Proof.
  destruct (evaluate_run_status_missing_flag sample.runtime sample.noon
              (init "uuid" None) ∅ (Some []))
    as (decision & self' & Heval & Hmode & Hallow & _ & _ & Hrate).
  - reflexivity.
  - reflexivity.
  - exists decision, self'. repeat split; try assumption.
    apply Hrate. reflexivity.
Defined.

Lemma _log_decision_keys rt now self decision qs :
  exists entry,
    audit_trail (_log_decision rt now self decision qs) = audit_trail self ++ [entry]
    /\ dom entry = audit_keys.
Proof.
  eexists. split; [reflexivity|].
  unfold audit_keys. rewrite !dom_insert_L, dom_singleton_L. set_solver.
Qed.

(** C9, on the code.  [force_degraded_mode] and [reset_to_normal] each add
    exactly one entry at the end of the audit trail, and the decision they
    return has [forced] / [reset] set in its metadata; but the entry added
    to the trail has only the six keys of [_log_decision], its quality
    snapshot is four times [None], and neither flag is recorded in it. *)
Theorem override_audit_entry_drops_flag :
  forall rt now self why,
    (metadata (force_degraded_mode rt now self why).1 !! "forced" = Some (PyBool true)
     /\ exists entry,
         audit_trail (force_degraded_mode rt now self why).2
           = audit_trail self ++ [entry]
         /\ dom entry = audit_keys
         /\ entry !! "quality_summary" = Some (PyDict empty_snapshot)
         /\ entry !! "reason" = Some (PyStr ("FORCAGE MANUEL: " +:+ why)))
    /\
    (metadata (reset_to_normal rt now self why).1 !! "reset" = Some (PyBool true)
     /\ exists entry,
         audit_trail (reset_to_normal rt now self why).2
           = audit_trail self ++ [entry]
         /\ dom entry = audit_keys
         /\ entry !! "quality_summary" = Some (PyDict empty_snapshot)
         /\ entry !! "reason" = Some (PyStr ("RETOUR NORMAL: " +:+ why))).
Proof.
  intros rt now self why. split; (split; [by simplify_map_eq|]).
  - eexists. split; [reflexivity|]. split; [|split; by simplify_map_eq].
    unfold audit_keys. rewrite !dom_insert_L, dom_singleton_L. set_solver.
  - eexists. split; [reflexivity|]. split; [|split; by simplify_map_eq].
    unfold audit_keys. rewrite !dom_insert_L, dom_singleton_L. set_solver.
Qed.

(** Whatever the operation, the audit trail only grows at its end: the
    entries present before are kept, in order, and one is added. *)
Lemma guard_step_appends_one rt self self' :
  guard_step rt self self' ->
  exists entry, audit_trail self' = audit_trail self ++ [entry].
Proof.
  intros [now g qs fb decision g' Heval | now g why | now g why].
  - destruct (evaluate_run_status_appends _ _ _ _ _ _ _ Heval) as (entry & H & _).
    eauto.
  - apply force_degraded_mode_appends.
  - apply reset_to_normal_appends.
Qed.

Lemma guard_steps_extend rt self self' :
  rtc (guard_step rt) self self' ->
  exists added, audit_trail self' = audit_trail self ++ added.
Proof.
  induction 1 as [g | g1 g2 g3 Hstep _ (added & IH)].
  - exists []. by rewrite app_nil_r.
  - destruct (guard_step_appends_one _ _ _ Hstep) as (entry & Hentry).
    exists (entry :: added). rewrite IH, Hentry, <- app_assoc. reflexivity.
Qed.

End guard_facts.

(** ** The rule engine *)

Section rule_engine_facts.
Import Py quality_checks.
Context (rt : Runtime).


Lemma run_rules_cons now m rule rs acc :
  run_rules rt now m (rule :: rs) acc
  = run_rules rt now m rs (validate_rule rt now m acc rule).
Proof. reflexivity. Qed.

Lemma validate_rule_keeps now m acc rule :
  (forall x, x ∈ acc_errors acc -> x ∈ acc_errors (validate_rule rt now m acc rule))
  /\ (forall x, x ∈ acc_rule_results acc ->
                x ∈ acc_rule_results (validate_rule rt now m acc rule)).
Proof.
  unfold validate_rule.
  destruct (check rule now m) as [r|e]; cbn; (split; intros x Hx);
    try destruct (_ && _); set_solver.
Qed.

Lemma run_rules_keeps now m rs acc :
  (forall x, x ∈ acc_errors acc -> x ∈ acc_errors (run_rules rt now m rs acc))
  /\ (forall x, x ∈ acc_rule_results acc ->
                x ∈ acc_rule_results (run_rules rt now m rs acc)).
Proof.
  revert acc. induction rs as [|rule rs IH]; intros acc; [done|].
  cbn. destruct (IH (validate_rule rt now m acc rule)) as [IHe IHr].
  destruct (validate_rule_keeps now m acc rule) as [He Hr].
  split; intros x Hx; [apply IHe, He | apply IHr, Hr]; done.
Qed.

(** A rule that returns has its result recorded; a rule that raises has its
    [<rule>_error] line recorded. *)
Lemma run_rules_records now m rs acc rule :
  rule ∈ rs ->
  match check rule now m with
  | Ok r => r ∈ acc_rule_results (run_rules rt now m rs acc)
  | Raise e =>
      (name rule +:+ "_error: " +:+ exn_msg e) ∈ acc_errors (run_rules rt now m rs acc)
  end.
Proof.
  revert acc. induction rs as [|first rs IH]; intros acc Hin.
  - by apply elem_of_nil in Hin.
  - apply elem_of_cons in Hin as [<- | Hin]; [|apply IH, Hin].
    cbn. destruct (run_rules_keeps now m rs (validate_rule rt now m acc rule))
      as [He Hr].
    unfold validate_rule at 1 3. (* the head rule *)
    destruct (check rule now m) as [r|e] eqn:E.
    + apply Hr. unfold validate_rule. rewrite E. cbn. set_solver.
    + apply He. unfold validate_rule. rewrite E. cbn. set_solver.
Qed.

Lemma run_rules_errors_nil now m rs acc :
  acc_errors (run_rules rt now m rs acc) = []
  <-> acc_errors acc = []
      /\ existsb error_failure (map (fun rule => check rule now m) rs) = false.
Proof.
  revert acc. induction rs as [|rule rs IH]; intros acc.
  - cbn. tauto.
  - rewrite run_rules_cons, IH. cbn [map existsb].
    rewrite orb_false_iff. unfold validate_rule.
    destruct (check rule now m) as [r|e]; cbn.
    + destruct (negb (passed r) && String.eqb (severity r) "error"); cbn.
      * split; [intros [H _]|intros [_ [H _]]]; [|discriminate].
        by destruct (acc_errors acc).
      * tauto.
    + split; [intros [H _]|intros [_ [H _]]]; [|discriminate].
      by destruct (acc_errors acc).
Qed.

Lemma run_rules_warnings_nil now m rs acc :
  Forall (fun rule => severity_in_range (check rule now m)) rs ->
  acc_warnings (run_rules rt now m rs acc) = []
  <-> acc_warnings acc = []
      /\ existsb warning_failure (map (fun rule => check rule now m) rs) = false.
Proof.
  intros Hrange. revert acc.
  induction Hrange as [|rule rs Hrule _ IH]; intros acc.
  - cbn. tauto.
  - rewrite run_rules_cons, IH. cbn [map existsb].
    rewrite orb_false_iff. unfold validate_rule.
    destruct (check rule now m) as [r|e]; cbn; [|tauto].
    destruct (passed r) eqn:Hp; cbn; [tauto|].
    destruct (Hrule r eq_refl Hp) as [-> | ->]; cbn; [tauto|].
    split; [intros [H _]|intros [_ [H _]]]; [|discriminate].
    by destruct (acc_warnings acc).
Qed.

(** The status computed by the loop is the one the specification derives
    from the outcomes, for any rule list whose failed results are of
    severity [error] or [warning]. *)
Lemma validate_match_status self now m :
  Forall (fun rule => severity_in_range (check rule now m)) (rules self) ->
  status (validate_match rt self now m)
  = status_by_spec (map (fun rule => check rule now m) (rules self)).
Proof.
  intros Hrange. unfold validate_match, status_by_spec. cbn.
  pose proof (run_rules_errors_nil now m (rules self) no_findings) as He.
  pose proof (run_rules_warnings_nil now m (rules self) no_findings Hrange) as Hw.
  destruct (acc_errors _) as [|e es].
  - destruct He as [He _]. destruct (He eq_refl) as [_ ->].
    destruct (acc_warnings _) as [|w ws].
    + destruct Hw as [Hw _]. destruct (Hw eq_refl) as [_ ->]. reflexivity.
    + destruct (existsb warning_failure _) eqn:E; [reflexivity|].
      destruct Hw as [_ Hw]. by specialize (Hw (conj eq_refl eq_refl)).
  - destruct (existsb error_failure _) eqn:E; [reflexivity|].
    destruct He as [_ He]. by specialize (He (conj eq_refl eq_refl)).
Qed.

Lemma default_rules_in_range now m :
  Forall (fun rule => severity_in_range (check rule now m)) (_setup_default_rules rt).
Proof.
  unfold _setup_default_rules, severity_in_range.
  repeat apply List.Forall_cons; try apply List.Forall_nil; cbn.
  - intros r [= <-]; cbn. intros ->. by left.
  - intros r [= <-]; cbn. intros ->. by left.
  - unfold _check_consistency. intros r.
    match goal with |- context [mbind _ ?x] => destruct x as [same|e] end;
      cbn; [|discriminate].
    intros [= <-]; cbn. intros ->. by left.
  - intros r [= <-]; cbn. intros ->. by right.
Qed.

(** C5.  For every record, the status that [validate_match] gives is
    [fail] if the outcome of any rule is a failure of severity [error]
    (a result returned with [passed = False] and that severity, or an
    exception); otherwise [warning] if any outcome is a failure of severity
    [warning]; otherwise [pass]. *)
Theorem validate_match_status_total :
  forall trace now (match_data : gmap string PyVal),
    let self := init rt trace in
    status (validate_match rt self now match_data)
    = status_by_spec (map (fun rule => check rule now match_data) (rules self)).
Proof.
  intros trace now m self. apply validate_match_status.
  apply default_rules_in_range.
Qed.



Lemma timeliness_never_error max_age now m :
  error_failure (Ok (_check_timeliness rt max_age now m)) = false.
Proof.
  unfold error_failure, _check_timeliness. cbn [passed severity].
  match goal with |- context [negb ?b] => destruct b end; reflexivity.
Qed.

(** The result of the validity rule does not depend on [scheduled_at]. *)
Lemma validity_ignores_scheduled_at (m : gmap string PyVal) scheduled :
  _check_validity (<[ "scheduled_at" := scheduled ]> m)
  = _check_validity (delete "scheduled_at" m).
Proof.
  unfold _check_validity. cbn [flat_map].
  rewrite lookup_insert_eq, lookup_delete_eq.
  rewrite !lookup_insert_ne, !lookup_delete_ne by done.
  replace (if truthy scheduled
           then match validity_try_scheduled scheduled with
                | Ok _ => []
                | Raise _ => ["scheduled_at: invalid datetime format"]
                end
           else []) with (@nil string); [reflexivity|].
  destruct (truthy scheduled); [destruct scheduled|]; reflexivity.
Qed.

(** C7, on the code.  Whatever the value of [scheduled_at], a string that
    is not a date included, [_check_validity] passes with no invalid field:
    its [try] block only calls [str.replace], which does not raise.  On
    the record of the tests with [scheduled_at = "not-a-date"], the checker
    reports no error; the status is [warning], from the timeliness rule. *)
Theorem validity_accepts_any_scheduled_at :
  (forall scheduled : PyVal,
     let r := _check_validity {[ "scheduled_at" := scheduled ]} in
     passed r = true
     /\ details r = {[ "invalid_fields" := PyList [] ]}
     /\ severity r = "info")
  /\ (forall now,
        let r := validate_match rt (init rt None) now
                   (sample.lakers_warriors "not-a-date") in
        _check_validity (sample.lakers_warriors "not-a-date")
          ∈ rule_results r
        /\ passed (_check_validity (sample.lakers_warriors "not-a-date")) = true
        /\ errors r = []).
Proof.
  split.
  - intros scheduled r. subst r. unfold _check_validity.
    rewrite lookup_singleton_eq.
    assert (Hh : ({[ "scheduled_at" := scheduled ]} : gmap string PyVal)
                   !! "home_score" = None) by by simplify_map_eq.
    assert (Ha : ({[ "scheduled_at" := scheduled ]} : gmap string PyVal)
                   !! "away_score" = None) by by simplify_map_eq.
    cbn. rewrite Hh, Ha. cbn.
    destruct (truthy scheduled); [destruct scheduled|]; cbn; done.
  - intros now r. subst r. split; [|split].
    + apply (run_rules_records now _ (rules (init rt None)) no_findings
               validity_check). set_solver.
    + reflexivity.
    + apply (proj2 (run_rules_errors_nil now _ (rules (init rt None)) no_findings)).
      split; [reflexivity|].
      cbn [map existsb rules init _setup_default_rules check completeness_check
             validity_check consistency_check timeliness_check].
      rewrite timeliness_never_error. reflexivity.
Qed.

(** The other half of the validity rule: a score that is present, not
    [None], and negative or not a number makes the rule fail with severity
    [error] and is listed. *)
Lemma validity_rejects_bad_score (m : gmap string PyVal) field score :
  field ∈ ["home_score"; "away_score"] ->
  m !! field = Some score ->
  is_none score = false ->
  is_number score = false \/ negative score = true ->
  let r := _check_validity m in
  passed r = false
  /\ severity r = "error"
  /\ exists fields,
       details r = {[ "invalid_fields" := PyList (map PyStr fields) ]}
       /\ (field +:+ ": negative or invalid value") ∈ fields.
Proof.
  intros Hfield Hlookup Hnone Hbad r. subst r. unfold _check_validity.
  match goal with |- context [flat_map ?f ?l ++ ?d] =>
    set (score_errors := flat_map f l); set (date_errors := d) end.
  assert (Hin : (field +:+ ": negative or invalid value") ∈ score_errors ++ date_errors).
  { apply elem_of_app. left. subst score_errors.
    apply list_elem_of_In, in_flat_map. exists field.
    split; [by apply list_elem_of_In|].
    rewrite Hlookup, Hnone. cbn.
    destruct Hbad as [-> | ->]; cbn; [by left|].
    rewrite orb_true_r. by left. }
  cbn [passed severity details].
  destruct (score_errors ++ date_errors) as [|x xs] eqn:E.
  - by apply elem_of_nil in Hin.
  - repeat split. exists (x :: xs). split; [reflexivity | exact Hin].
Qed.

(** On every list of results [get_quality_summary] returns: the division
    is guarded by the test on the length. *)
Lemma get_quality_summary_returns self results :
  exists summary, get_quality_summary rt self results = Ok summary.
Proof.
  unfold get_quality_summary.
  destruct (Z.eqb_spec (Z.of_nat (length results)) 0) as [|Hne]; [eauto|].
  rewrite (truediv_nonzero _ _ Hne). cbn. eauto.
Qed.

End rule_engine_facts.


(** ** The fallback and its trigger *)

Section fallback_facts.
Import Py quality_checks fallback_pipeline.
Context (rt : Runtime).

Ltac case_fetch :=
  match goal with
  | |- context [fetch_from_fallback ?p ?n] =>
      let data := fresh "data" in
      let self1 := fresh "self1" in
      let net1 := fresh "net1" in
      let E := fresh "Efetch" in
      destruct (fetch_from_fallback p n) as [[[data|] self1] net1] eqn:E
  end.

(** One call of [fetch_from_fallback] is one request, and it touches only
    the status and the error fields of the pipeline. *)
Lemma fetch_from_fallback_frame self net data self' net' :
  fetch_from_fallback self net = (data, self', net') ->
  requested net' = requested net ++ [fallback_url self]
  /\ was_triggered self' = was_triggered self
  /\ cascading_failure self' = cascading_failure self
  /\ fallback_events self' = fallback_events self
  /\ fallback_url self' = fallback_url self.
Proof.
  unfold fetch_from_fallback. cbn.
  destruct (answers net _) as [| | | |[|]]; intros [= <- <- <-]; repeat split.
Qed.

Lemma trigger_fallback_if_needed_returns now self net results :
  exists r, trigger_fallback_if_needed rt now self net results = Ok r.
Proof.
  unfold trigger_fallback_if_needed. destruct results as [|r0 rest]; [eauto|].
  rewrite truediv_nonzero by (cbn [length]; lia). cbn -[fetch_from_fallback].
  destruct (Qltb _ _); [eauto|]. case_fetch; eauto.
Qed.

(** At or above the threshold the trigger fires: it makes exactly one
    request and sets [was_triggered]. *)
Lemma trigger_fires now self net results :
  results <> [] ->
  Qltb (inject_Z (count_status FAIL results) / inject_Z (Z.of_nat (length results)))
       fallback_pipeline.CRITICAL_FAILURE_THRESHOLD = false ->
  exists data self' net',
    trigger_fallback_if_needed rt now self net results = Ok (data, self', net')
    /\ was_triggered self' = true
    /\ requested net' = requested net ++ [fallback_url self].
Proof.
  intros Hne Hrate. unfold trigger_fallback_if_needed.
  destruct results as [|r0 rest]; [done|].
  rewrite truediv_nonzero by (cbn [length]; lia). cbn -[count_status length fetch_from_fallback].
  rewrite Hrate. case_fetch;
    apply fetch_from_fallback_frame in Efetch as (Hreq & Htrig & _);
    do 3 eexists; (split; [reflexivity|]); split; first [exact Htrig | exact Hreq].
Qed.

(** Below the threshold it returns [None] and makes no request. *)
Lemma trigger_stays_quiet now self net results :
  results <> [] ->
  Qltb (inject_Z (count_status FAIL results) / inject_Z (Z.of_nat (length results)))
       fallback_pipeline.CRITICAL_FAILURE_THRESHOLD = true ->
  trigger_fallback_if_needed rt now self net results
  = Ok (None, set_triggered self false (triggered_at self), net).
Proof.
  intros Hne Hrate. unfold trigger_fallback_if_needed.
  destruct results as [|r0 rest]; [done|].
  rewrite truediv_nonzero by (cbn [length]; lia). cbn -[count_status length fetch_from_fallback].
  by rewrite Hrate.
Qed.

(** When the trigger fires and the fetch gives nothing, the cascading
    failure is flagged. *)
Lemma trigger_failed_fetch_flags_cascade now self net results self' net' :
  trigger_fallback_if_needed rt now self net results = Ok (None, self', net') ->
  requested net' <> requested net ->
  cascading_failure self' = true
  /\ report_cascading_failure (get_fallback_report self') = true.
Proof.
  unfold trigger_fallback_if_needed. destruct results as [|r0 rest].
  - intros [= <- <-]. congruence.
  - rewrite truediv_nonzero by (cbn [length]; lia). cbn -[fetch_from_fallback].
    destruct (Qltb _ _).
    + intros [= <- <-]. congruence.
    + case_fetch; [discriminate|].
      intros [= <- <-] _. split; reflexivity.
Qed.

(** The two tests in terms of counts: the summary flags a batch when fewer
    than 80% of its results are [pass]; the trigger fires when at least 20%
    of them are [fail]. *)
Lemma summary_flag self results :
  results <> [] ->
  exists summary,
    get_quality_summary rt self results = Ok summary
    /\ summary !! "critical_failure"
       = Some (PyBool (count_status PASS results * 100
                       <? 80 * Z.of_nat (length results))).
Proof.
  intros Hne. unfold get_quality_summary.
  assert (0 < Z.of_nat (length results)) by (destruct results; [done | cbn; lia]).
  destruct (Z.eqb_spec (Z.of_nat (length results)) 0); [lia|].
  rewrite truediv_nonzero by lia. cbn -[count_status length].
  eexists. split; [reflexivity|]. simplify_map_eq.
  unfold quality_checks.CRITICAL_FAILURE_THRESHOLD. by rewrite Qltb_div_sub.
Qed.

Lemma trigger_by_counts now self net results :
  results <> [] ->
  if count_status FAIL results * 100 <? 20 * Z.of_nat (length results)
  then trigger_fallback_if_needed rt now self net results
       = Ok (None, set_triggered self false (triggered_at self), net)
  else exists data self' net',
         trigger_fallback_if_needed rt now self net results = Ok (data, self', net')
         /\ was_triggered self' = true
         /\ requested net' = requested net ++ [fallback_url self].
Proof.
  intros Hne.
  assert (0 < Z.of_nat (length results)) by (destruct results; [done | cbn; lia]).
  destruct (_ <? _) eqn:E.
  - apply trigger_stays_quiet; [done|].
    unfold fallback_pipeline.CRITICAL_FAILURE_THRESHOLD. by rewrite Qltb_div.
  - apply trigger_fires; [done|].
    unfold fallback_pipeline.CRITICAL_FAILURE_THRESHOLD. by rewrite Qltb_div.
Qed.

(** Where the two agree: on batches without warnings, away from exactly
    20% of failures, the trigger fires exactly when the summary is
    critical. *)
Lemma trigger_agrees_off_boundary results :
  count_status PASS results + count_status FAIL results = Z.of_nat (length results) ->
  count_status FAIL results * 5 <> Z.of_nat (length results) ->
  (count_status FAIL results * 100 <? 20 * Z.of_nat (length results))
  = negb (count_status PASS results * 100 <? 80 * Z.of_nat (length results)).
Proof.
  intros Hsum Hoff.
  destruct (Z.ltb_spec (count_status FAIL results * 100)
                       (20 * Z.of_nat (length results))),
           (Z.ltb_spec (count_status PASS results * 100)
                       (80 * Z.of_nat (length results))); cbn; try reflexivity; lia.
Qed.

(** C8.  The empty batch: the summary has zero counts, a pass rate of
    [0.0] and [critical_failure = False], obtained without any division;
    and the trigger on the empty list of results returns [None], leaves the
    pipeline as it was (no event, no flag) and makes no request. *)
Theorem empty_batch_is_quiet :
  forall self now pipeline net,
    validate_batch rt self now [] = []
    /\ get_quality_summary rt self []
       = Ok {[ "total_matches" := PyInt 0;
               "passed" := PyInt 0;
               "failed" := PyInt 0;
               "pass_rate" := PyFloat 0;
               "critical_failure" := PyBool false ]}
    /\ trigger_fallback_if_needed rt now pipeline net [] = Ok (None, pipeline, net)
    /\ (forall results,
          (exists summary, get_quality_summary rt self results = Ok summary)
          /\ (exists r, trigger_fallback_if_needed rt now pipeline net results = Ok r)).
Proof.
  intros self now pipeline net. repeat split.
  - apply get_quality_summary_returns.
  - apply trigger_fallback_if_needed_returns.
Qed.

(** C2, on the code.  With one failed record in five the pass rate is 4/5,
    which is not below [1 - 0.20], so the summary has
    [critical_failure = False]; yet the trigger, which computes its own
    failure rate 1/5 and tests it with [fail_rate < 0.20], fires and makes a
    request.  Conversely, with one record of status [warning] the summary
    has [critical_failure = True] while the trigger, which counts only the
    status [fail], returns [None] without any request. *)
Theorem fallback_trigger_disagrees_with_summary :
  forall self now pipeline net,
    (count_status PASS sample.one_failure_in_five = 4
     /\ (1 - quality_checks.CRITICAL_FAILURE_THRESHOLD <= 4 # 5)%Q
     /\ (exists summary,
           get_quality_summary rt self sample.one_failure_in_five = Ok summary
           /\ summary !! "critical_failure" = Some (PyBool false))
     /\ (exists data pipeline' net',
           trigger_fallback_if_needed rt now pipeline net sample.one_failure_in_five
             = Ok (data, pipeline', net')
           /\ was_triggered pipeline' = true
           /\ requested net' = requested net ++ [fallback_url pipeline]))
    /\
    ((exists summary,
        get_quality_summary rt self sample.one_warning = Ok summary
        /\ summary !! "critical_failure" = Some (PyBool true))
     /\ (exists pipeline',
           trigger_fallback_if_needed rt now pipeline net sample.one_warning
             = Ok (None, pipeline', net)
           /\ was_triggered pipeline' = false
           /\ fallback_events pipeline' = fallback_events pipeline)).
Proof.
  intros self now pipeline net. split; [split; [|split; [|split]]|split].
  - reflexivity.
  - by vm_compute.
  - eexists. split; [reflexivity|]. by simplify_map_eq.
  - by apply trigger_fires.
  - eexists. split; [reflexivity|]. by simplify_map_eq.
  - eexists. split; [reflexivity|]. split; reflexivity.
Qed.

End fallback_facts.

(** ** Summary, fallback and guard on the same batch *)

Section run_facts.
Import Py.
Context (rt : Runtime).

(** C3, on the code.  A batch of one stale record (status [warning]): the
    summary has [critical_failure = True]; the trigger of a fresh pipeline
    counts no [fail], makes no request and returns [None], so the report has
    [cascading_failure = False]; the guard, given that summary and [None],
    blocks with mode [degraded-no-bet], [allow_betting = False] and
    [blocking_reason = "cascading_failure"] in its metadata. *)
Theorem no_bet_without_cascading_failure :
  forall qc guard uuid trace url net now,
    let pipeline := fallback_pipeline.init uuid trace url in
    exists summary pipeline' decision guard',
      quality_checks.get_quality_summary rt qc sample.one_warning = Ok summary
      /\ summary !! "critical_failure" = Some (PyBool true)
      /\ fallback_pipeline.trigger_fallback_if_needed rt now pipeline net
           sample.one_warning = Ok (None, pipeline', net)
      /\ fallback_pipeline.report_cascading_failure
           (fallback_pipeline.get_fallback_report pipeline') = false
      /\ fallback_pipeline.report_events
           (fallback_pipeline.get_fallback_report pipeline') = []
      /\ no_bet_guard.evaluate_run_status rt now guard summary None
         = Ok (decision, guard')
      /\ no_bet_guard.mode decision = no_bet_guard.DEGRADED_NO_BET
      /\ no_bet_guard.allow_betting decision = false
      /\ no_bet_guard.metadata decision !! "fallback_failed" = Some (PyBool true)
      /\ no_bet_guard.metadata decision !! "blocking_reason"
         = Some (PyStr "cascading_failure").
Proof.
  intros qc guard uuid trace url net now pipeline.
  do 4 eexists.
  split; [reflexivity|]. split; [by simplify_map_eq|].
  split; [reflexivity|]. split; [reflexivity|]. split; [reflexivity|].
  split; [reflexivity|]. cbn.
  repeat split; by simplify_map_eq.
Qed.

(** When the fallback did run and gave nothing, both hold: the report
    flags the cascading failure and the guard blocks. *)
Lemma failed_fallback_blocks qc guard pipeline net now results
    summary pipeline' net' :
  quality_checks.get_quality_summary rt qc results = Ok summary ->
  summary !! "critical_failure" = Some (PyBool true) ->
  fallback_pipeline.trigger_fallback_if_needed rt now pipeline net results
    = Ok (None, pipeline', net') ->
  fallback_pipeline.requested net' <> fallback_pipeline.requested net ->
  fallback_pipeline.report_cascading_failure
    (fallback_pipeline.get_fallback_report pipeline') = true
  /\ exists decision guard',
       no_bet_guard.evaluate_run_status rt now guard summary None
         = Ok (decision, guard')
       /\ no_bet_guard.mode decision = no_bet_guard.DEGRADED_NO_BET
       /\ no_bet_guard.allow_betting decision = false.
Proof.
  intros Hsum Hcrit Htrig Hreq. split.
  - eapply trigger_failed_fetch_flags_cascade; eauto.
  - assert (Hnum : is_number (dict_get summary "pass_rate" (PyFloat 1)) = true).
    { revert Hsum. unfold quality_checks.get_quality_summary.
      destruct (_ =? 0).
      - intros [= <-]. reflexivity.
      - destruct (truediv _ _); cbn; [|discriminate].
        intros [= <-]. reflexivity. }
    by apply evaluate_run_status_blocks.
Qed.

(** The whole family: a batch with fewer than 20% of [fail] and fewer than
    80% of [pass] (so with warnings) is critical for the summary, does not
    fire the trigger, and is blocked by the guard while the cascading
    failure flag keeps its value. *)
Lemma critical_without_fetch_blocks qc guard pipeline net now results :
  results <> [] ->
  quality_checks.count_status quality_checks.FAIL results * 100
    < 20 * Z.of_nat (length results) ->
  quality_checks.count_status quality_checks.PASS results * 100
    < 80 * Z.of_nat (length results) ->
  exists summary pipeline' decision guard',
    quality_checks.get_quality_summary rt qc results = Ok summary
    /\ summary !! "critical_failure" = Some (PyBool true)
    /\ fallback_pipeline.trigger_fallback_if_needed rt now pipeline net results
       = Ok (None, pipeline', net)
    /\ fallback_pipeline.cascading_failure pipeline'
       = fallback_pipeline.cascading_failure pipeline
    /\ no_bet_guard.evaluate_run_status rt now guard summary None
       = Ok (decision, guard')
    /\ no_bet_guard.mode decision = no_bet_guard.DEGRADED_NO_BET
    /\ no_bet_guard.allow_betting decision = false.
Proof.
  intros Hne Hfail Hpass.
  destruct (summary_flag rt qc results Hne) as (summary & Hsum & Hflag).
  pose proof (trigger_by_counts rt now pipeline net results Hne) as Htrig.
  destruct (Z.ltb_spec (quality_checks.count_status quality_checks.FAIL results * 100)
                       (20 * Z.of_nat (length results))); [|lia].
  destruct (Z.ltb_spec (quality_checks.count_status quality_checks.PASS results * 100)
                       (80 * Z.of_nat (length results))); [|lia].
  assert (Hnum : is_number (dict_get summary "pass_rate" (PyFloat 1)) = true).
  { revert Hsum. unfold quality_checks.get_quality_summary.
    destruct (_ =? 0).
    - intros [= <-]. reflexivity.
    - destruct (truediv _ _); cbn; [|discriminate].
      intros [= <-]. reflexivity. }
  destruct (evaluate_run_status_blocks rt now guard summary Hnum Hflag)
    as (decision & guard' & Heval & Hmode & Hallow).
  exists summary,
         (fallback_pipeline.set_triggered pipeline false
            (fallback_pipeline.triggered_at pipeline)),
         decision, guard'.
  repeat split; assumption.
Qed.

End run_facts.

(** ** Transactions and retries *)

Section persistence_facts.
Import Py postgres_writer scoring_pipeline.
Context (rt : Runtime).

#[local] Arguments Nat.ltb : simpl never.
#[local] Arguments Nat.leb : simpl never.

(** Merging never touches the visible rows; it fails exactly when the
    database refuses one of the rows being merged. *)
Lemma merge_all_spec fault entities s :
  merge_all fault entities s
  = match fault with
    | MergeFault k msg =>
        if (Nat.leb (length (pending s)) k
            && Nat.ltb k (length (pending s) + length entities))%bool
        then Raise (OperationalError msg)
        else Ok {| visible := visible s; pending := pending s ++ entities |}
    | _ => Ok {| visible := visible s; pending := pending s ++ entities |}
    end.
Proof.
  revert s. induction entities as [|row rest IH]; intros [vis pend]; cbn.
  - rewrite app_nil_r.
    destruct fault as [| |k msg|]; try reflexivity.
    destruct (Nat.leb_spec (length pend) k), (Nat.ltb_spec k (length pend + 0));
      cbn; try reflexivity; lia.
  - unfold merge. cbn.
    destruct fault as [| |k msg|]; cbn;
      try (rewrite IH; cbn; by rewrite <- app_assoc).
    destruct (Nat.eqb_spec k (length pend)) as [->|Hne]; cbn.
    + rewrite Nat.leb_refl.
      destruct (Nat.ltb_spec (length pend) (length pend + S (length rest)));
        [reflexivity | lia].
    + rewrite IH. cbn. rewrite length_app. cbn. rewrite <- app_assoc. cbn.
      destruct (Nat.leb_spec (length pend + 1) k),
               (Nat.ltb_spec k (length pend + 1 + length rest)),
               (Nat.leb_spec (length pend) k),
               (Nat.ltb_spec k (length pend + S (length rest)));
        cbn; try reflexivity; lia.
Qed.

(** [save_signals] is all or nothing: it returns after writing every row of
    the batch, or raises and leaves the visible rows as they were. *)
Lemma save_signals_atomic fault now rows run signals :
  match save_signals rt fault now rows run signals with
  | (Ok n, rows') =>
      exists entities,
        mapM (make_entity rt now run) signals = Ok entities
        /\ n = length entities
        /\ rows' = upsert_all entities rows
  | (Raise _, rows') => rows' = rows
  end.
Proof.
  unfold save_signals.
  destruct fault as [|msg|k msg|msg]; try reflexivity;
    (destruct (mapM _ signals) as [entities|e]; cbn; [|reflexivity]);
    rewrite merge_all_spec; cbn;
    try (destruct (Nat.ltb _ _); cbn);
    try reflexivity;
    exists entities; rewrite ?app_nil_l; done.
Qed.

(** Whether a call returns does not depend on the rows already stored. *)
Lemma save_signals_succeeds fault now rows run signals :
  attempt_succeeds rt fault now run signals = true ->
  exists entities,
    mapM (make_entity rt now run) signals = Ok entities
    /\ save_signals rt fault now rows run signals
       = (Ok (length entities), upsert_all entities rows).
Proof.
  unfold attempt_succeeds, save_signals.
  destruct fault as [|msg|k msg|msg]; cbn; try discriminate;
    (destruct (mapM _ signals) as [entities|e]; cbn; [|discriminate]);
    rewrite !merge_all_spec; cbn;
    try (destruct (Nat.ltb _ _); cbn); try discriminate;
    intros _; exists entities; done.
Qed.

Lemma save_signals_fails fault now rows run signals :
  attempt_succeeds rt fault now run signals = false ->
  exists e, save_signals rt fault now rows run signals = (Raise e, rows).
Proof.
  unfold attempt_succeeds, save_signals.
  destruct fault as [|msg|k msg|msg]; cbn; eauto;
    (destruct (mapM _ signals) as [entities|e]; cbn; [|eauto]);
    rewrite !merge_all_spec; cbn;
    try (destruct (Nat.ltb _ _); cbn); try discriminate; eauto.
Qed.

(** Rows are never removed by a commit, and every row written by it is
    visible afterwards. *)
Lemma upsert_all_keeps entities rows key :
  is_Some (rows !! key) -> is_Some (upsert_all entities rows !! key).
Proof.
  unfold upsert_all. revert rows.
  induction entities as [|first rest IH]; intros rows Hkey; [done|].
  cbn. apply IH. rewrite lookup_insert. case_decide; eauto.
Qed.

Lemma upsert_all_visible entities rows row :
  row ∈ entities -> is_Some (upsert_all entities rows !! id row).
Proof.
  revert rows. induction entities as [|first rest IH]; intros rows Hin.
  - by apply elem_of_nil in Hin.
  - apply elem_of_cons in Hin as [-> | Hin]; [|by apply IH].
    apply (upsert_all_keeps rest). rewrite lookup_insert_eq. eauto.
Qed.

Section retry.
Context (faults : nat -> Fault) (self : ScoringPipeline) (now : Z) (run : string)
        (signals : list (gmap string PyVal)).

Lemma attempt_save_fails w :
  attempt_succeeds rt (faults (save_calls w)) now run signals = false ->
  exists e,
    attempt_save rt faults now run signals w
    = (Raise e, {| rows := rows w; save_calls := S (save_calls w); slept := slept w |}).
Proof.
  intros Hfail. unfold attempt_save.
  destruct (save_signals_fails _ _ (rows w) _ _ Hfail) as [e ->]. eauto.
Qed.

Lemma attempt_save_succeeds w :
  attempt_succeeds rt (faults (save_calls w)) now run signals = true ->
  exists entities,
    mapM (make_entity rt now run) signals = Ok entities
    /\ attempt_save rt faults now run signals w
       = (Ok (length entities),
          {| rows := upsert_all entities (rows w);
             save_calls := S (save_calls w);
             slept := slept w |}).
Proof.
  intros Hok. unfold attempt_save.
  destruct (save_signals_succeeds _ _ (rows w) _ _ Hok) as (entities & Hmap & ->).
  eauto.
Qed.

(** If every remaining attempt fails, the loop makes them all, reports
    failure and leaves the rows as they were. *)
Lemma retry_loop_all_fail remaining w :
  (forall i, (i < length remaining)%nat ->
     attempt_succeeds rt (faults (save_calls w + i)) now run signals = false) ->
  let out := retry_loop rt faults self now run signals remaining w in
  out.1 = false
  /\ save_calls out.2 = (save_calls w + length remaining)%nat
  /\ rows out.2 = rows w.
Proof.
  revert w. induction remaining as [|attempt rest IH]; intros w Hfail; cbn.
  - repeat split. lia.
  - destruct (attempt_save_fails w) as [e ->].
    { rewrite <- (Nat.add_0_r (save_calls w)). apply Hfail. cbn. lia. }
    match goal with |- context [retry_loop _ _ _ _ _ _ _ ?w1] =>
      specialize (IH w1); assert (Hc : save_calls w1 = S (save_calls w))
        by (destruct (_ <? _); reflexivity);
      assert (Hr : rows w1 = rows w) by (destruct (_ <? _); reflexivity)
    end.
    rewrite Hc, Hr in IH.
    destruct IH as (H1 & H2 & H3).
    { intros i Hi. replace (S (save_calls w) + i)%nat with (save_calls w + S i)%nat
        by lia. apply Hfail. cbn. lia. }
    repeat split; [exact H1 | rewrite H2; lia | exact H3].
Qed.

(** The first attempt that succeeds ends the loop: no further call is
    made, and the rows of the batch have all been written. *)
Lemma retry_loop_first_success remaining w k :
  (k < length remaining)%nat ->
  (forall i, (i < k)%nat ->
     attempt_succeeds rt (faults (save_calls w + i)) now run signals = false) ->
  attempt_succeeds rt (faults (save_calls w + k)) now run signals = true ->
  let out := retry_loop rt faults self now run signals remaining w in
  out.1 = true
  /\ save_calls out.2 = (save_calls w + S k)%nat
  /\ exists entities,
       mapM (make_entity rt now run) signals = Ok entities
       /\ rows out.2 = upsert_all entities (rows w).
Proof.
  revert w k. induction remaining as [|attempt rest IH]; intros w k Hk Hfail Hok;
    cbn in Hk; [lia|]. cbn.
  destruct k as [|k].
  - rewrite Nat.add_0_r in Hok.
    destruct (attempt_save_succeeds w Hok) as (entities & Hmap & ->). cbn.
    repeat split; [lia|]. eauto.
  - destruct (attempt_save_fails w) as [e ->].
    { rewrite <- (Nat.add_0_r (save_calls w)). apply Hfail. lia. }
    match goal with |- context [retry_loop _ _ _ _ _ _ _ ?w1] =>
      specialize (IH w1 k); assert (Hc : save_calls w1 = S (save_calls w))
        by (destruct (_ <? _); reflexivity);
      assert (Hr : rows w1 = rows w) by (destruct (_ <? _); reflexivity)
    end.
    rewrite Hc, Hr in IH.
    destruct IH as (H1 & H2 & H3).
    { lia. }
    { intros i Hi. replace (S (save_calls w) + i)%nat with (save_calls w + S i)%nat
        by lia. apply Hfail. lia. }
    { replace (S (save_calls w) + k)%nat with (save_calls w + S k)%nat by lia.
      exact Hok. }
    repeat split; [exact H1 | rewrite H2; lia | exact H3].
Qed.

Lemma length_attempts :
  length (range 1 (max_retries self + 1)) = Z.to_nat (max_retries self).
Proof.
  unfold range. rewrite length_map, length_seq. f_equal. lia.
Qed.

End retry.

(** C4.  With [max_retries = N], the [k]-th call of [save_signals] being
    the [k]-th attempt:
    - if the attempts before the [k]-th fail and the [k]-th succeeds
      ([k <= N]; in particular [k = N]), [_persist_signals_with_retry]
      returns [True], exactly [k] calls have been made (none after the
      success), and every row of the batch is visible;
    - if all [N] attempts fail, it returns [False] after exactly [N] calls
      and the visible rows are those from before the call: nothing of the
      batch has been written;
    - each attempt is all or nothing: a call of [save_signals] returns with
      every row of the batch written, or raises with the visible rows
      unchanged. *)
Theorem persist_signals_with_retry_spec :
  forall faults self now run (signals : list (gmap string PyVal)) w,
    let N := Z.to_nat (max_retries self) in
    let out := _persist_signals_with_retry rt faults self now run signals w in
    let succeeds (k : nat) :=
      attempt_succeeds rt (faults (save_calls w + k - 1)%nat) now run signals in
    (forall k : nat,
       (1 <= k <= N)%nat ->
       (forall j : nat, (1 <= j < k)%nat -> succeeds j = false) ->
       succeeds k = true ->
       out.1 = true
       /\ save_calls out.2 = (save_calls w + k)%nat
       /\ exists entities,
            mapM (make_entity rt now run) signals = Ok entities
            /\ rows out.2 = upsert_all entities (rows w)
            /\ forall row, row ∈ entities -> is_Some (rows out.2 !! id row))
    /\
    ((forall j : nat, (1 <= j <= N)%nat -> succeeds j = false) ->
     out.1 = false
     /\ save_calls out.2 = (save_calls w + N)%nat
     /\ rows out.2 = rows w)
    /\
    (forall fault stored,
       match save_signals rt fault now stored run signals with
       | (Ok n, stored') =>
           exists entities,
             mapM (make_entity rt now run) signals = Ok entities
             /\ n = length entities
             /\ stored' = upsert_all entities stored
       | (Raise _, stored') => stored' = stored
       end).
Proof.
  intros faults self now run signals w N out succeeds.
  split; [|split; [|intros fault stored; apply save_signals_atomic]].
  - intros k Hk Hbefore Hsucc.
    destruct (retry_loop_first_success faults self now run signals
                (range 1 (max_retries self + 1)) w (k - 1))
      as (H1 & H2 & entities & Hmap & Hrows).
    + rewrite length_attempts. fold N. lia.
    + intros i Hi. specialize (Hbefore (S i)). unfold succeeds in Hbefore.
      replace (save_calls w + S i - 1)%nat with (save_calls w + i)%nat in Hbefore
        by lia.
      apply Hbefore. lia.
    + unfold succeeds in Hsucc.
      replace (save_calls w + (k - 1))%nat with (save_calls w + k - 1)%nat by lia.
      exact Hsucc.
    + split; [exact H1|]. split; [unfold out, _persist_signals_with_retry; lia|].
      exists entities. split; [exact Hmap|]. split; [exact Hrows|].
      intros row Hrow. unfold out, _persist_signals_with_retry.
      rewrite Hrows. by apply upsert_all_visible.
  - intros Hall.
    destruct (retry_loop_all_fail faults self now run signals
                (range 1 (max_retries self + 1)) w)
      as (H1 & H2 & H3).
    + rewrite length_attempts. fold N. intros i Hi.
      specialize (Hall (S i)). unfold succeeds in Hall.
      replace (save_calls w + S i - 1)%nat with (save_calls w + i)%nat in Hall
        by lia.
      apply Hall. lia.
    + rewrite length_attempts in H2. repeat split; assumption.
Qed.

End persistence_facts.

Lemma persist_signals_with_retry_spec_witness :
  (let out :=
     scoring_pipeline._persist_signals_with_retry sample.runtime sample.two_timeouts
       scoring_pipeline.init sample.noon "run_005" [sample.signal_005]
       sample.empty_world in
   out.1 = true /\ scoring_pipeline.save_calls out.2 = 3%nat)
  /\
  (let out :=
     scoring_pipeline._persist_signals_with_retry sample.runtime sample.always_down
       scoring_pipeline.init sample.noon "run_005" [sample.signal_005]
       sample.empty_world in
   out.1 = false
   /\ scoring_pipeline.save_calls out.2 = 3%nat
   /\ scoring_pipeline.rows out.2 = ∅).
Proof.
  split.
  - destruct (persist_signals_with_retry_spec sample.runtime sample.two_timeouts
                scoring_pipeline.init sample.noon "run_005" [sample.signal_005]
                sample.empty_world) as (Hfirst & _ & _).
    destruct (Hfirst 3%nat) as (Hok & Hcalls & _).
    + cbn. lia.
    + intros j Hj.
      destruct j as [|[|[|j]]]; [lia | reflexivity | reflexivity | lia].
    + reflexivity.
    + split; [exact Hok | exact Hcalls].
  - destruct (persist_signals_with_retry_spec sample.runtime sample.always_down
                scoring_pipeline.init sample.noon "run_005" [sample.signal_005]
                sample.empty_world) as (_ & Hall & _).
    apply Hall. intros j Hj. reflexivity.
Defined.

(** ** Worked examples, from the scenarios of the repository's tests *)

Section examples.
Import Py.

(** A record scheduled in the future passes every rule. *)
Example valid_record_passes :
  quality_checks.status
    (quality_checks.validate_match sample.runtime sample.checker sample.noon
       (sample.lakers_warriors "2024-01-15T20:00:00Z"))
  = quality_checks.PASS.
Proof. reflexivity. Qed.

(** A record more than 24 hours old is only a warning. *)
Example stale_record_is_warning :
  map quality_checks.status
    (quality_checks.validate_batch sample.runtime sample.checker sample.noon
       [sample.lakers_warriors "2023-01-01T20:00:00Z"])
  = [quality_checks.WARNING].
Proof. reflexivity. Qed.

(** A date that does not parse is a warning as well, through the
    timeliness rule; the validity rule does not see it. *)
Example unparseable_date_is_warning :
  let r := quality_checks.validate_match sample.runtime sample.checker sample.noon
             (sample.lakers_warriors "not-a-date") in
  quality_checks.status r = quality_checks.WARNING
  /\ quality_checks.errors r = []
  /\ length (quality_checks.warnings r) = 1%nat.
Proof. repeat split. Qed.

(** A negative score fails the validity rule. *)
Example negative_score_fails :
  let r := quality_checks._check_validity
             (<[ "home_score" := PyInt (-10) ]>
                (<[ "away_score" := PyInt 95 ]>
                   (sample.lakers_warriors "2024-01-15T20:00:00Z"))) in
  quality_checks.passed r = false
  /\ quality_checks.severity r = "error"
  /\ quality_checks.details r
     = {[ "invalid_fields" := PyList [PyStr "home_score: negative or invalid value"] ]}.
Proof. repeat split. Qed.

(** Home and away team with the same id *)
Example same_team_fails :
  exists r,
    quality_checks._check_consistency
      {[ "external_id" := PyStr "nba-2024-001";
         "home_team" := sample.team "lal" "Lakers" "Los Angeles";
         "away_team" := sample.team "LAL" "Lakers" "Los Angeles" ]} = Ok r
    /\ quality_checks.passed r = false
    /\ quality_checks.details r
       = {[ "errors" := PyList [PyStr "same_team: home and away teams are identical"] ]}.
Proof. eexists. repeat split. Qed.

(** Five records, two of them incomplete: pass rate 0.6, critical. *)
Example two_of_five_is_critical :
  exists summary,
    quality_checks.get_quality_summary sample.runtime sample.checker
      (quality_checks.validate_batch sample.runtime sample.checker sample.noon sample.five_records)
    = Ok summary
    /\ summary !! "passed" = Some (PyInt 3)
    /\ summary !! "failed" = Some (PyInt 2)
    /\ summary !! "pass_rate" = Some (PyFloat (60 # 100))
    /\ summary !! "critical_failure" = Some (PyBool true).
Proof. eexists. split; [reflexivity|]. repeat split. Qed.

(** Two evaluations in a row leave two audit entries, in order. *)
Example two_runs_two_entries :
  exists d1 g1 d2 g2,
    no_bet_guard.evaluate_run_status sample.runtime sample.noon
      (no_bet_guard.init "uuid" (Some "test-trace-123"))
      {[ "critical_failure" := PyBool true; "pass_rate" := PyFloat (3 # 10) ]} None
    = Ok (d1, g1)
    /\ no_bet_guard.evaluate_run_status sample.runtime sample.noon g1
         {[ "critical_failure" := PyBool false; "pass_rate" := PyFloat (95 # 100) ]} None
       = Ok (d2, g2)
    /\ no_bet_guard.is_degraded g1 = true
    /\ no_bet_guard.is_degraded g2 = false
    /\ (fun entry => entry !! "mode") <$> no_bet_guard.audit_trail g2
       = [Some (PyStr "degraded-no-bet"); Some (PyStr "normal")].
Proof. do 4 eexists. split; [reflexivity|]. split; [reflexivity|]. repeat split. Qed.

(** A pass rate that is not a number makes the evaluation raise before any
    entry is written. *)
Example evaluation_raises_on_text :
  exists e,
    no_bet_guard.evaluate_run_status sample.runtime sample.noon
      (no_bet_guard.init "uuid" None) {[ "pass_rate" := PyStr "high" ]} None
    = Raise e.
Proof. eexists. reflexivity. Qed.

(** A timeout of the secondary source after five failed records *)
Example cascading_failure_on_timeout :
  let net := {| fallback_pipeline.answers :=
                  fun _ => fallback_pipeline.RaisesTimeout "Fallback API timeout";
                fallback_pipeline.requested := [] |} in
  exists p' net',
    fallback_pipeline.trigger_fallback_if_needed sample.runtime sample.noon
      (fallback_pipeline.init "uuid" (Some "test-trace-123") None) net
      (repeat (sample.result_with quality_checks.FAIL) 5)
    = Ok (None, p', net')
    /\ fallback_pipeline.cascading_failure p' = true
    /\ fallback_pipeline.error_cause p' = Some "FALLBACK_TIMEOUT"
    /\ length (fallback_pipeline.fallback_events p') = 2%nat
    /\ length (fallback_pipeline.requested net') = 1%nat.
Proof. do 2 eexists. split; [reflexivity|]. repeat split. Qed.

End examples.

(** * Further properties of the code *)

(** ** Storage: what a committed batch leaves in the table *)

Section upsert_facts.
Import Py postgres_writer notions.
Context (rt : Runtime).

Lemma upsert_all_lookup entities (stored : gmap string SignalEntity) key :
  upsert_all entities stored !! key
  = match latest key entities with
    | Some row => Some row
    | None => stored !! key
    end.
Proof.
  unfold upsert_all. revert stored.
  induction entities as [|row rest IH]; intros stored; [reflexivity|].
  cbn. rewrite IH. destruct (latest key rest) as [later|]; [reflexivity|].
  destruct (String.eqb_spec (id row) key) as [<-|Hne].
  - by rewrite lookup_insert_eq.
  - by rewrite lookup_insert_ne.
Qed.

Lemma latest_key entities key row :
  latest key entities = Some row -> id row = key /\ row ∈ entities.
Proof.
  induction entities as [|first rest IH]; [discriminate|]. cbn.
  destruct (latest key rest) as [later|].
  - intros [= ->]. destruct (IH eq_refl). split; [done | by right].
  - destruct (String.eqb_spec (id first) key); [|discriminate].
    intros [= ->]. split; [done | by left].
Qed.

(** The scheduled time is read from the signal when it has one, so the
    clock plays no part in the row that is built. *)
Lemma make_entity_clock now1 now2 run (signal : gmap string PyVal) :
  is_Some (signal !! "scheduled_at") ->
  make_entity rt now1 run signal = make_entity rt now2 run signal.
Proof.
  intros [v Hv]. unfold make_entity, dict_get. by rewrite Hv.
Qed.

Lemma mapM_make_entity_clock now1 now2 run (signals : list (gmap string PyVal)) :
  Forall (fun signal => is_Some (signal !! "scheduled_at")) signals ->
  mapM (make_entity rt now1 run) signals = mapM (make_entity rt now2 run) signals.
Proof.
  induction 1 as [|signal rest Hs _ IH]; [reflexivity|].
  cbn. by rewrite (make_entity_clock now1 now2 run signal Hs), IH.
Qed.

(** X1.  After [save_signals] has returned, every key of the table holds
    the last row of the batch with that key if there is one, and the row
    it held before otherwise: within a batch the last writer wins, and no
    row outside the batch is touched. *)
Theorem save_signals_last_writer_wins :
  forall fault now stored run (signals : list (gmap string PyVal)) n stored',
    save_signals rt fault now stored run signals = (Ok n, stored') ->
    exists entities,
      mapM (make_entity rt now run) signals = Ok entities
      /\ n = length signals
      /\ forall key,
           stored' !! key
           = match latest key entities with
             | Some row => Some row
             | None => stored !! key
             end.
Proof.
  intros fault now stored run signals n stored' Hsave.
  pose proof (save_signals_atomic rt fault now stored run signals) as Hat.
  rewrite Hsave in Hat. destruct Hat as (entities & Hmap & -> & ->).
  exists entities. split; [exact Hmap|]. split.
  - clear Hsave. revert entities Hmap.
    induction signals as [|s rest IH]; intros entities.
    + by intros [= <-].
    + cbn. destruct (make_entity rt now run s) as [e|]; cbn; [|discriminate].
      destruct (mapM _ rest) as [es|] eqn:E; cbn; [|discriminate].
      intros [= <-]. cbn. f_equal. by apply IH.
  - intros key. apply upsert_all_lookup.
Qed.

(** X2.  Saving is idempotent: when a batch whose signals all carry a
    [scheduled_at] has been saved, saving it again under the same run id,
    at any later time, succeeds with the same count and leaves the table
    exactly as it was. *)
Theorem save_signals_idempotent :
  forall now1 now2 stored run (signals : list (gmap string PyVal)) n stored',
    Forall (fun signal => is_Some (signal !! "scheduled_at")) signals ->
    save_signals rt NoFault now1 stored run signals = (Ok n, stored') ->
    save_signals rt NoFault now2 stored' run signals = (Ok n, stored').
Proof.
  intros now1 now2 stored run signals n stored' Hsched Hsave.
  pose proof (save_signals_atomic rt NoFault now1 stored run signals) as Hat.
  rewrite Hsave in Hat. destruct Hat as (entities & Hmap & -> & ->).
  assert (Hok : attempt_succeeds rt NoFault now2 run signals = true).
  { unfold attempt_succeeds, save_signals.
    rewrite <- (mapM_make_entity_clock now1 now2 run signals Hsched), Hmap. cbn.
    by rewrite merge_all_spec. }
  destruct (save_signals_succeeds rt NoFault now2 (upsert_all entities stored)
              run signals Hok) as (entities2 & Hmap2 & ->).
  rewrite <- (mapM_make_entity_clock now1 now2 run signals Hsched), Hmap in Hmap2.
  injection Hmap2 as <-. f_equal.
  apply map_eq. intros key. rewrite !upsert_all_lookup.
  by destruct (latest key entities).
Qed.

End upsert_facts.

Lemma save_signals_last_writer_wins_witness :
  let twice := [sample.signal_005; sample.signal_005] in
  let after :=
    (postgres_writer.save_signals sample.runtime postgres_writer.NoFault
       sample.noon ∅ "run_005" twice).2 in
  exists entities,
    mapM (postgres_writer.make_entity sample.runtime sample.noon "run_005") twice
      = Py.Ok entities
    /\ 2%nat = length twice
    /\ forall key,
         after !! key
         = match notions.latest key entities with
           | Some row => Some row
           | None => (∅ : gmap string postgres_writer.SignalEntity) !! key
           end.
Proof.
  intros twice after.
  apply (save_signals_last_writer_wins sample.runtime postgres_writer.NoFault
           sample.noon ∅ "run_005" twice 2%nat after).
  reflexivity.
Defined.

Lemma save_signals_idempotent_witness :
  exists stored',
    postgres_writer.save_signals sample.runtime postgres_writer.NoFault sample.noon ∅ "run_005" [sample.signal_005]
      = (Py.Ok 1%nat, stored')
    /\ postgres_writer.save_signals sample.runtime postgres_writer.NoFault (sample.noon + 1) stored' "run_005"
         [sample.signal_005] = (Py.Ok 1%nat, stored').
Proof.
  eexists. split; [reflexivity|].
  apply (save_signals_idempotent sample.runtime sample.noon (sample.noon + 1) ∅
           "run_005" [sample.signal_005]).
  - repeat constructor. vm_compute. eauto.
  - reflexivity.
Defined.

(** ** Retries: the delays between attempts *)

Section backoff_facts.
Import Py postgres_writer scoring_pipeline notions.
Context (rt : Runtime) (faults : nat -> Fault) (self : ScoringPipeline)
        (now : Z) (run : string) (signals : list (gmap string PyVal)).

(** Along failed attempts the loop sleeps [0.5 * attempt] after each
    attempt whose number is below [max_retries]. *)
Lemma retry_loop_sleeps_all_fail remaining w :
  (forall i, (i < length remaining)%nat ->
     attempt_succeeds rt (faults (save_calls w + i)) now run signals = false) ->
  slept (retry_loop rt faults self now run signals remaining w).2
  = slept w ++ map backoff (List.filter (fun a => a <? max_retries self) remaining).
Proof.
  revert w. induction remaining as [|attempt rest IH]; intros w Hfail; cbn.
  - by rewrite app_nil_r.
  - destruct (attempt_save_fails rt faults now run signals w) as [e ->].
    { rewrite <- (Nat.add_0_r (save_calls w)). apply Hfail. cbn. lia. }
    rewrite IH.
    + destruct (attempt <? max_retries self); cbn; [|reflexivity].
      by rewrite <- app_assoc.
    + intros i Hi.
      replace (save_calls (if (attempt <? max_retries self)%Z then _ else _) + i)%nat
        with (save_calls w + S i)%nat by (destruct (_ <? _)%Z; cbn; lia).
      apply Hfail. cbn. lia.
Qed.

Lemma retry_loop_sleeps_success remaining w k :
  (k < length remaining)%nat ->
  (forall i, (i < k)%nat ->
     attempt_succeeds rt (faults (save_calls w + i)) now run signals = false) ->
  attempt_succeeds rt (faults (save_calls w + k)) now run signals = true ->
  slept (retry_loop rt faults self now run signals remaining w).2
  = slept w ++ map backoff (List.filter (fun a => a <? max_retries self)
                              (take k remaining)).
Proof.
  revert w k. induction remaining as [|attempt rest IH]; intros w k Hk Hfail Hok;
    cbn in Hk; [lia|]. cbn [retry_loop].
  destruct k as [|k].
  - rewrite Nat.add_0_r in Hok.
    destruct (attempt_save_succeeds rt faults now run signals w Hok)
      as (entities & _ & ->). cbn. by rewrite app_nil_r.
  - destruct (attempt_save_fails rt faults now run signals w) as [e ->].
    { rewrite <- (Nat.add_0_r (save_calls w)). apply Hfail. lia. }
    rewrite (IH _ k).
    + cbn. destruct (attempt <? max_retries self); cbn; [|reflexivity].
      by rewrite <- app_assoc.
    + lia.
    + intros i Hi.
      replace (save_calls (if (attempt <? max_retries self)%Z then _ else _) + i)%nat
        with (save_calls w + S i)%nat by (destruct (_ <? _)%Z; cbn; lia).
      apply Hfail. lia.
    + replace (save_calls (if (attempt <? max_retries self)%Z then _ else _) + k)%nat
        with (save_calls w + S k)%nat by (destruct (_ <? _)%Z; cbn; lia).
      exact Hok.
Qed.

Lemma filter_below_range (n : nat) (bound : Z) :
  Z.of_nat n < bound ->
  List.filter (fun a => a <? bound) (range 1 (Z.of_nat n + 1)) = range 1 (Z.of_nat n + 1).
Proof.
  intros Hb. apply forallb_filter_id. apply forallb_forall.
  intros a Ha. unfold range in Ha. apply in_map_iff in Ha as (i & <- & Hi).
  apply in_seq in Hi. apply Z.ltb_lt. lia.
Qed.

Lemma range_snoc (n : nat) :
  range 1 (Z.of_nat (S n) + 1) = range 1 (Z.of_nat n + 1) ++ [Z.of_nat (S n)].
Proof.
  unfold range.
  replace (Z.to_nat (Z.of_nat (S n) + 1 - 1)) with (S n) by lia.
  replace (Z.to_nat (Z.of_nat n + 1 - 1)) with n by lia.
  rewrite seq_S, map_app. cbn. do 2 f_equal. lia.
Qed.

Lemma take_range (k n : nat) :
  (k <= n)%nat ->
  take k (range 1 (Z.of_nat n + 1)) = range 1 (Z.of_nat k + 1).
Proof.
  intros Hk. unfold range.
  replace (Z.to_nat (Z.of_nat n + 1 - 1)) with n by lia.
  replace (Z.to_nat (Z.of_nat k + 1 - 1)) with k by lia.
  rewrite List.firstn_map. f_equal.
  rewrite take_seq. f_equal. lia.
Qed.

(** X3.  The backoff of [_persist_signals_with_retry].  When every one of
    the [N = max_retries] attempts fails, the delays slept are
    [0.5 * 1, ..., 0.5 * (N - 1)]: one after each failure except the last.
    When the [k]-th attempt is the first to succeed, they are
    [0.5 * 1, ..., 0.5 * (k - 1)], and nothing is slept after the success. *)
Theorem persist_backoff_schedule :
  forall w,
    let N := Z.to_nat (max_retries self) in
    let out := _persist_signals_with_retry rt faults self now run signals w in
    let succeeds (k : nat) :=
      attempt_succeeds rt (faults (save_calls w + k - 1)%nat) now run signals in
    ((forall j : nat, (1 <= j <= N)%nat -> succeeds j = false) ->
     slept out.2 = slept w ++ map backoff (range 1 (Z.of_nat N)))
    /\
    (forall k : nat,
       (1 <= k <= N)%nat ->
       (forall j : nat, (1 <= j < k)%nat -> succeeds j = false) ->
       succeeds k = true ->
       slept out.2 = slept w ++ map backoff (range 1 (Z.of_nat k))).
Proof.
  intros w N out succeeds. split.
  - intros Hall. unfold out, _persist_signals_with_retry.
    rewrite retry_loop_sleeps_all_fail.
    + f_equal. f_equal.
      destruct N as [|m] eqn:EN.
      * rewrite !range_empty by lia. reflexivity.
      * replace (max_retries self) with (Z.of_nat (S m)) by lia.
        rewrite range_snoc, List.filter_app, filter_below_range by lia.
        cbn. rewrite Z.ltb_irrefl, app_nil_r.
        f_equal. lia.
    + rewrite length_attempts. fold N. intros i Hi.
      specialize (Hall (S i)). unfold succeeds in Hall.
      replace (save_calls w + S i - 1)%nat with (save_calls w + i)%nat in Hall by lia.
      apply Hall. lia.
  - intros k Hk Hbefore Hsucc. unfold out, _persist_signals_with_retry.
    rewrite (retry_loop_sleeps_success _ w (k - 1)).
    + f_equal. f_equal.
      replace (max_retries self + 1) with (Z.of_nat N + 1) by lia.
      rewrite take_range by lia.
      replace (Z.of_nat (k - 1) + 1) with (Z.of_nat k) by lia.
      destruct k as [|m]; [lia|].
      replace (Z.of_nat (S m)) with (Z.of_nat m + 1) by lia.
      apply filter_below_range. lia.
    + rewrite length_attempts. fold N. lia.
    + intros i Hi. specialize (Hbefore (S i)). unfold succeeds in Hbefore.
      replace (save_calls w + S i - 1)%nat with (save_calls w + i)%nat in Hbefore
        by lia.
      apply Hbefore. lia.
    + unfold succeeds in Hsucc.
      replace (save_calls w + (k - 1))%nat with (save_calls w + k - 1)%nat by lia.
      exact Hsucc.
Qed.

End backoff_facts.

Lemma persist_backoff_schedule_witness :
  scoring_pipeline.slept
    (scoring_pipeline._persist_signals_with_retry sample.runtime sample.always_down
       scoring_pipeline.init sample.noon "run_005" [sample.signal_005]
       sample.empty_world).2
  = [] ++ map notions.backoff (Py.range 1 (Z.of_nat 3)).
Proof.
  apply (proj1 (persist_backoff_schedule sample.runtime sample.always_down
                  scoring_pipeline.init sample.noon "run_005" [sample.signal_005]
                  sample.empty_world)).
  intros j Hj. reflexivity.
Defined.

(** ** The guard over a sequence of operations *)

Section guard_history_facts.
Import Py no_bet_guard notions.
Context (rt : Runtime).

Lemma guard_step_state self self' :
  guard_step rt self self' ->
  guard_consistent self'
  /\ trace_id self' = trace_id self
  /\ exists entry,
       audit_trail self' = audit_trail self ++ [entry]
       /\ entry !! "mode" = Some (PyStr (value (current_mode self')))
       /\ entry !! "trace_id" = Some (PyStr (trace_id self)).
Proof.
  intros [now g qs fb decision g' Heval | now g why | now g why].
  - revert Heval. unfold evaluate_run_status.
    destruct (format_spec_percent rt 1 _); cbn; [|discriminate].
    destruct (negb _); [|destruct fb; destruct (format_spec_percent rt 0 _)];
      cbn; try discriminate; intros [= <- <-];
      (split; [reflexivity|]; split; [reflexivity|];
       eexists; split; [reflexivity|]; split; by simplify_map_eq).
  - split; [reflexivity|]. split; [reflexivity|].
    eexists. split; [reflexivity|]. split; by simplify_map_eq.
  - split; [reflexivity|]. split; [reflexivity|].
    eexists. split; [reflexivity|]. split; by simplify_map_eq.
Qed.

(** X4.  Whatever sequence of [n] operations ([evaluate_run_status],
    [force_degraded_mode], [reset_to_normal]) is applied to a new guard:
    [is_degraded] is true exactly when [current_mode] is not [normal], the
    trace id is the one given at construction, the audit trail has exactly
    [n] entries, and the last entry, if any, has the current mode. *)
Theorem guard_history_invariant :
  forall uuid trace n self,
    nsteps (guard_step rt) n (init uuid trace) self ->
    guard_consistent self
    /\ trace_id self = trace_id (init uuid trace)
    /\ length (audit_trail self) = n
    /\ (forall entry, last (audit_trail self) = Some entry ->
          entry !! "mode" = Some (PyStr (value (current_mode self)))).
Proof.
  intros uuid trace n self Hsteps.
  remember (init uuid trace) as start eqn:Hstart.
  assert (Hgen : forall g g' k,
             nsteps (guard_step rt) k g g' ->
             (k = 0%nat /\ g' = g)
             \/ (guard_consistent g'
                 /\ trace_id g' = trace_id g
                 /\ length (audit_trail g') = (length (audit_trail g) + k)%nat
                 /\ exists entry, last (audit_trail g') = Some entry
                      /\ entry !! "mode" = Some (PyStr (value (current_mode g'))))).
  { intros g1 g3 k. revert g3.
    induction k as [|k IH]; intros g3 Hk; [inversion Hk; by left|]. right.
    apply nsteps_inv_r in Hk as (g2 & Hbefore & Hstep).
    specialize (IH g2 Hbefore).
    destruct (guard_step_state _ _ Hstep)
      as (Hcons & Htrace & entry & Htrail & Hmode & _).
    assert (Hprev : trace_id g2 = trace_id g1
                    /\ length (audit_trail g2) = (length (audit_trail g1) + k)%nat).
    { destruct IH as [[-> ->] | (_ & ? & ? & _)]; [split; [done | lia] | done]. }
    destruct Hprev as [Ht Hl].
    split; [exact Hcons|]. split; [congruence|]. split.
    - rewrite Htrail, length_app. cbn. lia.
    - exists entry. split; [|exact Hmode]. rewrite Htrail. apply last_snoc. }
  destruct (Hgen _ _ _ Hsteps) as [[-> ->] | (Hc & Ht & Hl & entry & Hlast & Hm)].
  - subst start. repeat split. intros entry. discriminate.
  - subst start. repeat split; try done.
    intros entry' He. rewrite Hlast in He. by injection He as <-.
Qed.

(** X5.  The guard has no memory of its mode: the decision of
    [evaluate_run_status], and the mode and the flag it leaves, depend only
    on the summary and the fallback outcome, not on the guard it is called
    on. *)
Theorem evaluation_ignores_previous_mode :
  forall now self1 self2 (quality_summary : gmap string PyVal) fallback_result,
    match evaluate_run_status rt now self1 quality_summary fallback_result,
          evaluate_run_status rt now self2 quality_summary fallback_result with
    | Ok (d1, after1), Ok (d2, after2) =>
        d1 = d2
        /\ current_mode after1 = current_mode after2
        /\ is_degraded after1 = is_degraded after2
        /\ current_mode after1 = mode d1
    | Raise e1, Raise e2 => e1 = e2
    | _, _ => False
    end.
Proof.
  intros now self1 self2 qs fb. unfold evaluate_run_status.
  destruct (format_spec_percent rt 1 _); cbn; [|reflexivity].
  destruct (negb _); [|destruct fb; destruct (format_spec_percent rt 0 _)];
    cbn; repeat split.
Qed.

(** X24.  A forced no-bet lasts until the next evaluation only:
    [force_degraded_mode] puts the guard in [degraded-no-bet], and the next
    [evaluate_run_status] on a summary whose [critical_failure] is [False]
    allows betting again and puts the guard back to [normal], without any
    call of [reset_to_normal]. *)
Theorem forced_mode_lifted_by_evaluation :
  forall now1 now2 self why (quality_summary : gmap string PyVal) fallback_result,
    quality_summary !! "critical_failure" = Some (PyBool false) ->
    is_number (dict_get quality_summary "pass_rate" (PyFloat 1)) = true ->
    let forced := (force_degraded_mode rt now1 self why).2 in
    is_degraded forced = true
    /\ current_mode forced = DEGRADED_NO_BET
    /\ exists decision after,
         evaluate_run_status rt now2 forced quality_summary fallback_result
           = Ok (decision, after)
         /\ allow_betting decision = true
         /\ is_degraded after = false
         /\ current_mode after = NORMAL.
Proof.
  intros now1 now2 self why qs fb Hcf Hnum forced.
  split; [reflexivity|]. split; [reflexivity|].
  unfold evaluate_run_status.
  destruct (format_spec_percent_number rt 1 _ Hnum) as [t1 ->].
  unfold dict_get at 1. rewrite Hcf. cbn.
  do 2 eexists. repeat split.
Qed.

End guard_history_facts.

Lemma guard_history_invariant_witness :
  let start := no_bet_guard.init "uuid" (Some "test-trace-123") in
  let forced := (no_bet_guard.force_degraded_mode sample.runtime sample.noon start
                   "maintenance").2 in
  let back := (no_bet_guard.reset_to_normal sample.runtime sample.noon forced
                 "resolved").2 in
  notions.guard_consistent back
  /\ no_bet_guard.trace_id back = no_bet_guard.trace_id start
  /\ length (no_bet_guard.audit_trail back) = 2%nat
  /\ (forall entry, last (no_bet_guard.audit_trail back) = Some entry ->
        entry !! "mode"
        = Some (Py.PyStr (no_bet_guard.value (no_bet_guard.current_mode back)))).
Proof.
  intros start forced back.
  apply (guard_history_invariant sample.runtime "uuid" (Some "test-trace-123") 2 back).
  apply (nsteps_l _ _ _ forced).
  - apply no_bet_guard.step_force.
  - apply (nsteps_l _ _ _ back).
    + apply no_bet_guard.step_reset.
    + apply nsteps_O.
Defined.

Lemma forced_mode_lifted_by_evaluation_witness :
  exists decision after,
    no_bet_guard.evaluate_run_status sample.runtime sample.noon
      (no_bet_guard.force_degraded_mode sample.runtime sample.noon
         (no_bet_guard.init "uuid" None) "maintenance").2
      {[ "critical_failure" := Py.PyBool false; "pass_rate" := Py.PyFloat (95 # 100) ]}
      None = Py.Ok (decision, after)
    /\ no_bet_guard.allow_betting decision = true
    /\ no_bet_guard.is_degraded after = false
    /\ no_bet_guard.current_mode after = no_bet_guard.NORMAL.
Proof.
  apply (forced_mode_lifted_by_evaluation sample.runtime sample.noon sample.noon
           (no_bet_guard.init "uuid" None) "maintenance"
           {[ "critical_failure" := Py.PyBool false;
              "pass_rate" := Py.PyFloat (95 # 100) ]} None);
    reflexivity.
Defined.

(** ** Validation: accounting of the rules, required fields, summary *)

Section validation_facts.
Import Py quality_checks notions_quality.
Context (rt : Runtime).

Lemma run_rules_accounting now m rs acc :
  let out := run_rules rt now m rs acc in
  let outcomes := map (fun rule => check rule now m) rs in
  length (acc_rule_results out)
  = (length (acc_rule_results acc) + length (List.filter returned outcomes))%nat
  /\ (length (acc_errors out) + length (acc_warnings out)
      = length (acc_errors acc) + length (acc_warnings acc)
        + length (List.filter failing outcomes))%nat.
Proof.
  revert acc. induction rs as [|rule rs IH]; intros acc; [cbn; lia|].
  cbn zeta in *. rewrite run_rules_cons.
  destruct (IH (validate_rule rt now m acc rule)) as [-> ->].
  cbn [map List.filter]. unfold validate_rule.
  destruct (check rule now m) as [r|e]; cbn [returned failing].
  - destruct (passed r); cbn; [rewrite length_app; cbn; lia|].
    destruct (String.eqb (severity r) "error"); cbn;
      rewrite !length_app; cbn; lia.
  - cbn. rewrite length_app. cbn. lia.
Qed.

(** X6.  [validate_match] accounts for every rule exactly once, whatever
    the rule list: the number of results kept is the number of rules that
    returned, and the number of error and warning lines together is the
    number of rules that failed or raised; in particular a record has no
    line at all exactly when every rule returned a passed result. *)
Theorem validate_match_accounts_for_every_rule :
  forall self now (match_data : gmap string PyVal),
    let result := validate_match rt self now match_data in
    let outcomes := map (fun rule => check rule now match_data) (rules self) in
    length (rule_results result) = length (List.filter returned outcomes)
    /\ (length (errors result) + length (warnings result)
        = length (List.filter failing outcomes))%nat
    /\ (length (rule_results result) + length (List.filter (fun o => negb (returned o)) outcomes)
        = length (rules self))%nat
    /\ (status result = PASS <-> forallb (fun o => negb (failing o)) outcomes = true).
Proof.
  intros self now m result outcomes.
  destruct (run_rules_accounting now m (rules self) no_findings) as [Hres Hlines].
  cbn in Hres, Hlines. fold outcomes in Hres, Hlines.
  split; [exact Hres|]. split; [exact Hlines|]. split.
  - subst result. unfold validate_match. cbn [rule_results]. rewrite Hres.
    rewrite <- (length_map (fun rule => check rule now m) (rules self)).
    fold outcomes. clear. induction outcomes as [|o os IH]; [reflexivity|].
    cbn. destruct (returned o); cbn; lia.
  - assert (Hnone : length (List.filter failing outcomes) = 0%nat
                    <-> forallb (fun o => negb (failing o)) outcomes = true).
    { clear. induction outcomes as [|o os IH]; [done|].
      cbn. destruct (failing o); cbn; [split; [lia | discriminate] | exact IH]. }
    rewrite <- Hnone, <- Hlines. subst result. unfold validate_match.
    cbn [status errors warnings].
    destruct (acc_errors _), (acc_warnings _); cbn; split; (done || lia).
Qed.

Lemma completeness_missing_field (m : gmap string PyVal) fields field :
  field ∈ fields -> missing m field = true ->
  passed (_check_completeness fields m) = false
  /\ severity (_check_completeness fields m) = "error".
Proof.
  intros Hin Hmiss. unfold _check_completeness.
  match goal with |- context [List.filter ?f fields] =>
    assert (Hf : field ∈ List.filter f fields) end.
  { apply list_elem_of_In, filter_In. split; [by apply list_elem_of_In|].
    exact Hmiss. }
  cbn. destruct (List.filter _ fields); [by apply elem_of_nil in Hf | done].
Qed.

Lemma completeness_all_present (m : gmap string PyVal) fields :
  Forall (fun field => missing m field = false) fields ->
  passed (_check_completeness fields m) = true.
Proof.
  intros Hall. unfold _check_completeness.
  match goal with |- context [List.filter ?f fields] =>
    replace (List.filter f fields) with (@nil string) end; [reflexivity|].
  symmetry. induction Hall as [|field rest Hf _ IH]; [reflexivity|].
  cbn. unfold missing in Hf. rewrite Hf. exact IH.
Qed.

Lemma run_rules_head now m rs acc first :
  head (acc_rule_results acc) = Some first ->
  head (acc_rule_results (run_rules rt now m rs acc)) = Some first.
Proof.
  revert acc. induction rs as [|rule rs IH]; intros acc Hacc; [exact Hacc|].
  rewrite run_rules_cons. apply IH. unfold validate_rule.
  destruct (check rule now m); cbn; [|exact Hacc].
  destruct (acc_rule_results acc); [discriminate | exact Hacc].
Qed.

(** X7.  A record in which one of the five required fields is absent or
    [None] is given the status [fail] by the checker, whatever the other
    fields and the clock, and the failed completeness result is the first
    of its rule results. *)
Theorem missing_required_field_fails :
  forall trace now (match_data : gmap string PyVal) field,
    field ∈ required_fields ->
    missing match_data field = true ->
    let result := validate_match rt (init rt trace) now match_data in
    status result = FAIL
    /\ head (rule_results result) = Some (_check_completeness required_fields match_data)
    /\ passed (_check_completeness required_fields match_data) = false.
Proof.
  intros trace now m field Hin Hmiss result.
  destruct (completeness_missing_field m required_fields field Hin Hmiss)
    as [Hp Hs].
  assert (Hhead : head (rule_results result)
                  = Some (_check_completeness required_fields m)).
  { subst result. unfold validate_match, init, _setup_default_rules.
    cbn [rules rule_results]. rewrite run_rules_cons.
    apply run_rules_head. reflexivity. }
  split; [|split; [exact Hhead | exact Hp]].
  subst result. rewrite (validate_match_status rt)
    by apply default_rules_in_range.
  unfold status_by_spec, init, _setup_default_rules.
  cbn [rules map existsb check completeness_check error_failure].
  fold required_fields. rewrite Hp, Hs. reflexivity.
Qed.

End validation_facts.

Lemma missing_required_field_fails_witness :
  quality_checks.status
    (quality_checks.validate_match sample.runtime
       (quality_checks.init sample.runtime None) sample.noon
       (sample.incomplete "nba-002"))
  = quality_checks.FAIL.
Proof.
  apply (missing_required_field_fails sample.runtime None sample.noon
           (sample.incomplete "nba-002") "season").
  - unfold notions_quality.required_fields. set_solver.
  - reflexivity.
Defined.

Section summary_facts.
Import Py quality_checks.
Context (rt : Runtime).

Lemma count_status_split results :
  count_status PASS results + count_status FAIL results
  + count_status WARNING results = Z.of_nat (length results).
Proof.
  unfold count_status. induction results as [|r rest IH]; [reflexivity|].
  cbn. destruct (status r); cbn; lia.
Qed.

(** X8.  The summary of any list of results: [total_matches] is its
    length, [passed] the number of results of status [pass], [failed]
    everything else, warnings included, so that [passed + failed = total];
    and [critical_failure] is true exactly when fewer than 80% of the
    results are [pass]. *)
Theorem summary_counts :
  forall self results,
    exists summary,
      get_quality_summary rt self results = Ok summary
      /\ summary !! "total_matches" = Some (PyInt (Z.of_nat (length results)))
      /\ summary !! "passed" = Some (PyInt (count_status PASS results))
      /\ summary !! "failed"
         = Some (PyInt (count_status FAIL results + count_status WARNING results))
      /\ summary !! "critical_failure"
         = Some (PyBool (count_status PASS results * 100
                         <? 80 * Z.of_nat (length results))).
Proof.
  intros self results. pose proof (count_status_split results) as Hsplit.
  unfold get_quality_summary.
  destruct (Z.eqb_spec (Z.of_nat (length results)) 0) as [Hz|Hnz].
  - destruct results; [|cbn in Hz; lia].
    eexists. split; [reflexivity|]. repeat split; by simplify_map_eq.
  - rewrite truediv_nonzero by lia. cbn -[count_status length].
    eexists. split; [reflexivity|].
    replace (count_status FAIL results + count_status WARNING results)
      with (Z.of_nat (length results) - count_status PASS results) by lia.
    repeat split; simplify_map_eq; try done.
    unfold CRITICAL_FAILURE_THRESHOLD. rewrite Qltb_div_sub by lia. done.
Qed.

End summary_facts.

(** ** The fallback: outcome of a fetch, event log, flags *)

Section fallback_log_facts.
Import Py quality_checks fallback_pipeline notions_fallback.
Context (rt : Runtime).

(** X9.  One call of [fetch_from_fallback] makes exactly one request, to
    the configured URL, and ends in one of two states: data returned, which
    is then a non-empty list, with status [success]; or [None] with status
    [failed], one of the five causes and some details recorded.  It never
    returns an empty list and never leaves the status [pending] or
    [triggered]. *)
Theorem fetch_from_fallback_outcome :
  forall self net,
    let out := fetch_from_fallback self net in
    requested out.2 = requested net ++ [fallback_url self]
    /\ match out.1.1 with
       | Some matches =>
           matches <> []
           /\ status out.1.2 = SUCCESS
           /\ answers net (length (requested net)) = Body matches
       | None =>
           status out.1.2 = FAILED
           /\ (exists cause, error_cause out.1.2 = Some cause /\ cause ∈ fallback_causes)
           /\ is_Some (error_details out.1.2)
       end.
Proof.
  intros self net out. subst out. unfold fetch_from_fallback, fallback_causes. cbn.
  destruct (answers net _) as [msg|msg code|msg|msg|[|first rest]]; cbn;
    (split; [reflexivity|]);
    first [ by repeat split
          | (split; [reflexivity|]); split; [|by eauto];
            eexists; (split; [reflexivity|]); repeat constructor ].
Qed.

(** X10.  The event log of the pipeline only grows, and one call of
    [trigger_fallback_if_needed] adds either nothing, in which case no
    request was made and [None] is returned, or exactly two events: a
    [FALLBACK_TRIGGERED] followed by a [FALLBACK_SUCCESS] carrying the
    number of matches returned, or by a [FALLBACK_FAILED] marked as a
    cascading failure, with which [None] is returned and
    [cascading_failure] is set. *)
Theorem trigger_event_log :
  forall now self net results data self' net',
    trigger_fallback_if_needed rt now self net results = Ok (data, self', net') ->
    (fallback_events self' = fallback_events self
     /\ net' = net /\ data = None)
    \/ (exists first second,
          fallback_events self' = fallback_events self ++ [first; second]
          /\ is_triggered_event first = true
          /\ requested net' = requested net ++ [fallback_url self]
          /\ was_triggered self' = true
          /\ triggered_at self' = Some now
          /\ match data with
             | Some matches =>
                 second = FALLBACK_SUCCESS (isoformat rt now) (length matches)
                            (trace_id self)
                 /\ matches <> []
             | None =>
                 cascading_failure self' = true
                 /\ exists reason details,
                      second = FALLBACK_FAILED (isoformat rt now) reason details
                                 true (trace_id self)
             end).
Proof.
  intros now self net results data self' net'.
  unfold trigger_fallback_if_needed. destruct results as [|r0 rest].
  { intros [= <- <- <-]. by left. }
  rewrite truediv_nonzero by (cbn [length]; lia).
  cbn -[count_status length Qltb].
  destruct (Qltb _ _).
  { intros [= <- <- <-]. by left. }
  destruct (answers net _) as [msg|msg code|msg|msg|[|first rest']];
    cbn -[count_status length]; intros [= <- <- <-]; right;
    do 2 eexists;
    (split; [cbn [fallback_events append_event set_cascading set_outcome
                    set_triggered];
             rewrite <- app_assoc; reflexivity|]);
    repeat split; eauto.
Qed.

End fallback_log_facts.

Section fallback_state_facts.
Import Py quality_checks fallback_pipeline notions_fallback.
Context (rt : Runtime).

(** X11.  Nothing in the pipeline ever clears [cascading_failure] or the
    recorded error: when a pipeline on which a cascading failure was
    flagged triggers again and the secondary source now answers, the data
    are returned and the status is [success], yet the report still shows
    [cascading_failure = True] and the cause and details of the earlier
    failure. *)
Theorem cascading_failure_is_never_cleared :
  forall now self net results data self' net',
    cascading_failure self = true ->
    trigger_fallback_if_needed rt now self net results = Ok (data, self', net') ->
    report_cascading_failure (get_fallback_report self') = true
    /\ (is_Some data ->
        report_status (get_fallback_report self') = SUCCESS
        /\ report_error_cause (get_fallback_report self') = error_cause self
        /\ report_error_details (get_fallback_report self') = error_details self).
Proof.
  intros now self net results data self' net' Hflag.
  unfold trigger_fallback_if_needed. destruct results as [|r0 rest].
  { intros [= <- <- <-]. split; [exact Hflag|]. intros [? [=]]. }
  rewrite truediv_nonzero by (cbn [length]; lia).
  cbn -[count_status length Qltb].
  destruct (Qltb _ _).
  { intros [= <- <- <-]. split; [exact Hflag|]. intros [? [=]]. }
  destruct (answers net _) as [msg|msg code|msg|msg|[|first rest']];
    cbn -[count_status length]; intros [= <- <- <-];
    (split; [first [exact Hflag | reflexivity]|]);
    first [ by intros [? [=]] | by intros _ ].
Qed.

End fallback_state_facts.

Lemma trigger_event_log_witness :
  let out :=
    fallback_pipeline.trigger_fallback_if_needed sample.runtime sample.noon
      (fallback_pipeline.init "uuid" (Some "test-trace-123") None)
      notions_fallback.answering
      (repeat (sample.result_with quality_checks.FAIL) 5) in
  exists data self' net',
    out = Py.Ok (data, self', net')
    /\ length (fallback_pipeline.fallback_events self') = 2%nat
    /\ is_Some data.
Proof.
  intros out. do 3 eexists. split; [reflexivity|].
  destruct (trigger_event_log sample.runtime sample.noon
              (fallback_pipeline.init "uuid" (Some "test-trace-123") None)
              notions_fallback.answering
              (repeat (sample.result_with quality_checks.FAIL) 5) _ _ _ eq_refl)
    as [(_ & _ & Hnone) | (first & second & Hlog & _ & _ & _ & _ & _)].
  - discriminate Hnone.
  - split; [by rewrite Hlog | by eexists].
Defined.

Lemma cascading_failure_is_never_cleared_witness :
  let out :=
    fallback_pipeline.trigger_fallback_if_needed sample.runtime sample.noon
      notions_fallback.after_timeout notions_fallback.answering
      (repeat (sample.result_with quality_checks.FAIL) 5) in
  exists data self' net',
    out = Py.Ok (Some data, self', net')
    /\ fallback_pipeline.report_cascading_failure
         (fallback_pipeline.get_fallback_report self') = true
    /\ fallback_pipeline.report_status
         (fallback_pipeline.get_fallback_report self') = fallback_pipeline.SUCCESS
    /\ fallback_pipeline.report_error_cause
         (fallback_pipeline.get_fallback_report self') = Some "FALLBACK_TIMEOUT".
Proof.
  intros out. do 3 eexists. split; [reflexivity|].
  destruct (cascading_failure_is_never_cleared sample.runtime sample.noon
              notions_fallback.after_timeout notions_fallback.answering
              (repeat (sample.result_with quality_checks.FAIL) 5) _ _ _
              eq_refl eq_refl) as [Hflag Hstale].
  split; [exact Hflag|].
  destruct (Hstale (ltac:(by eexists))) as (Hs & Hc & _).
  split; [exact Hs | exact Hc].
Defined.

(** The matches returned by a fetch are those of the response. *)
Example fetch_returns_the_body :
  (fallback_pipeline.fetch_from_fallback
     (fallback_pipeline.init "uuid" None None) notions_fallback.answering).1.1
  = Some [sample.lakers_warriors "2024-01-15T20:00:00Z"].
Proof. reflexivity. Qed.


(** ** Quality scores *)

Section quality_score_facts.
Import Py quality_checks quality_scoring.
Context (rt : Runtime).



Lemma hard_rule_no_warning now m acc rule :
  (forall r, check rule now m = Ok r -> passed r = false -> severity r = "error") ->
  acc_warnings (validate_rule rt now m acc rule) = acc_warnings acc.
Proof.
  intros Hhard. unfold validate_rule.
  destruct (check rule now m) as [r|e]; cbn; [|reflexivity].
  destruct (passed r) eqn:Hp; cbn; [reflexivity|].
  rewrite (Hhard r eq_refl Hp). reflexivity.
Qed.

Lemma validate_rule_one_warning now m acc rule :
  (length (acc_warnings (validate_rule rt now m acc rule))
   <= S (length (acc_warnings acc)))%nat.
Proof.
  unfold validate_rule.
  destruct (check rule now m) as [r|e]; cbn; [|lia].
  destruct (_ && _); rewrite ?length_app; cbn; lia.
Qed.

(** Of the four default rules only the last one can give a warning. *)
Lemma default_rules_one_warning trace now m :
  (length (warnings (validate_match rt (init rt trace) now m)) <= 1)%nat.
Proof.
  unfold validate_match, init, _setup_default_rules. cbn [rules warnings].
  rewrite !run_rules_cons. cbn [run_rules fold_left].
  etransitivity; [apply validate_rule_one_warning|].
  rewrite !hard_rule_no_warning; [cbn; lia | | |].
  all: cbn [check completeness_check validity_check consistency_check];
    intros r;
    try (unfold _check_consistency;
         match goal with |- context [mbind _ ?x] => destruct x as [same|e] end;
         cbn; [|discriminate]);
    intros [= <-]; cbn; by intros ->.
Qed.

(** X13.  On the results of the default checker the scorer distinguishes
    two classes only: a record that the checker marks [fail] is scored
    [FAIL], and every other record is scored [PASS], with the score 100 for
    a [pass] and 90 for a [warning]; the score status [WARNING] never
    occurs. *)
Theorem default_checker_score_status :
  forall trace now (match_data : gmap string PyVal),
    let result := validate_match rt (init rt trace) now match_data in
    let scored := calculate_match_score rt result in
    match quality_checks.status result with
    | FAIL => quality_scoring.status scored = "FAIL"
    | WARNING =>
        quality_scoring.status scored = "PASS"
        /\ score scored = round2 rt (inject_Z 90)
    | PASS =>
        quality_scoring.status scored = "PASS"
        /\ score scored = round2 rt (inject_Z 100)
    end.
Proof.
  intros trace now m result scored.
  pose proof (default_rules_one_warning trace now m) as Hw. fold result in Hw.
  assert (Hstatus : quality_checks.status result
                    = match errors result, warnings result with
                      | _ :: _, _ => FAIL
                      | [], _ :: _ => WARNING
                      | [], [] => PASS
                      end) by reflexivity.
  rewrite Hstatus. subst scored. unfold calculate_match_score.
  cbn [quality_scoring.status score].
  destruct (errors result) as [|e es], (warnings result) as [|w [|w' ws]];
    cbn in Hw; try lia; cbn [length]; try (split; reflexivity).
  all: unfold bounded_score, ERROR_WEIGHT, WARNING_WEIGHT;
    repeat match goal with
           | |- context [?a <=? ?b] => destruct (Z.leb_spec a b)
           end; try reflexivity; lia.
Qed.

End quality_score_facts.

Section grade_facts.
Import quality_scoring.

Lemma Qle_bool_mono (bound s1 s2 : Q) :
  (s1 <= s2)%Q -> Qle_bool bound s1 = true -> Qle_bool bound s2 = true.
Proof.
  intros Hle H. apply Qle_bool_iff. apply Qle_bool_iff in H.
  eapply Qle_trans; eassumption.
Qed.

(** X14.  [get_quality_grade] is monotone: a higher score never gets a
    worse grade. *)
Theorem get_quality_grade_monotone :
  forall s1 s2 : Q,
    (s1 <= s2)%Q ->
    (grade_rank (get_quality_grade s1) <= grade_rank (get_quality_grade s2))%nat.
Proof.
  intros s1 s2 Hle. unfold get_quality_grade.
  pose proof (Qle_bool_mono 95 s1 s2 Hle) as H95.
  pose proof (Qle_bool_mono 85 s1 s2 Hle) as H85.
  pose proof (Qle_bool_mono 75 s1 s2 Hle) as H75.
  pose proof (Qle_bool_mono 60 s1 s2 Hle) as H60.
  destruct (Qle_bool 95 s1); [rewrite H95 by reflexivity; cbn; lia|].
  destruct (Qle_bool 85 s1);
    [rewrite H85 by reflexivity; destruct (Qle_bool 95 s2); cbn; lia|].
  destruct (Qle_bool 75 s1);
    [rewrite H75 by reflexivity;
     destruct (Qle_bool 95 s2), (Qle_bool 85 s2); cbn; lia|].
  destruct (Qle_bool 60 s1);
    [rewrite H60 by reflexivity;
     destruct (Qle_bool 95 s2), (Qle_bool 85 s2), (Qle_bool 75 s2); cbn; lia|].
  cbn. lia.
Qed.

End grade_facts.

Lemma get_quality_grade_monotone_witness :
  (quality_scoring.grade_rank (quality_scoring.get_quality_grade 90)
   <= quality_scoring.grade_rank (quality_scoring.get_quality_grade (955 # 10)))%nat.
Proof.
  apply (get_quality_grade_monotone 90 (955 # 10)).
  unfold Qle. cbn. lia.
Defined.


(** ** Exclusion of matches *)

Section exclusion_facts.
Import Py exclusions notions_scoring.

Lemma split_cons self now m ms :
  List.filter (accepts self now) (m :: ms)
  = (if accepts self now m then [m] else []) ++ List.filter (accepts self now) ms
  /\ omap (rejection self now) (m :: ms)
    = (match rejection self now m with Some ex => [ex] | None => [] end)
      ++ omap (rejection self now) ms.
Proof.
  split; cbn; [destruct (accepts self now m) | destruct (rejection self now m)];
    reflexivity.
Qed.

Lemma check_loop_spec self now ms acc :
  match check_loop self now ms acc with
  | Ok (kept, excluded) =>
      Forall (fun m => answers self now m = true) ms
      /\ kept = acc.1 ++ List.filter (accepts self now) ms
      /\ excluded = acc.2 ++ omap (rejection self now) ms
  | Raise e =>
      exists before m after,
        ms = before ++ m :: after
        /\ Forall (fun m => answers self now m = true) before
        /\ check self now m = Raise e
  end.
Proof.
  revert acc. induction ms as [|m ms IH]; intros [kept excluded].
  - cbn. rewrite !app_nil_r. done.
  - cbn [check_loop]. unfold check_one.
    destruct (check self now m) as [[ex|]|e] eqn:E; cbn [mbind Result_bind].
    + specialize (IH (kept, excluded ++ [ex])).
      destruct (check_loop self now ms _) as [[kept' excluded']|e'].
      * destruct IH as (Hall & -> & ->). cbn [fst snd].
        split; [constructor; [unfold answers; by rewrite E | exact Hall]|].
        destruct (split_cons self now m ms) as [-> ->]. rewrite <- !app_assoc.
        replace (accepts self now m) with false by (unfold accepts; by rewrite E).
        replace (rejection self now m) with (Some ex)
          by (unfold rejection; by rewrite E).
        done.
      * destruct IH as (before & m' & after & -> & Hall & Hraise).
        exists (m :: before), m', after. split; [done|]. split; [|done].
        constructor; [unfold answers; by rewrite E | exact Hall].
    + specialize (IH (kept ++ [m], excluded)).
      destruct (check_loop self now ms _) as [[kept' excluded']|e'].
      * destruct IH as (Hall & -> & ->). cbn [fst snd].
        split; [constructor; [unfold answers; by rewrite E | exact Hall]|].
        destruct (split_cons self now m ms) as [-> ->]. rewrite <- !app_assoc.
        replace (accepts self now m) with true by (unfold accepts; by rewrite E).
        replace (rejection self now m) with (@None MatchExclusion)
          by (unfold rejection; by rewrite E).
        done.
      * destruct IH as (before & m' & after & -> & Hall & Hraise).
        exists (m :: before), m', after. split; [done|]. split; [|done].
        constructor; [unfold answers; by rewrite E | exact Hall].
    + exists [], m, ms. done.
Qed.

Lemma partition_lengths self now ms :
  Forall (fun m => answers self now m = true) ms ->
  (length (List.filter (accepts self now) ms)
   + length (omap (rejection self now) ms) = length ms)%nat.
Proof.
  induction 1 as [|m ms Hm _ IH]; [reflexivity|].
  destruct (split_cons self now m ms) as [-> ->]. rewrite !length_app.
  unfold answers in Hm. unfold accepts at 1, rejection at 1.
  destruct (check self now m) as [[ex|]|e]; [| |discriminate]; cbn; lia.
Qed.

(** X15.  [check_batch] splits the batch without losing or reordering
    anything: when it returns, every match was answered by [check], the
    first list holds the accepted matches and the second the exclusions of
    the others, both in the order of the batch, and their lengths add up to
    the size of the batch.  It raises exactly the exception of the first
    match on which [check] raises, and the lists built so far are lost. *)
Theorem check_batch_partition :
  forall self now (matches : list (gmap string PyVal)),
    match check_batch self now matches with
    | Ok (kept, excluded) =>
        Forall (fun m => answers self now m = true) matches
        /\ kept = List.filter (accepts self now) matches
        /\ excluded = omap (rejection self now) matches
        /\ (length kept + length excluded = length matches)%nat
    | Raise e =>
        exists before m after,
          matches = before ++ m :: after
          /\ Forall (fun m => answers self now m = true) before
          /\ check self now m = Raise e
    end.
Proof.
  intros self now ms. unfold check_batch.
  pose proof (check_loop_spec self now ms ([], [])) as H.
  destruct (check_loop self now ms _) as [[kept excluded]|e]; [|exact H].
  destruct H as (Hall & -> & ->). cbn [fst snd app].
  repeat split; try done. by apply partition_lengths.
Qed.

End exclusion_facts.


Section check_facts.
Import Py exclusions notions_scoring.








End check_facts.


(** ** The scoring run *)

Section scoring_run_facts.
Import Py exclusions postgres_writer scoring_pipeline scoring_run notions_scoring.
Context (rt : Runtime) (faults : nat -> Fault).
Context (heuristics :
  PyVal -> PyVal ->
  Result (gmap string PyVal * gmap string PyVal * gmap string PyVal)).

Lemma retry_loop_outcome self now run signals remaining w :
  let out := retry_loop rt faults self now run signals remaining w in
  (out.1 = false
   /\ rows out.2 = rows w
   /\ save_calls out.2 = (save_calls w + length remaining)%nat)
  \/ (out.1 = true
      /\ exists entities,
           mapM (make_entity rt now run) signals = Ok entities
           /\ rows out.2 = upsert_all entities (rows w)).
Proof.
  revert w. induction remaining as [|attempt rest IH]; intros w; cbn zeta.
  - left. cbn. repeat split. lia.
  - cbn [retry_loop].
    destruct (attempt_succeeds rt (faults (save_calls w)) now run signals) eqn:E.
    + destruct (attempt_save_succeeds rt faults now run signals w E)
        as (entities & Hmap & ->).
      right. cbn. eauto.
    + destruct (attempt_save_fails rt faults now run signals w E) as [e ->].
      match goal with |- context [retry_loop _ _ _ _ _ _ _ ?w1] =>
        specialize (IH w1);
        assert (Hc : save_calls w1 = S (save_calls w))
          by (destruct (_ <? _); reflexivity);
        assert (Hr : rows w1 = rows w) by (destruct (_ <? _); reflexivity)
      end.
      cbn zeta in IH. rewrite Hc, Hr in IH.
      destruct IH as [(H1 & H2 & H3) | H]; [left | right; exact H].
      repeat split; [exact H1 | exact H2 | rewrite H3; cbn; lia].
Qed.

(** X18.  A scoring run ends in one of two ways.  Either its status is
    [success], there is no error cause, and the rows of the table are the
    previous rows with the entities of exactly the returned signals written
    over them; or its status is [failed], an error cause is given, no signal
    is returned and the rows of the table are as they were. *)
Theorem score_matches_outcome :
  forall self now run trace (matches : list (gmap string PyVal)) w,
    let out := score_matches rt faults heuristics self now run trace matches w in
    (status out.1 = "success"
     /\ error_cause out.1 = None
     /\ exists entities,
          mapM (make_entity rt now run) (signals out.1) = Ok entities
          /\ rows out.2 = upsert_all entities (rows w))
    \/ (status out.1 = "failed"
        /\ is_Some (error_cause out.1)
        /\ signals out.1 = []
        /\ rows out.2 = rows w).
Proof.
  intros self now run trace matches w. cbn zeta. unfold score_matches.
  destruct (check_batch _ now matches) as [[kept excluded]|e];
    [|right; cbn; eauto].
  destruct (omap _ kept) as [|signal generated] eqn:G.
  - left. cbn. repeat split. exists []. done.
  - pose proof (retry_loop_outcome self now run (signal :: generated)
                  (range 1 (max_retries self + 1)) w) as H.
    cbn zeta in H. unfold _persist_signals_with_retry.
    destruct (retry_loop _ _ _ _ _ _ _ w) as [success w'].
    cbn [fst snd] in H.
    destruct H as [(-> & Hrows & _) | (-> & entities & Hmap & Hrows)].
    + right. cbn. eauto.
    + left. cbn. eauto.
Qed.

(** X19.  The statistics of a run.  [total] is the size of the batch; the
    number of generated signals never exceeds the number of eligible
    matches; one exclusion entry is returned per excluded match.  When the
    status is [success], eligible and excluded matches add up to the total,
    and the signals returned are as many as were generated.  When no signal
    was generated, the database is not called at all. *)
Theorem score_matches_stats :
  forall self now run trace (matches : list (gmap string PyVal)) w,
    let out := score_matches rt faults heuristics self now run trace matches w in
    let counted := stats out.1 in
    total counted = Z.of_nat (length matches)
    /\ 0 <= signals_generated counted <= eligible counted
    /\ excluded counted = Z.of_nat (length (scoring_run.exclusions out.1))
    /\ (status out.1 = "success" ->
        eligible counted + excluded counted = total counted
        /\ signals_generated counted = Z.of_nat (length (signals out.1)))
    /\ (signals_generated counted = 0 -> out.2 = w).
Proof.
  intros self now run trace matches w. cbn zeta. unfold score_matches.
  pose proof (check_loop_spec (exclusion_checker self) now matches ([], [])) as Hc.
  unfold check_batch.
  destruct (check_loop _ now matches _) as [[kept excluded]|e].
  2:{ cbn. repeat split; try lia; discriminate. }
  destruct Hc as (Hall & Hk & He). cbn [fst snd app] in Hk, He.
  pose proof (partition_lengths _ now matches Hall) as Hlen.
  rewrite <- Hk, <- He in Hlen.
  assert (Hgen : (length (omap (_generate_signal_for_match rt heuristics now) kept)
                  <= length kept)%nat).
  { clear. induction kept as [|m kept IH]; [done|].
    cbn. destruct (_generate_signal_for_match _ _ _ m); cbn; lia. }
  destruct (omap _ kept) as [|signal generated] eqn:G.
  - cbn. rewrite length_map. repeat split; try lia.
  - unfold _persist_signals_with_retry.
    destruct (retry_loop _ _ _ _ _ _ _ w) as [[|] w'];
      cbn in Hgen |- *; rewrite length_map;
      repeat split; try lia; try discriminate.
Qed.

End scoring_run_facts.


Section scoring_run_failures.
Import Py exclusions postgres_writer scoring_pipeline scoring_run notions_scoring.
Context (rt : Runtime) (faults : nat -> Fault).
Context (heuristics :
  PyVal -> PyVal ->
  Result (gmap string PyVal * gmap string PyVal * gmap string PyVal)).

Lemma check_loop_raises self now before m after acc e :
  Forall (fun m => answers self now m = true) before ->
  check self now m = Raise e ->
  check_loop self now (before ++ m :: after) acc = Raise e.
Proof.
  intros Hall Hraise. revert acc.
  induction Hall as [|first before Hfirst _ IH]; intros acc; cbn.
  - unfold check_one. rewrite Hraise. reflexivity.
  - unfold check_one. unfold answers in Hfirst.
    destruct (check self now first) as [[ex|]|e']; [| |discriminate];
      cbn; apply IH.
Qed.

(** X20.  One match on which the exclusion check raises makes the whole
    run fail, wherever it stands in the batch: the status is [failed], the
    error cause is the text of the exception, no signal is returned, the
    exclusions found before it are not reported (the list is empty and the
    counters are 0), and the database is not called. *)
Theorem score_matches_check_failure :
  forall self now run trace before m after w e,
    Forall (fun m => answers (exclusion_checker self) now m = true) before ->
    check (exclusion_checker self) now m = Raise e ->
    let out := score_matches rt faults heuristics self now run trace
                 (before ++ m :: after) w in
    status out.1 = "failed"
    /\ error_cause out.1 = Some (exn_msg e)
    /\ signals out.1 = []
    /\ scoring_run.exclusions out.1 = []
    /\ eligible (stats out.1) = 0
    /\ excluded (stats out.1) = 0
    /\ out.2 = w.
Proof.
  intros self now run trace before m after w e Hall Hraise. cbn zeta.
  unfold score_matches, check_batch.
  rewrite (check_loop_raises _ now before m after _ e Hall Hraise).
  cbn. done.
Qed.

Lemma mapM_raises {A B} (f : A -> Result B) (l : list A) x e :
  x ∈ l -> f x = Raise e -> exists e', mapM f l = Raise e'.
Proof.
  intros Hin Hx. induction l as [|y l IH]; [by apply elem_of_nil in Hin|].
  cbn. apply elem_of_cons in Hin as [<- | Hin].
  - rewrite Hx. cbn. eauto.
  - destruct (f y) as [b|e']; cbn; [|eauto].
    destruct (IH Hin) as [e' ->]. cbn. eauto.
Qed.

Lemma unsavable_signal fault now run signals signal e :
  signal ∈ signals ->
  parse_scheduled_at rt (dict_get signal "scheduled_at" (PyStr (isoformat rt now)))
  = Raise e ->
  attempt_succeeds rt fault now run signals = false.
Proof.
  intros Hin Hparse.
  destruct (mapM_raises (make_entity rt now run) signals signal e Hin) as [e' Hmap].
  { unfold make_entity. rewrite Hparse. reflexivity. }
  unfold attempt_succeeds, save_signals.
  destruct fault; cbn; rewrite ?Hmap; reflexivity.
Qed.

Lemma generated_scheduled_at now m signal :
  _generate_signal_for_match rt heuristics now m = Some signal ->
  forall dflt, dict_get signal "scheduled_at" dflt = dict_get m "scheduled_at" PyNone.
Proof.
  unfold _generate_signal_for_match.
  destruct (heuristics _ _) as [[[winner projection] ou]|e]; [|discriminate].
  intros [= <-] dflt. unfold dict_get at 1.
  repeat (rewrite lookup_insert_ne by done). by rewrite lookup_insert_eq.
Qed.

(** X21.  The exclusion check does not look at the date of a match, but
    the writer needs it: when, in a batch on which the check does not raise,
    a match that is accepted and for which the heuristics returned has a
    [scheduled_at] that the writer cannot parse
    (the key is absent, or the value is [None], a datetime object or a text
    that is not an ISO date), every attempt to save the batch fails
    whatever the database does.  The run then makes all its attempts, ends
    with the status [failed] and the cause of a persistence failure, returns
    no signal, and writes nothing, the signals of the other matches
    included. *)
Theorem score_matches_unparsable_date :
  forall self now run trace (matches : list (gmap string PyVal)) m w answer e,
    Forall (fun m => answers (exclusion_checker self) now m = true) matches ->
    m ∈ matches ->
    accepts (exclusion_checker self) now m = true ->
    heuristics (dict_get m "home_stats" (PyDict ∅))
               (dict_get m "away_stats" (PyDict ∅)) = Ok answer ->
    parse_scheduled_at rt (dict_get m "scheduled_at" PyNone) = Raise e ->
    let out := score_matches rt faults heuristics self now run trace matches w in
    status out.1 = "failed"
    /\ error_cause out.1 = Some "Failed to persist signals after all retries"
    /\ signals out.1 = []
    /\ rows out.2 = rows w
    /\ save_calls out.2 = (save_calls w + Z.to_nat (max_retries self))%nat.
Proof.
  intros self now run trace matches m w answer e Hall Hin Hacc Hheur Hparse.
  cbn zeta. unfold score_matches, check_batch.
  pose proof (check_loop_spec (exclusion_checker self) now matches ([], [])) as Hc.
  destruct (check_loop _ now matches _) as [[kept excluded]|e'].
  2:{ destruct Hc as (before & m' & after & -> & _ & Hraise).
      apply Forall_app in Hall as [_ Hall]. apply Forall_cons in Hall as [Hm' _].
      unfold answers in Hm'. rewrite Hraise in Hm'. discriminate. }
  destruct Hc as (_ & Hk & _). cbn [fst snd app] in Hk.
  assert (Hkept : m ∈ kept).
  { rewrite Hk. apply list_elem_of_In, filter_In. split; [|exact Hacc].
    by apply list_elem_of_In. }
  destruct (_generate_signal_for_match rt heuristics now m) as [signal|] eqn:Hsig.
  2:{ unfold _generate_signal_for_match in Hsig. rewrite Hheur in Hsig.
      by destruct answer as [[? ?] ?]. }
  assert (Hgen : signal ∈ omap (_generate_signal_for_match rt heuristics now) kept).
  { apply list_elem_of_omap. eauto. }
  destruct (omap _ kept) as [|first generated] eqn:G;
    [by apply elem_of_nil in Hgen|].
  pose proof (retry_loop_all_fail rt faults self now run (first :: generated)
                (range 1 (max_retries self + 1)) w) as Hfail.
  cbn zeta in Hfail. rewrite length_attempts in Hfail.
  unfold _persist_signals_with_retry.
  destruct (retry_loop _ _ _ _ _ _ _ w) as [success w'].
  cbn [fst snd] in Hfail.
  destruct Hfail as (-> & Hcalls & Hrows).
  { intros i _. apply (unsavable_signal _ now run _ signal e Hgen).
    rewrite (generated_scheduled_at now m signal Hsig). exact Hparse. }
  cbn. done.
Qed.

End scoring_run_failures.

Lemma score_matches_check_failure_witness :
  scoring_run.status
    (scoring_run.score_matches sample.runtime sample_scoring.healthy
       sample_scoring.flat_heuristics scoring_pipeline.init sample.noon
       "run_007" "trace_007"
       ([sample_scoring.finished_match]
        ++ sample_scoring.match_without_quality :: [sample_scoring.match_001])
       sample.empty_world).1
  = "failed".
Proof.
  refine (proj1 (score_matches_check_failure sample.runtime sample_scoring.healthy
                   sample_scoring.flat_heuristics scoring_pipeline.init sample.noon
                   "run_007" "trace_007" [sample_scoring.finished_match]
                   sample_scoring.match_without_quality [sample_scoring.match_001]
                   sample.empty_world
                   {| Py.exn_class := "TypeError";
                      Py.exn_msg := "'<' not supported between instances of "
                                    +:+ "'NoneType' and 'float'" |} _ _)).
  - repeat constructor.
  - reflexivity.
Defined.

Lemma score_matches_unparsable_date_witness :
  scoring_run.status
    (scoring_run.score_matches sample.runtime sample_scoring.healthy
       sample_scoring.flat_heuristics scoring_pipeline.init sample.noon
       "run_006" "trace_006"
       [sample_scoring.match_001; sample_scoring.match_without_date]
       sample.empty_world).1
  = "failed".
Proof.
  refine (proj1 (score_matches_unparsable_date sample.runtime sample_scoring.healthy
                   sample_scoring.flat_heuristics scoring_pipeline.init sample.noon
                   "run_006" "trace_006"
                   [sample_scoring.match_001; sample_scoring.match_without_date]
                   sample_scoring.match_without_date sample.empty_world
                   _ (Py.AttributeError Py.PyNone "replace") _ _ _ _ _)).
  - repeat constructor.
  - set_solver.
  - reflexivity.
  - reflexivity.
  - reflexivity.
Defined.


(** ** Ingestion *)

Section ingest_facts.
Import Py ingest_pipeline.
Context (MatchInput : gmap string PyVal -> Result (gmap string PyVal)).

(** X22.  What [run] returns, whatever the source answers and whatever
    the contract accepts.  Exactly one request is made, to the source URL.
    Either the result is a [success] without error cause, its count is the
    number of matches it carries, the pipeline keeps the same matches and
    the source had answered with a JSON object; or the result is an
    [error] that carries no match and the count 0, the pipeline is in the
    state [source_error] with its collected matches untouched, and the cause
    is one of the four causes of the module.  The result carries the trace
    and run identifiers of the pipeline in both cases. *)
Theorem run_result_invariant :
  forall self now net,
    let out := run MatchInput self now net in
    let result := out.1.1 in
    let self' := out.1.2 in
    requested out.2 = requested net ++ [source_url self]
    /\ result_trace_id result = trace_id self
    /\ result_run_id result = run_id self
    /\ ((result_status result = "success"
         /\ result_error_cause result = None
         /\ status self' = SUCCESS
         /\ matches_count result = Z.of_nat (length (matches result))
         /\ collected_matches self' = matches result
         /\ exists d, answers net (length (requested net)) = Returns (PyDict d))
        \/ (result_status result = "error"
            /\ matches result = []
            /\ matches_count result = 0
            /\ status self' = SOURCE_ERROR
            /\ collected_matches self' = collected_matches self
            /\ exists cause,
                 result_error_cause result = Some cause
                 /\ error_cause self' = Some cause
                 /\ cause ∈ error_causes)).
Proof.
  intros self now net. cbn zeta.
  unfold run, fetch_matches_from_source, requests_get, error_causes.
  destruct (answers net (length (requested net)))
    as [msg|msg [code|]|msg|e|data] eqn:Hanswer; cbn;
    try (repeat split; right; repeat split; eexists; repeat split; set_solver).
  destruct data as [| | | | | | |d]; cbn;
    try (repeat split; right; repeat split; eexists; repeat split; set_solver).
  destruct (len (dict_get d "games" (PyList []))) as [n|e]; cbn;
    [|repeat split; right; repeat split; eexists; repeat split; set_solver].
  unfold validate_matches_batch.
  destruct (dict_get d "games" (PyList [])); cbn;
    (repeat split; left; repeat split; eauto).
Qed.

(** X23.  Records that the contract rejects are dropped without a trace in
    the result: when the source answers with a JSON object whose [games] is
    a list, the run is a [success] whatever the contract says of the
    records, the matches returned are the validated forms of the accepted
    records, in the order of the body, and a body none of whose records is
    accepted gives a [success] with the count 0. *)
Theorem run_keeps_the_valid_matches :
  forall self now net (body : gmap string PyVal) (games : list PyVal),
    answers net (length (requested net)) = Returns (PyDict body) ->
    body !! "games" = Some (PyList games) ->
    let result := (run MatchInput self now net).1.1 in
    result_status result = "success"
    /\ matches result = omap (validated MatchInput) games
    /\ matches_count result <= Z.of_nat (length games)
    /\ (Forall (fun g => validated MatchInput g = None) games ->
        matches_count result = 0 /\ matches result = []).
Proof.
  intros self now net body games Hanswer Hgames. cbn zeta.
  unfold run, fetch_matches_from_source, requests_get. rewrite Hanswer.
  unfold dict_get. rewrite Hgames. cbn.
  assert (Hle : (length (omap (validated MatchInput) games) <= length games)%nat).
  { clear. induction games as [|g games IH]; [done|].
    cbn. destruct (validated MatchInput g); cbn; lia. }
  split; [reflexivity|]. split; [reflexivity|]. split; [lia|].
  intros Hnone.
  assert (Hnil : omap (validated MatchInput) games = []).
  { clear -Hnone. induction Hnone as [|g games Hg _ IH]; [done|].
    cbn. rewrite Hg. exact IH. }
  rewrite Hnil. done.
Qed.

End ingest_facts.

Lemma run_keeps_the_valid_matches_witness :
  ingest_pipeline.result_status
    (ingest_pipeline.run ingest_pipeline.sample_contract
       (ingest_pipeline.init "uuid-1" "uuid-2" (Some "test-trace-123") None)
       sample.noon
       (ingest_pipeline.serving
          [Py.PyDict (sample.incomplete "nba-002"); Py.PyStr "nba-003"])).1.1
  = "success".
Proof.
  refine (proj1 (run_keeps_the_valid_matches ingest_pipeline.sample_contract
                   (ingest_pipeline.init "uuid-1" "uuid-2" (Some "test-trace-123") None)
                   sample.noon
                   (ingest_pipeline.serving
                      [Py.PyDict (sample.incomplete "nba-002"); Py.PyStr "nba-003"])
                   {[ "games" := Py.PyList [Py.PyDict (sample.incomplete "nba-002");
                                            Py.PyStr "nba-003"] ]}
                   [Py.PyDict (sample.incomplete "nba-002"); Py.PyStr "nba-003"]
                   _ _)).
  - reflexivity.
  - reflexivity.
Defined.
